(** * Regression tools of the intelligent simulation handler

    A shallow embedding of [simhandler/regressiontools.py] and of the sweep
    in [tests/annnohousestiming.py].

    The classes are thin sequences of calls into Keras, TensorFlow, NumPy,
    h5py and matplotlib.  Those libraries are not part of the repository:
    every call into them is recorded as an [event] of a trace, its outcome
    (normal return or exception, and the value returned) is chosen by an
    [Environment], and what the repository's own code does around the calls
    (slicing, guards, loops, exception handlers, string formatting and
    parsing) is modelled as written. *)

From Stdlib Require Import ZArith String Ascii List Lia Bool Floats DecimalString.
Import ListNotations.
Local Open Scope string_scope.
Local Open Scope list_scope.
Local Open Scope Z_scope.

Set Implicit Arguments.
Set Warnings "-notation-overridden,-inexact-float,-ambiguous-paths,-rewrite-rw".

(** ** Python and NumPy primitives *)

(** [norm_index n i]: where a slice bound [i] lands in a sequence of length
    [n]; negative bounds count from the end, and every bound is clamped to
    [0..n]. *)
Definition norm_index (n i : Z) : Z :=
  if i <? 0 then Z.max 0 (i + n) else Z.min i n.

(** [py_slice lo hi l] is [l[lo:hi]] (step 1); [None] is an omitted bound. *)
Definition py_slice {A : Type} (lo hi : option Z) (l : list A) : list A :=
  let n := Z.of_nat (length l) in
  let a := match lo with None => 0 | Some i => norm_index n i end in
  let b := match hi with None => n | Some i => norm_index n i end in
  firstn (Z.to_nat (b - a)) (skipn (Z.to_nat a) l).

(** Truncation of a binary64 value toward zero, and its ceiling; [None] for
    infinities and NaN. *)
Definition float_trunc (f : float) : option Z :=
  match Prim2SF f with
  | S754_zero _ => Some 0
  | S754_finite s m e =>
      let mag := if 0 <=? e then Z.pos m * 2 ^ e else Z.pos m / 2 ^ (- e) in
      Some (if s then - mag else mag)
  | S754_infinity _ => None
  | S754_nan => None
  end.

Definition float_ceil (f : float) : option Z :=
  match Prim2SF f with
  | S754_zero _ => Some 0
  | S754_finite s m e =>
      if 0 <=? e then Some ((if s then -1 else 1) * (Z.pos m * 2 ^ e))
      else
        let q := Z.pos m / 2 ^ (- e) in
        let r := Z.pos m mod 2 ^ (- e) in
        Some (if s then - q else if r =? 0 then q else q + 1)
  | S754_infinity _ => None
  | S754_nan => None
  end.

(** The conversion of a Python [int] operand in [float * int]. *)
Definition float_of_Z (z : Z) : float :=
  if z <? 0 then (- PrimFloat.of_uint63 (Uint63.of_Z (- z)))%float
  else PrimFloat.of_uint63 (Uint63.of_Z z).

(** [train_percentage * len(load_profile)], the argument of [int]. *)
Definition split_product (train_percentage : float) (len : nat) : float :=
  (train_percentage * float_of_Z (Z.of_nat len))%float.

(** [np.arange(start, stop, step)] on integers, for a positive step. *)
Definition np_arange_int (start stop step : Z) : list Z :=
  let n := Z.to_nat ((stop - start + step - 1) / step) in
  map (fun i => start + Z.of_nat i * step) (seq 0 n).

(** [np.arange(start, stop, step)] on floats: the length is
    [ceil((stop - start) / step)], and element [i] is [start + i * delta]
    with [delta = (start + step) - start]. *)
Definition np_arange_float (start stop step : float) : option (list float) :=
  match float_ceil ((stop - start) / step)%float with
  | Some n =>
      let delta := ((start + step) - start)%float in
      Some (map (fun i =>
                   match i with
                   | O => start
                   | S O => (start + step)%float
                   | _ => (start + float_of_Z (Z.of_nat i) * delta)%float
                   end) (seq 0 (Z.to_nat n)))
  | None => None
  end.

(** [s.replace(old, new)] for a one-character [old]. *)
Fixpoint replace_char (old : ascii) (new : string) (s : string) : string :=
  match s with
  | EmptyString => EmptyString
  | String c s' =>
      if Ascii.eqb c old then (new ++ replace_char old new s')%string
      else String c (replace_char old new s')
  end.

(** [s[lo:hi]] on a string. *)
Definition str_slice (lo hi : option Z) (s : string) : string :=
  string_of_list_ascii (py_slice lo hi (list_ascii_of_string s)).

Definition newline : ascii := ascii_of_nat 10.
Definition carriage_return : ascii := ascii_of_nat 13.
Definition backslash : ascii := ascii_of_nat 92.

(** [str(n)] for a Python [int]. *)
Definition str_of_Z (z : Z) : string :=
  DecimalString.NilZero.string_of_int (Z.to_int z).

(** Universal-newline translation of a text file opened for reading:
    [\r\n] and a lone [\r] both read as [\n]. *)
Fixpoint universal_newlines (s : string) : string :=
  match s with
  | EmptyString => EmptyString
  | String c rest =>
      if Ascii.eqb c carriage_return then
        match rest with
        | String c2 rest2 =>
            if Ascii.eqb c2 newline then String newline (universal_newlines rest2)
            else String newline (universal_newlines rest)
        | EmptyString => String newline EmptyString
        end
      else String c (universal_newlines rest)
  end.

(** [for line in file]: the lines of a text, each with its terminating
    newline (the last one may lack it).  [cur] is the line being read. *)
Fixpoint file_lines_from (cur : string) (s : string) : list string :=
  match s with
  | EmptyString => match cur with EmptyString => [] | _ => [cur] end
  | String c rest =>
      if Ascii.eqb c newline
      then (cur ++ String c EmptyString)%string :: file_lines_from EmptyString rest
      else file_lines_from (cur ++ String c EmptyString)%string rest
  end.

Definition file_lines (s : string) : list string :=
  file_lines_from EmptyString s.

(** [s.split(', ')]: the fields between the leftmost non-overlapping
    occurrences of the two-character separator.  [cur] is the field being
    read. *)
Fixpoint split_comma_space_from (cur : string) (s : string) : list string :=
  match s with
  | EmptyString => [cur]
  | String c rest =>
      match rest with
      | String c2 rest2 =>
          if Ascii.eqb c "," && Ascii.eqb c2 " "
          then cur :: split_comma_space_from EmptyString rest2
          else split_comma_space_from (cur ++ String c EmptyString)%string rest
      | EmptyString => [(cur ++ String c EmptyString)%string]
      end
  end.

Definition split_comma_space (s : string) : list string :=
  split_comma_space_from EmptyString s.

(** ** Data *)

(** A two-dimensional NumPy array: its rows, and [shape[1]] (kept apart so
    that an array without rows still has a width). *)
Record ndarray := NdArray { nd_rows : list (list float); nd_cols : nat }.

(** [a[lo:hi]]: a slice along the first axis. *)
Definition nd_slice (lo hi : option Z) (a : ndarray) : ndarray :=
  {| nd_rows := py_slice lo hi (nd_rows a); nd_cols := nd_cols a |}.

(** [len(a)] and [a.shape[0]]. *)
Definition nd_len (a : ndarray) : nat := length (nd_rows a).

(** An entry of [solution_matrix]: a Python or NumPy integer, or a float. *)
Inductive num := NInt (z : Z) | NFloat (f : float).

(** An argument where the code expects a string; [POther] is any object
    that is not a string. *)
Inductive pyarg := PStr (s : string) | POther.

(** A Keras layer as the code constructs it. *)
Inductive layer :=
| Dense (units : Z) (relu : bool) (input_shape : option nat)
| Dropout (rate : float).

(** What the code has asked of a Keras model so far. *)
Record kmodel := KModel { k_layers : list layer; k_learning_rate : option float }.

(** The content of a file. *)
Inductive file :=
| TextFile (content : string)
| H5File (datasets : list (string * ndarray))
| WeightsFile (m : kmodel).

Definition filesys := string -> option file.

Definition fs_write (path : string) (f : file) (fs : filesys) : filesys :=
  fun p => if String.eqb p path then Some f else fs p.

(** ** Calls out of the repository's code *)

Inductive event :=
(* keras and tensorflow *)
| KerasSequential
| ModelAdd (l : layer)
| RMSPropOptimizer (learning_rate : float)
| ModelCompile
| EarlyStoppingNew (patience : Z)
| ModelFit (epochs : Z) (with_callback : bool)
| ModelEvaluate
| ModelPredict
| ModelToJson
| ModelSaveWeights (path : string)
| ModelFromJson (json : string)
| ModelLoadWeights (path : string)
| TfConstant (name : string)
| TfTranspose
| TfMatmul
| TfMatrixInverse
| TfSession
| TfEval
(* numpy *)
| NpDot
| NpRmse
| NpPolyfit
(* matplotlib *)
| Plt (f : string)
(* files *)
| FileOpen (path : string) (mode : string)
| FileWrite (path : string)
| FileRead (path : string)
| JsonDump (path : string)
| H5Open (path : string) (mode : string)
| H5CreateDataset (path : string) (name : string)
| H5GetItem (path : string) (name : string)
(* clock and console *)
| TimeRead
| DatetimeNow
| Stdout
(* modules of the repository that the timing script imports *)
| GenerateJson (no_houses : Z) (name : string)
| PowerFlowSimNew (length : Z) (topology : string) (config : string)
| NrPfSim
| PfsGet (attribute : string)
| TrainANNNew
| TrainANNCall (method : string).

Inductive exn :=
| NameError (name : string)
| AttributeError (name : string)
| TypeError
| ValueError
| OverflowError
| IndexError
| KeyError (key : string)
| FileNotFoundError (path : string)
| UnicodeEncodeError
| LibraryError (e : event).

Inductive result (A : Type) :=
| Ok (a : A)
| Raise (e : exn).
Arguments Ok {A} a.
Arguments Raise {A} e.

Record world := World { trace : list event; files : filesys }.

(** What the code cannot decide: whether a call raises, given the calls made
    before it, and the values the libraries hand back. *)
Class Environment := {
  raises : list event -> event -> bool;
  clock : list event -> float;
  now_string : list event -> string;
  evaluate_out : list event -> float * float;
  rmse_out : list event -> float;
  model_json : kmodel -> string;
  json_dumps : string -> string;
  model_from_json : string -> option kmodel;
  theta_out : ndarray -> ndarray -> ndarray;
  prediction_out : ndarray -> ndarray -> list (list float) -> ndarray;
  float_repr : float -> string;
  float_parse : string -> option float;
  stdout_encodes : string -> bool
}.

(** ** Computations on an object [S] in a world *)

Definition M (S A : Type) := S -> world -> result A * S * world.

Definition ret {S A : Type} (a : A) : M S A := fun s w => (Ok a, s, w).

Definition bind {S A B : Type} (m : M S A) (f : A -> M S B) : M S B :=
  fun s w =>
    match m s w with
    | (Ok a, s', w') => f a s' w'
    | (Raise e, s', w') => (Raise e, s', w')
    end.

Definition raise {S A : Type} (e : exn) : M S A := fun s w => (Raise e, s, w).

Notation "x <- m ;; k" := (bind m (fun x => k))
  (at level 61, m at next level, right associativity).
Notation "m ;; k" := (bind m (fun _ => k))
  (at level 61, right associativity).

(** [try: body except BaseException as ex: handler]. *)
Definition try_except {S A : Type} (body : M S A) (handler : exn -> M S A) : M S A :=
  fun s w =>
    match body s w with
    | (Ok a, s', w') => (Ok a, s', w')
    | (Raise e, s', w') => handler e s' w'
    end.

Definition get_self {S : Type} : M S S := fun s w => (Ok s, s, w).
Definition set_self {S : Type} (f : S -> S) : M S unit := fun s w => (Ok tt, f s, w).
Definition get_world {S : Type} : M S world := fun s w => (Ok w, s, w).
Definition set_files {S : Type} (f : filesys -> filesys) : M S unit :=
  fun s w => (Ok tt, s, {| trace := trace w; files := f (files w) |}).

(** Read an attribute of [self]; an attribute never assigned raises. *)
Definition attr {S A : Type} (name : string) (proj : S -> option A) : M S A :=
  fun s w =>
    match proj s with
    | Some a => (Ok a, s, w)
    | None => (Raise (AttributeError name), s, w)
    end.

(** Unwrap a partial primitive, raising [e] where Python raises. *)
Definition lift {S A : Type} (e : exn) (o : option A) : M S A :=
  match o with
  | Some a => ret a
  | None => raise e
  end.

(** [for x in xs: body x]. *)
Fixpoint for_each {S A : Type} (xs : list A) (body : A -> M S unit) : M S unit :=
  match xs with
  | [] => ret tt
  | x :: rest => body x ;; for_each rest body
  end.

(** [[m for i in range(n)]], and a loop appending [m] to a list [n] times. *)
Fixpoint collect {S A : Type} (n : nat) (m : M S A) : M S (list A) :=
  match n with
  | O => ret []
  | S n' => x <- m ;; rest <- collect n' m ;; ret (x :: rest)
  end.

(** [range(lo, hi)]. *)
Definition py_range (lo hi : Z) : list Z :=
  map (fun i => lo + Z.of_nat i) (seq 0 (Z.to_nat (hi - lo))).

(** Run a computation on another object [o], as a method call on it. *)
Definition on_object {S T A : Type} (o : T) (m : M T A) : M S (A * T) :=
  fun s w =>
    match m o w with
    | (Ok a, o', w') => (Ok (a, o'), s, w')
    | (Raise e, _, w') => (Raise e, s, w')
    end.

(** ASCII text: what every encoding of [sys.stdout] can write. *)
Definition is_ascii (s : string) : bool :=
  forallb (fun c => Nat.ltb (nat_of_ascii c) 128) (list_ascii_of_string s).

(** The part of [str(ex)] that comes from the caller: the path in the
    message of a missing file.  The other messages are texts of Python and
    of the libraries, taken to be ASCII. *)
Definition exn_text (ex : exn) : string :=
  match ex with
  | FileNotFoundError path => path
  | _ => EmptyString
  end.

Section Calls.
Context {env : Environment}.
Variable S : Type.

(** A call into a library: recorded, and it raises when the environment says
    so. *)
Definition call (e : event) : M S unit :=
  fun s w =>
    let w' := {| trace := trace w ++ [e]; files := files w |} in
    if raises (trace w) e then (Raise (LibraryError e), s, w') else (Ok tt, s, w').

(** A call that hands back a value read off the calls made so far. *)
Definition call_value {A : Type} (e : event) (out : list event -> A) : M S A :=
  fun s w =>
    let w' := {| trace := trace w ++ [e]; files := files w |} in
    if raises (trace w) e then (Raise (LibraryError e), s, w')
    else (Ok (out (trace w)), s, w').

(** [print(...)] of a fixed text or of numbers: recorded; it returns. *)
Definition print : M S unit :=
  fun s w => (Ok tt, s, {| trace := trace w ++ [Stdout]; files := files w |}).

(** [print(msg.format(..., ex))] in an [except] clause: the message embeds
    the text of the exception.  Text that is not ASCII is written only if
    [sys.stdout] can encode it; otherwise [print] raises
    [UnicodeEncodeError] and nothing is written. *)
Definition printable (ex : exn) : bool :=
  is_ascii (exn_text ex) || stdout_encodes (exn_text ex).

Definition print_exn (ex : exn) : M S unit :=
  fun s w =>
    if printable ex
    then (Ok tt, s, {| trace := trace w ++ [Stdout]; files := files w |})
    else (Raise UnicodeEncodeError, s, w).

(** [time()]: recorded; it returns the reading of the clock. *)
Definition time : M S float :=
  fun s w =>
    (Ok (clock (trace w)), s, {| trace := trace w ++ [TimeRead]; files := files w |}).

(** [str(datetime.datetime.now())]: recorded; it returns. *)
Definition datetime_now : M S string :=
  fun s w =>
    (Ok (now_string (trace w)), s,
     {| trace := trace w ++ [DatetimeNow]; files := files w |}).

(** [int(f)]: truncation; NaN raises [ValueError], an infinity
    [OverflowError]. *)
Definition py_int (f : float) : M S Z :=
  match float_trunc f with
  | Some z => ret z
  | None => if PrimFloat.eqb f f then raise OverflowError else raise ValueError
  end.

(** [open(path, 'r')] and the text read from it. *)
Definition read_text (path : string) : M S string :=
  call (FileOpen path "r") ;;
  w <- get_world ;;
  match files w path with
  | Some (TextFile content) => call (FileRead path) ;; ret (universal_newlines content)
  | Some _ => call (FileRead path) ;; raise ValueError
  | None => raise (FileNotFoundError path)
  end.

(** The path of a file whose name is built from an argument: [+] raises
    [TypeError] when the argument is not a string. *)
Definition concat_name (prefix : string) (name : pyarg) (suffix : string) : M S string :=
  match name with
  | PStr n => ret (prefix ++ n ++ suffix)%string
  | POther => raise TypeError
  end.

End Calls.
Arguments call {env S} e.
Arguments call_value {env S A} e out.
Arguments print {S}.
Arguments printable {env} ex.
Arguments print_exn {env S} ex.
Arguments time {env S}.
Arguments datetime_now {env S}.
Arguments py_int {S} f.
Arguments read_text {env S} path.
Arguments concat_name {S} prefix name suffix.

(** The directory both model classes save to and load from. *)
Definition lookup_tables : string := "./data/lookup_tables/".

(** [str(datetime.datetime.now()).replace(':', '-').replace(' ', '_')]. *)
Definition timestamp (now : string) : string :=
  replace_char " " "_" (replace_char ":" "-" now).

(** ** class ANNRegression *)

Module ANNRegression.

Record t := Self {
  train_data : option ndarray;
  train_labels : option ndarray;
  test_data : option ndarray;
  test_labels : option ndarray;
  model : option kmodel;
  history : option (Z * bool);
  model_name : option string
}.

(** The object before [__init__] has assigned anything. *)
Definition fresh : t :=
  {| train_data := None; train_labels := None; test_data := None;
     test_labels := None; model := None; history := None; model_name := None |}.

Definition set_split (tr trl te tel : ndarray) (s : t) : t :=
  {| train_data := Some tr; train_labels := Some trl; test_data := Some te;
     test_labels := Some tel; model := model s; history := history s;
     model_name := model_name s |}.

Definition set_model (m : kmodel) (s : t) : t :=
  {| train_data := train_data s; train_labels := train_labels s;
     test_data := test_data s; test_labels := test_labels s; model := Some m;
     history := history s; model_name := model_name s |}.

Definition set_history (h : Z * bool) (s : t) : t :=
  {| train_data := train_data s; train_labels := train_labels s;
     test_data := test_data s; test_labels := test_labels s; model := model s;
     history := Some h; model_name := model_name s |}.

Definition set_model_name (n : string) (s : t) : t :=
  {| train_data := train_data s; train_labels := train_labels s;
     test_data := test_data s; test_labels := test_labels s; model := model s;
     history := history s; model_name := Some n |}.

Section Methods.
Context {env : Environment}.

(** [self.model.add(l)]. *)
Definition model_add (l : layer) : M t unit :=
  m <- attr "model" model ;;
  call (ModelAdd l) ;;
  set_self (set_model {| k_layers := k_layers m ++ [l];
                         k_learning_rate := k_learning_rate m |}).

(** One turn of the hidden-layer loop of [buildModel].  The handler prints
    what Keras says about the rate, a text of its own, with [print]. *)
Definition hidden_layer (layer_density : Z) (dropout : option float) : M t unit :=
  match dropout with
  | Some rate =>
      if PrimFloat.eqb rate 0 then ret tt
      else try_except (model_add (Dropout rate)) (fun _ => print)
  | None => ret tt
  end ;;
  model_add (Dense layer_density true None).

Definition buildModel (learning_rate : float) (no_hidden_layers layer_density : Z)
  (dropout : option float) : M t unit :=
  call KerasSequential ;;
  set_self (set_model {| k_layers := []; k_learning_rate := None |}) ;;
  td <- attr "train_data" train_data ;;
  model_add (Dense layer_density true (Some (nd_cols td))) ;;
  for_each (py_range 1 no_hidden_layers)
    (fun _ => hidden_layer layer_density dropout) ;;
  tl <- attr "train_labels" train_labels ;;
  model_add (Dense (Z.of_nat (nd_cols tl)) false None) ;;
  call (RMSPropOptimizer learning_rate) ;;
  m <- attr "model" model ;;
  call ModelCompile ;;
  set_self (set_model {| k_layers := k_layers m;
                         k_learning_rate := Some learning_rate |}).

Definition trainModel (no_epochs : Z) (early_stop : bool) (_patience : Z) : M t unit :=
  if early_stop then
    call (EarlyStoppingNew _patience) ;;
    _ <- attr "model" model ;;
    _ <- attr "train_data" train_data ;;
    _ <- attr "train_labels" train_labels ;;
    call (ModelFit no_epochs true) ;;
    set_self (set_history (no_epochs, true))
  else
    _ <- attr "model" model ;;
    _ <- attr "train_data" train_data ;;
    _ <- attr "train_labels" train_labels ;;
    call (ModelFit no_epochs false) ;;
    set_self (set_history (no_epochs, false)).

Definition evaluateModel : M t float :=
  _ <- attr "model" model ;;
  _ <- attr "test_data" test_data ;;
  _ <- attr "test_labels" test_labels ;;
  r <- call_value ModelEvaluate evaluate_out ;;
  ret (PrimFloat.sqrt (fst r)).

Definition plotHistory (savefig : bool) : M t unit :=
  call (Plt "figure") ;;
  call (Plt "xlabel") ;;
  call (Plt "ylabel") ;;
  call (Plt "title") ;;
  _ <- attr "history" history ;;
  call (Plt "plot") ;;
  call (Plt "plot") ;;
  call (Plt "legend") ;;
  call (Plt "ylim") ;;
  (if savefig then call (Plt "savefig") else ret tt) ;;
  call (Plt "show").

Definition predictWithModel (plot_results : bool) : M t unit :=
  _ <- attr "model" model ;;
  _ <- attr "test_data" test_data ;;
  call ModelPredict ;;
  if plot_results then
    tl <- attr "test_labels" test_labels ;;
    call (Plt "plot") ;;
    call (Plt "xlabel") ;;
    call (Plt "ylabel") ;;
    call (Plt "axis") ;;
    call (Plt "xlim") ;;
    call (Plt "xlim") ;;
    call (Plt "ylim") ;;
    call (Plt "ylim") ;;
    call (Plt "plot") ;;
    call (Plt "show") ;;
    (* error[0] raises on an empty test set *)
    match nd_rows tl with
    | [] => raise IndexError
    | _ :: _ =>
        for_each (py_range 0 (Z.of_nat (nd_cols tl))) (fun _ => call (Plt "hist"))
    end ;;
    call (Plt "xlabel") ;;
    call (Plt "ylabel") ;;
    call (Plt "show") ;;
    plotHistory false
  else ret tt.

Definition saveModel (name : pyarg) : M t unit :=
  m <- attr "model" model ;;
  call ModelToJson ;;
  path <- concat_name lookup_tables name ".json" ;;
  call (FileOpen path "w") ;;
  set_files (fs_write path (TextFile "")) ;;
  call (JsonDump path) ;;
  set_files (fs_write path (TextFile (json_dumps (model_json m)))) ;;
  m' <- attr "model" model ;;
  weights <- concat_name lookup_tables name ".h5" ;;
  call (ModelSaveWeights weights) ;;
  set_files (fs_write weights (WeightsFile m')).

(** The body of the [try] block of [loadModel]. *)
Definition loadModel_try (model_name : pyarg) : M t kmodel :=
  path <- concat_name lookup_tables model_name ".json" ;;
  text <- read_text path ;;
  let model_json_string :=
    str_slice (Some 1) (Some (-1)) (replace_char backslash "" text) in
  call (ModelFromJson model_json_string) ;;
  m <- lift ValueError (model_from_json model_json_string) ;;
  weights <- concat_name lookup_tables model_name ".h5" ;;
  call (ModelLoadWeights weights) ;;
  w' <- get_world ;;
  match files w' weights with
  | Some (WeightsFile _) => ret tt
  | Some _ => raise ValueError
  | None => raise (FileNotFoundError weights)
  end ;;
  print ;;
  ret m.

(** [loadModel] returns the model, or [False] ([None] here) once the
    handler has printed what was raised. *)
Definition loadModel (model_name : pyarg) : M t (option kmodel) :=
  try_except
    (m <- loadModel_try model_name ;; ret (Some m))
    (fun ex => print_exn ex ;; ret None).

(** [__init__]; [None] for a profile is Python's [None]. *)
Definition init (load_profile voltage_profile : option ndarray)
  (train_percentage learning_rate : float) (no_hidden_layers layer_density : Z)
  (dropout : option float) (no_epochs : Z)
  (early_stop save_model plot_results : bool) : M t unit :=
  match load_profile, voltage_profile with
  | Some lp, Some vp =>
      _split_index <- py_int (split_product train_percentage (nd_len lp)) ;;
      set_self (set_split
                  (nd_slice (Some 0) (Some _split_index) lp)
                  (nd_slice (Some 0) (Some _split_index) vp)
                  (nd_slice (Some (_split_index + 1)) None lp)
                  (nd_slice (Some (_split_index + 1)) None vp)) ;;
      buildModel learning_rate no_hidden_layers layer_density dropout ;;
      trainModel no_epochs early_stop 200 ;;
      _ <- evaluateModel ;;
      predictWithModel plot_results ;;
      if save_model then
        now <- datetime_now ;;
        let name := ("ann_model_" ++ timestamp now)%string in
        set_self (set_model_name name) ;;
        saveModel (PStr name)
      else ret tt
  | _, _ => ret tt
  end.

End Methods.
End ANNRegression.

(** ** class ParametricRegression *)

Module ParametricRegression.

(** [self.train]: the keys ['data'], ['target'] and, once added,
    ['data_pb']. *)
Record train_dict := Train {
  data : ndarray;
  target : ndarray;
  data_pb : option ndarray
}.

(** [self.test]. *)
Record test_dict := Test { test_data : ndarray; test_target : ndarray }.

Record t := Self {
  train : option train_dict;
  test : option test_dict;
  theta : option ndarray;
  bias : option (list (list float));
  model_name : option string
}.

Definition fresh : t :=
  {| train := None; test := None; theta := None; bias := None;
     model_name := None |}.

Definition set_train (d : train_dict) (s : t) : t :=
  {| train := Some d; test := test s; theta := theta s; bias := bias s;
     model_name := model_name s |}.

Definition set_test (d : test_dict) (s : t) : t :=
  {| train := train s; test := Some d; theta := theta s; bias := bias s;
     model_name := model_name s |}.

Definition set_theta (th : ndarray) (s : t) : t :=
  {| train := train s; test := test s; theta := Some th; bias := bias s;
     model_name := model_name s |}.

Definition set_bias (b : list (list float)) (s : t) : t :=
  {| train := train s; test := test s; theta := theta s; bias := Some b;
     model_name := model_name s |}.

Definition set_model_name (n : string) (s : t) : t :=
  {| train := train s; test := test s; theta := theta s; bias := bias s;
     model_name := Some n |}.

(** [np.c_[np.ones((m, 1)), a]]: a leading column of ones; the row counts
    must agree. *)
Definition plus_bias (m : nat) (a : ndarray) : option ndarray :=
  if Nat.eqb m (nd_len a)
  then Some {| nd_rows := map (fun r => 1%float :: r) (nd_rows a);
               nd_cols := S (nd_cols a) |}
  else None.

Section Methods.
Context {env : Environment}.

(** [self.train['data_pb']]. *)
Definition train_data_pb : M t ndarray :=
  tr <- attr "train" train ;;
  lift (KeyError "data_pb") (data_pb tr).

Definition calculateTheta : M t unit :=
  x <- train_data_pb ;;
  call (TfConstant "x") ;;
  tr <- attr "train" train ;;
  call (TfConstant "y") ;;
  call TfTranspose ;;
  call TfMatmul ;;
  call TfMatrixInverse ;;
  call TfMatmul ;;
  call TfMatmul ;;
  call TfSession ;;
  call TfEval ;;
  set_self (set_theta (theta_out x (target tr))).

(** [self.theta[0]]. *)
Definition theta_0 : M t (list float) :=
  th <- attr "theta" theta ;;
  lift IndexError (nth_error (nd_rows th) 0).

Definition calculateBias : M t unit :=
  tr <- attr "train" train ;;
  b <- collect (nd_len (target tr)) theta_0 ;;
  set_self (set_bias b).

(** [self.bias[0]]. *)
Definition bias_0 : M t (list float) :=
  b <- attr "bias" bias ;;
  lift IndexError (nth_error b 0).

Definition predictWithModel (load_profile : ndarray) : M t ndarray :=
  adjusted_bias <- collect (nd_len load_profile) bias_0 ;;
  th <- attr "theta" theta ;;
  call NpDot ;;
  ret (prediction_out load_profile th adjusted_bias).

Definition evaluateModel : M t float :=
  te <- attr "test" test ;;
  _ <- predictWithModel (test_data te) ;;
  _ <- attr "test" test ;;
  rmse <- call_value NpRmse rmse_out ;;
  print ;;
  ret rmse.

Definition saveModel (model_name : pyarg) : M t unit :=
  path <- concat_name lookup_tables model_name ".h5" ;;
  call (H5Open path "w") ;;
  set_files (fs_write path (H5File [])) ;;
  th <- attr "theta" theta ;;
  call (H5CreateDataset path "data") ;;
  set_files (fs_write path (H5File [("data", th)])).

(** [h5py.File(path, 'r')['data']]. *)
Definition h5_read_data (path : string) : M t ndarray :=
  call (H5Open path "r") ;;
  w <- get_world ;;
  match files w path with
  | Some (H5File datasets) =>
      call (H5GetItem path "data") ;;
      match find (fun d => String.eqb (fst d) "data") datasets with
      | Some d => ret (snd d)
      | None => raise (KeyError "data")
      end
  | Some (WeightsFile _) => call (H5GetItem path "data") ;; raise (KeyError "data")
  | Some (TextFile _) => raise ValueError
  | None => raise (FileNotFoundError path)
  end.

(** The body of the [try] block of [loadModel]. *)
Definition loadModel_try (model_name : pyarg) : M t ndarray :=
  path <- concat_name lookup_tables model_name ".h5" ;;
  th <- h5_read_data path ;;
  set_self (set_theta th) ;;
  print ;;
  attr "theta" theta.

(** [loadModel] returns the dataset, or [False] ([None] here) once the
    handler has printed what was raised. *)
Definition loadModel (model_name : pyarg) : M t (option ndarray) :=
  try_except
    (th <- loadModel_try model_name ;; ret (Some th))
    (fun ex => print_exn ex ;; ret None).

Definition init (load_profile voltage_profile : option ndarray)
  (train_percentage : float) (save_model : bool) : M t unit :=
  match load_profile, voltage_profile with
  | Some lp, Some vp =>
      _split_index <- py_int (split_product train_percentage (nd_len lp)) ;;
      set_self (set_train {| data := nd_slice (Some 0) (Some _split_index) lp;
                             target := nd_slice (Some 0) (Some _split_index) vp;
                             data_pb := None |}) ;;
      tr <- attr "train" train ;;
      let m := nd_len (target tr) in
      tr' <- attr "train" train ;;
      pb <- lift ValueError (plus_bias m (data tr')) ;;
      set_self (set_train {| data := data tr'; target := target tr';
                             data_pb := Some pb |}) ;;
      set_self (set_test
                  {| test_data := nd_slice (Some (_split_index + 1)) None lp;
                     test_target := nd_slice (Some (_split_index + 1)) None vp |}) ;;
      calculateTheta ;;
      calculateBias ;;
      te <- attr "test" test ;;
      _ <- predictWithModel (test_data te) ;;
      _ <- evaluateModel ;;
      if save_model then
        now <- datetime_now ;;
        let name := ("ne_model_" ++ timestamp now)%string in
        set_self (set_model_name name) ;;
        saveModel (PStr name)
      else ret tt
  | _, _ => ret tt
  end.

End Methods.
End ParametricRegression.

(** ** The names bound in the module *)

(** What a global name of [regressiontools.py] is bound to. *)
Inductive binding :=
| Imported
| ClsANNRegression
| ClsParametricRegression
| ClsTrainRNN
| ClsHyperparamSearch
| FunEpochAnalysis.

(** The module's global namespace: its imports, then its classes and its
    function, in the order the module binds them. *)
Definition module_globals : list (string * binding) :=
  [ ("sys", Imported); ("datetime", Imported); ("json", Imported);
    ("time", Imported); ("tf", Imported); ("keras", Imported);
    ("Sequential", Imported); ("model_from_json", Imported);
    ("Dense", Imported); ("Activation", Imported); ("Reshape", Imported);
    ("SimpleRNN", Imported); ("plt", Imported); ("np", Imported);
    ("h5py", Imported);
    ("ANNRegression", ClsANNRegression);
    ("ParametricRegression", ClsParametricRegression);
    ("TrainRNN", ClsTrainRNN);
    ("HyperparamSearch", ClsHyperparamSearch);
    ("epochAnalysis", FunEpochAnalysis) ].

Definition lookup_global (name : string) : option binding :=
  option_map snd (find (fun b => String.eqb (fst b) name) module_globals).

(** ** class HyperparamSearch *)

Module HyperparamSearch.

Record t := Self {
  solution_matrix : option (list (list num));
  params : option (list num);
  runtime : option Z
}.

Definition fresh : t :=
  {| solution_matrix := None; params := None; runtime := None |}.

Definition set_solution_matrix (m : list (list num)) (s : t) : t :=
  {| solution_matrix := Some m; params := params s; runtime := runtime s |}.

Definition set_params (p : list num) (s : t) : t :=
  {| solution_matrix := solution_matrix s; params := Some p; runtime := runtime s |}.

Definition set_runtime (r : Z) (s : t) : t :=
  {| solution_matrix := solution_matrix s; params := params s; runtime := Some r |}.

(** The training grid [tg] of the grid search. *)
Record grid := Grid {
  learning_rate : list float;
  no_hidden_layers : list Z;
  layer_density : list Z
}.

(** [search_type == 'grid']. *)
Definition is_grid (search_type : pyarg) : bool :=
  match search_type with
  | PStr s => String.eqb s "grid"
  | POther => false
  end.

Definition results_path (runtime : string) : string :=
  ("./data/hyperparamsearchresults_" ++ runtime ++ "seconds.txt")%string.

Section Methods.
Context {env : Environment}.

(** [str(listitem)]. *)
Definition py_str (x : num) : string :=
  match x with
  | NInt z => str_of_Z z
  | NFloat f => float_repr f
  end.

(** The inner loop of [exportResults]: what is written for the items of one
    row, [counter] counting the items already written. *)
Fixpoint export_items (items : list num) (len : Z) (counter : Z) : string :=
  match items with
  | [] => EmptyString
  | listitem :: rest =>
      (py_str listitem
       ++ (if (counter <? len - 1)%Z then ", " else EmptyString)
       ++ export_items rest len (counter + 1))%string
  end.

(** The outer loop: one line per training session. *)
Fixpoint export_text (sessions : list (list num)) : string :=
  match sessions with
  | [] => EmptyString
  | training_session :: rest =>
      (export_items training_session (Z.of_nat (length training_session)) 0
       ++ String newline EmptyString
       ++ export_text rest)%string
  end.

Definition exportResults : M t unit :=
  r <- attr "runtime" runtime ;;
  let path := ("./data/hyperparamsearchresults_" ++ str_of_Z r
               ++ "seconds" ++ ".txt")%string in
  call (FileOpen path "w") ;;
  set_files (fs_write path (TextFile EmptyString)) ;;
  sm <- attr "solution_matrix" solution_matrix ;;
  call (FileWrite path) ;;
  set_files (fs_write path (TextFile (export_text sm))).

(** [[float(i) for i in fields]]; [float] raises [ValueError]. *)
Fixpoint floats_of (fields : list string) : M t (list num) :=
  match fields with
  | [] => ret []
  | i :: rest =>
      f <- lift ValueError (float_parse i) ;;
      fs <- floats_of rest ;;
      ret (NFloat f :: fs)
  end.

(** The loop over the lines of the file. *)
Fixpoint import_lines (lines : list string) : M t (list (list num)) :=
  match lines with
  | [] => ret []
  | line :: rest =>
      row <- floats_of (split_comma_space (replace_char newline EmptyString line)) ;;
      rows <- import_lines rest ;;
      ret (row :: rows)
  end.

Definition importResults (runtime : string) : M t unit :=
  text <- read_text (results_path runtime) ;;
  results <- import_lines (file_lines text) ;;
  set_self (set_solution_matrix results).

(** [self.solution_matrix.append(row)]. *)
Definition append_row (row : list num) : M t unit :=
  sm <- attr "solution_matrix" solution_matrix ;;
  set_self (set_solution_matrix (sm ++ [row])).

(** [TrainANN(load_profile, voltage_profile, learning_rate=...,
    no_hidden_layers=..., layer_density=...)]: the name is looked up in the
    module's globals when the call is reached. *)
Definition TrainANN (load_profile voltage_profile : ndarray)
  (lr : float) (nhl ld : Z) : M t ANNRegression.t :=
  match lookup_global "TrainANN" with
  | None => raise (NameError "TrainANN")
  | Some ClsANNRegression =>
      r <- on_object ANNRegression.fresh
             (ANNRegression.init (Some load_profile) (Some voltage_profile)
                0.7 lr nhl ld None 1000 false false false) ;;
      ret (snd r)
  | Some _ => raise TypeError
  end.

(** [ann.evaluateModel()[i]]: [evaluateModel] returns a NumPy scalar, and
    indexing a scalar raises. *)
Definition evaluateModel_item (ann : ANNRegression.t) (i : Z) : M t num :=
  _ <- on_object ann ANNRegression.evaluateModel ;;
  raise IndexError.

(** The body of the innermost loop. *)
Definition grid_point (load_profile voltage_profile : ndarray)
  (lr : float) (nhl ld : Z) : M t unit :=
  ann <- TrainANN load_profile voltage_profile lr nhl ld ;;
  e0 <- evaluateModel_item ann 0 ;;
  e1 <- evaluateModel_item ann 1 ;;
  append_row [NFloat lr; NInt nhl; NInt ld; e0; e1] ;;
  print.

(** [__init__].  The three loops of the grid search run over the indices
    of the ranges and use each index only to read its element; they are
    written here over the elements. *)
Definition init (load_profile voltage_profile : option ndarray)
  (search_type : pyarg) : M t unit :=
  set_self (set_solution_matrix []) ;;
  match load_profile, voltage_profile with
  | Some lp, Some vp =>
      start <- time ;;
      if is_grid search_type then
          lrs <- lift ValueError (np_arange_float 0.001 0.1 0.02) ;;
          let tg := {| learning_rate := lrs;
                       no_hidden_layers := np_arange_int 1 2 1;
                       layer_density := np_arange_int 50 60 10 |} in
          let p := [NInt (Z.of_nat (length (learning_rate tg)));
                    NInt (Z.of_nat (length (no_hidden_layers tg)));
                    NInt (Z.of_nat (length (layer_density tg)))] in
          set_self (set_params p) ;;
          p' <- attr "params" params ;;
          append_row p' ;;
          for_each (learning_rate tg) (fun lr =>
            for_each (no_hidden_layers tg) (fun nhl =>
              for_each (layer_density tg) (fun ld =>
                grid_point lp vp lr nhl ld))) ;;
          print ;;
          end_ <- time ;;
          r <- py_int (end_ - start)%float ;;
          set_self (set_runtime r) ;;
          exportResults
      else ret tt
  | _, _ => ret tt
  end.

End Methods.
End HyperparamSearch.

(** ** tests/annnohousestiming.py *)

Module TimingScript.

(** The script's globals that the loop updates: [data = [[], []]] and [k]. *)
Record t := Globals {
  data_0 : list Z;
  data_1 : list float;
  k : Z
}.

Definition fresh : t := {| data_0 := []; data_1 := []; k := 0 |}.

Definition simlength : Z := 100.

Section Script.
Context {env : Environment}.

(** [train(pfs)]. *)
Definition train : M t float :=
  before <- time ;;
  call (PfsGet "nodeloads") ;;
  call (PfsGet "nodevoltages") ;;
  call TrainANNNew ;;
  call (TrainANNCall "buildModel") ;;
  call (TrainANNCall "trainModel") ;;
  call (TrainANNCall "evaluateModel") ;;
  call (TrainANNCall "predictWithModel") ;;
  after <- time ;;
  ret (after - before)%float.

(** [plotit(x, y)]. *)
Definition plotit (x : list Z) (y : list float) : M t unit :=
  call NpPolyfit ;;
  call (Plt "plot") ;;
  call (Plt "legend") ;;
  call (Plt "ylabel") ;;
  call (Plt "xlabel") ;;
  call (Plt "title") ;;
  call (Plt "savefig") ;;
  call (Plt "show").

(** The body of the loop over [no_houses]. *)
Definition sweep_step (no_houses : Z) : M t unit :=
  set_self (fun g => {| data_0 := data_0 g ++ [no_houses]; data_1 := data_1 g;
                        k := k g |}) ;;
  call (GenerateJson no_houses "mikework") ;;
  call (PowerFlowSimNew simlength "radial"
          ("../_configs/montecarlo" ++ str_of_Z no_houses ++ ".json")%string) ;;
  call NrPfSim ;;
  traintime <- train ;;
  set_self (fun g => {| data_0 := data_0 g; data_1 := data_1 g ++ [traintime];
                        k := k g |}) ;;
  g <- get_self ;;
  _ <- lift IndexError (nth_error (data_1 g) (Z.to_nat (k g))) ;;
  _ <- lift IndexError (nth_error (data_0 g) (Z.to_nat (k g))) ;;
  print ;;
  set_self (fun g => {| data_0 := data_0 g; data_1 := data_1 g; k := k g + 1 |}).

(** The module-level code: the sweep, then the plot. *)
Definition script : M t unit :=
  for_each (np_arange_int 10 250 10) sweep_step ;;
  g <- get_self ;;
  plotit (data_0 g) (data_1 g).

End Script.
End TimingScript.

(** ** Concrete environments and inputs, for running the model *)

(** [float(s)] on the decimal rendering of an integer. *)
Definition float_of_decimal (s : string) : option float :=
  match NilZero.int_of_string s with
  | Some i => Some (float_of_Z (Z.of_int i))
  | None => None
  end.

(** An environment where no call raises; the clock counts the calls made. *)
Definition quiet : Environment :=
  {| raises := fun _ _ => false;
     clock := fun h => float_of_Z (Z.of_nat (length h));
     now_string := fun _ => "2019-03-01 12:30:05.000001";
     evaluate_out := fun _ => (0.25%float, 0.5%float);
     rmse_out := fun _ => 0.5%float;
     model_json := fun _ => "{}";
     json_dumps := fun s => s;
     model_from_json := fun _ => Some {| k_layers := []; k_learning_rate := None |};
     theta_out := fun _ y => y;
     prediction_out := fun x _ _ => x;
     float_repr := fun _ => "0.5";
     float_parse := float_of_decimal;
     stdout_encodes := fun _ => true |}.


Definition empty_world : world := {| trace := []; files := fun _ => None |}.

(** An array of [n] rows of one column, row [i] holding [i]. *)
Definition ramp (n : nat) : ndarray :=
  {| nd_rows := map (fun i => [float_of_Z (Z.of_nat i)]) (seq 0 n); nd_cols := 1 |}.

(** The rows of an array as integers, for reading results. *)
Definition row_ids (a : ndarray) : list (list (option Z)) :=
  map (map float_trunc) (nd_rows a).

(** ** Predicates on runs *)

Definition result_of {S A : Type} (x : result A * S * world) : result A := fst (fst x).
Definition state_of {S A : Type} (x : result A * S * world) : S := snd (fst x).
Definition world_of {S A : Type} (x : result A * S * world) : world := snd x.

(** [keeps I m]: whatever [m] does, and however it ends, it preserves [I]
    on the object. *)
Definition keeps {S A : Type} (I : S -> Prop) (m : M S A) : Prop :=
  forall s w, I s -> I (state_of (m s w)).

(** [emits P m]: [m] only extends the trace, and only with calls in [P]. *)
Definition emits {S A : Type} (P : event -> Prop) (m : M S A) : Prop :=
  forall s w, exists evs,
    trace (world_of (m s w)) = trace w ++ evs /\ Forall P evs.

(** [emits_some P m]: moreover, when [m] returns it has made a call. *)
Definition emits_some {S A : Type} (P : event -> Prop) (m : M S A) : Prop :=
  forall s w, exists evs,
    trace (world_of (m s w)) = trace w ++ evs /\ Forall P evs
    /\ (forall a, result_of (m s w) = Ok a -> evs <> []).

(** [phased Ps m]: the calls [m] makes come in consecutive blocks, one per
    entry of [Ps] and in that order, the calls of a block satisfying its
    entry; when [m] returns, no block is empty. *)
Definition phased {S A : Type} (Ps : list (event -> Prop)) (m : M S A) : Prop :=
  forall s w, exists blocks,
    trace (world_of (m s w)) = trace w ++ concat blocks
    /\ Forall2 (fun P block => Forall P block) Ps blocks
    /\ (forall a, result_of (m s w) = Ok a -> Forall (fun block => block <> []) blocks).

(** The four stages of [ANNRegression.__init__] that call into a library. *)
Inductive stage := Build | Training | Evaluation | Persistence.

(** The stage a call of [ANNRegression.__init__] belongs to: the calls of
    [buildModel] (with the message of its dropout handler), of
    [trainModel], of [evaluateModel] and [predictWithModel] (with the
    plots), and of the [save_model] branch. *)
Definition stage_of (e : event) : option stage :=
  match e with
  | KerasSequential | ModelAdd _ | RMSPropOptimizer _ | ModelCompile | Stdout =>
      Some Build
  | EarlyStoppingNew _ | ModelFit _ _ => Some Training
  | ModelEvaluate | ModelPredict | Plt _ => Some Evaluation
  | DatetimeNow | ModelToJson | FileOpen _ _ | JsonDump _ | ModelSaveWeights _ =>
      Some Persistence
  | _ => None
  end.

Definition in_stage (st : stage) (e : event) : Prop := stage_of e = Some st.

(** ** The sweep of the timing script, as a trace *)

Section Sweep.
Context {env : Environment}.

(** The calls of a turn of the loop before [train]: one simulation. *)
Definition simulation_calls (no_houses : Z) : list event :=
  [ GenerateJson no_houses "mikework";
    PowerFlowSimNew TimingScript.simlength "radial"
      ("../_configs/montecarlo" ++ str_of_Z no_houses ++ ".json")%string;
    NrPfSim ].

(** The calls of [train] between its two readings of the clock. *)
Definition training_calls : list event :=
  [ PfsGet "nodeloads"; PfsGet "nodevoltages"; TrainANNNew;
    TrainANNCall "buildModel"; TrainANNCall "trainModel";
    TrainANNCall "evaluateModel"; TrainANNCall "predictWithModel" ].

(** The calls of one turn: the simulation, then the training between two
    readings of the clock, then the message. *)
Definition sweep_calls (no_houses : Z) : list event :=
  simulation_calls no_houses
  ++ [TimeRead] ++ training_calls ++ [TimeRead] ++ [Stdout].

(** The time a turn records when it starts after the calls [h]: the reading
    of the clock after the training calls minus the reading before them. *)
Definition sweep_time (h : list event) (no_houses : Z) : float :=
  (clock (h ++ simulation_calls no_houses ++ [TimeRead] ++ training_calls)
   - clock (h ++ simulation_calls no_houses))%float.

Fixpoint sweep_times (h : list event) (sizes : list Z) : list float :=
  match sizes with
  | [] => []
  | n :: rest => sweep_time h n :: sweep_times (h ++ sweep_calls n) rest
  end.

(** The calls of [plotit]. *)
Definition plot_calls : list event :=
  [ NpPolyfit; Plt "plot"; Plt "legend"; Plt "ylabel"; Plt "xlabel";
    Plt "title"; Plt "savefig"; Plt "show" ].

End Sweep.

(** ** Renderings that can be read back *)

(** [lacks c s]: the character [c] does not occur in [s]. *)
Fixpoint lacks (c : ascii) (s : string) : bool :=
  match s with
  | EmptyString => true
  | String x rest => negb (Ascii.eqb x c) && lacks c rest
  end.

(** The rendering of a number: no comma, no newline, no carriage return. *)
Definition plain (s : string) : bool :=
  lacks "," s && lacks newline s && lacks carriage_return s.

(** The fields of a line, joined by [', ']. *)
Fixpoint join_fields (fields : list string) : string :=
  match fields with
  | [] => EmptyString
  | [f] => f
  | f :: rest => (f ++ ", " ++ join_fields rest)%string
  end.

(** [y] is the entry [x] written with [str] and read back with [float]. *)
Definition reads_as {env : Environment} (x y : num) : Prop :=
  exists f, float_parse (HyperparamSearch.py_str x) = Some f /\ y = NFloat f.

(** A row that [exportResults] writes and [importResults] reads back: it has
    an entry, and every entry renders as a plain string that [float]
    accepts. *)
Definition readable_row {env : Environment} (row : list num) : Prop :=
  row <> []
  /\ Forall (fun x => plain (HyperparamSearch.py_str x) = true
                      /\ float_parse (HyperparamSearch.py_str x) <> None) row.

(** ** Predicates on objects and files *)

(** The four data attributes of an [ANNRegression] hold the given arrays. *)
Definition ann_data_is (tr trl te tel : ndarray) (s : ANNRegression.t) : Prop :=
  ANNRegression.train_data s = Some tr
  /\ ANNRegression.train_labels s = Some trl
  /\ ANNRegression.test_data s = Some te
  /\ ANNRegression.test_labels s = Some tel.

(** The two dictionaries of a [ParametricRegression] hold the given arrays. *)
Definition pr_data_is (d tg pb te tet : ndarray) (s : ParametricRegression.t) : Prop :=
  ParametricRegression.train s
  = Some {| ParametricRegression.data := d; ParametricRegression.target := tg;
            ParametricRegression.data_pb := Some pb |}
  /\ ParametricRegression.test s
     = Some {| ParametricRegression.test_data := te;
               ParametricRegression.test_target := tet |}.

(** The line [exportResults] writes for a row. *)
Definition line_of {env : Environment} (row : list num) : string :=
  (join_fields (map HyperparamSearch.py_str row) ++ String newline EmptyString)%string.

(** ** Files and objects for running the model *)


(** A parametric model whose [theta] is set. *)
Definition fitted : ParametricRegression.t :=
  ParametricRegression.set_theta (ramp 3) ParametricRegression.fresh.

(** A search whose results are a header row and one more row. *)
Definition searched : HyperparamSearch.t :=
  {| HyperparamSearch.solution_matrix :=
       Some [[NInt 5; NInt 1; NInt 1]; [NInt 3; NInt (-4)]];
     HyperparamSearch.params := None;
     HyperparamSearch.runtime := Some 12 |}.

(** ** class TrainRNN *)

Module TrainRNN.

Record t := Self {
  train_data : option ndarray;
  train_labels : option ndarray;
  test_data : option ndarray;
  test_labels : option ndarray;
  name : option string;
  model : option kmodel;
  history : option Z
}.

Definition fresh : t :=
  {| train_data := None; train_labels := None; test_data := None;
     test_labels := None; name := None; model := None; history := None |}.

Definition set_train (tr trl : ndarray) (s : t) : t :=
  {| train_data := Some tr; train_labels := Some trl; test_data := test_data s;
     test_labels := test_labels s; name := name s; model := model s;
     history := history s |}.

Definition set_test (te tel : ndarray) (s : t) : t :=
  {| train_data := train_data s; train_labels := train_labels s;
     test_data := Some te; test_labels := Some tel; name := name s;
     model := model s; history := history s |}.

Definition set_name (n : string) (s : t) : t :=
  {| train_data := train_data s; train_labels := train_labels s;
     test_data := test_data s; test_labels := test_labels s; name := Some n;
     model := model s; history := history s |}.

Definition set_history (h : Z) (s : t) : t :=
  {| train_data := train_data s; train_labels := train_labels s;
     test_data := test_data s; test_labels := test_labels s; name := name s;
     model := model s; history := Some h |}.

Section Methods.
Context {env : Environment}.

(** [__init__]: no guard on the profiles; the shapes of the training part
    are printed between the two halves of the split. *)
Definition init (load_profile voltage_profile : ndarray)
  (train_percentage : float) (name : string) : M t unit :=
  _split_index <- py_int (split_product train_percentage (nd_len load_profile)) ;;
  set_self (set_train (nd_slice (Some 0) (Some _split_index) load_profile)
                      (nd_slice (Some 0) (Some _split_index) voltage_profile)) ;;
  _ <- attr "train_data" train_data ;;
  _ <- attr "train_labels" train_labels ;;
  print ;;
  set_self (set_test (nd_slice (Some (_split_index + 1)) None load_profile)
                     (nd_slice (Some (_split_index + 1)) None voltage_profile)) ;;
  set_self (set_name name).

Definition trainModel (no_epochs : Z) : M t unit :=
  _ <- attr "model" model ;;
  _ <- attr "train_data" train_data ;;
  _ <- attr "train_labels" train_labels ;;
  call (ModelFit no_epochs false) ;;
  set_self (set_history no_epochs).

(** [evaluateModel] returns the second value of [evaluate], the mean
    absolute error. *)
Definition evaluateModel : M t float :=
  _ <- attr "model" model ;;
  _ <- attr "test_data" test_data ;;
  _ <- attr "test_labels" test_labels ;;
  r <- call_value ModelEvaluate evaluate_out ;;
  print ;;
  ret (snd r).

End Methods.
End TrainRNN.

(** ** HyperparamSearch.learningRateAnalysis *)

(** [range(lo, hi, step)]; [None] where Python raises (a zero step). *)
Definition py_range_step (lo hi step : Z) : option (list Z) :=
  if step =? 0 then None
  else if 0 <? step then
    Some (map (fun i => lo + Z.of_nat i * step)
              (seq 0 (Z.to_nat ((hi - lo + step - 1) / step))))
  else
    Some (map (fun i => lo + Z.of_nat i * step)
              (seq 0 (Z.to_nat ((lo - hi - step - 1) / (- step))))).

(** [np.array(rows).T] for rows of numbers: the list of columns.  No row
    gives an array without columns; rows of different lengths raise
    ([None]). *)
Fixpoint columns_from (width : nat) (k : nat) (rows : list (list num)) :
  list (list num) :=
  match width with
  | O => []
  | S width' =>
      map (fun row => nth k row (NInt 0)) rows
        :: columns_from width' (S k) rows
  end.

Definition np_transpose (rows : list (list num)) : option (list (list num)) :=
  match rows with
  | [] => Some []
  | first :: _ =>
      if forallb (fun row => Nat.eqb (length row) (length first)) rows
      then Some (columns_from (length first) 0 rows)
      else None
  end.

Module LearningRate.

Import HyperparamSearch.

Section Methods.
Context {env : Environment}.

(** [int(x)] on an entry. *)
Definition int_of (x : num) : M t Z :=
  match x with
  | NInt z => ret z
  | NFloat f => py_int f
  end.

(** [[int(x) for x in row]]. *)
Fixpoint ints_of (row : list num) : M t (list num) :=
  match row with
  | [] => ret []
  | x :: rest =>
      z <- int_of x ;;
      zs <- ints_of rest ;;
      ret (NInt z :: zs)
  end.

(** [self.params[1] * self.params[2]]; a product of floats is no argument
    for [range]. *)
Definition stride : M t Z :=
  p <- attr "params" params ;;
  a <- lift IndexError (nth_error p 1) ;;
  p' <- attr "params" params ;;
  b <- lift IndexError (nth_error p' 2) ;;
  match a, b with
  | NInt x, NInt y => ret (x * y)
  | _, _ => raise TypeError
  end.

(** The inner loop: the rows [i], [i + stride], [i + 2 stride], ... of
    [solution_matrix]. *)
Fixpoint rows_at (js : list Z) : M t (list (list num)) :=
  match js with
  | [] => ret []
  | j :: rest =>
      sm <- attr "solution_matrix" solution_matrix ;;
      row <- lift IndexError (nth_error sm (Z.to_nat j)) ;;
      rows <- rows_at rest ;;
      ret (row :: rows)
  end.

(** One turn of the outer loop: a plot of one group of rows. *)
Definition plot_group (savefig : option Z) (i : Z) : M t unit :=
  sm <- attr "solution_matrix" solution_matrix ;;
  step <- stride ;;
  js <- lift ValueError (py_range_step i (Z.of_nat (length sm)) step) ;;
  learning_rate <- rows_at js ;;
  cols <- lift ValueError (np_transpose learning_rate) ;;
  _ <- lift IndexError (nth_error cols 0) ;;
  _ <- lift IndexError (nth_error cols 3) ;;
  _ <- lift IndexError (nth_error cols 0) ;;
  _ <- lift IndexError (nth_error cols 4) ;;
  call (Plt "plot") ;;
  call (Plt "legend") ;;
  call (Plt "ylabel") ;;
  call (Plt "xlabel") ;;
  call (Plt "title") ;;
  match savefig with
  | Some k => if k =? i then call (Plt "savefig") else ret tt
  | None => ret tt
  end ;;
  call (Plt "show").

Definition learningRateAnalysis (savefig : option Z) : M t unit :=
  sm <- attr "solution_matrix" solution_matrix ;;
  header <- lift IndexError (nth_error sm 0) ;;
  p <- ints_of header ;;
  set_self (set_params p) ;;
  sm' <- attr "solution_matrix" solution_matrix ;;
  _ <- lift IndexError (nth_error sm' 0) ;;
  set_self (set_solution_matrix (tl sm')) ;;
  n <- stride ;;
  for_each (py_range 0 n) (plot_group savefig).

End Methods.
End LearningRate.

(** ** epochAnalysis *)

Module EpochAnalysis.

(** The local variables of the function; [None] is a name not yet bound. *)
Record t := Locals {
  pfs : option (ndarray * ndarray);
  ann : option ANNRegression.t;
  results : list (Z * Z)
}.

Definition fresh : t := {| pfs := None; ann := None; results := [] |}.

Section Function.
Context {env : Environment}.

(** The arrays a simulation of a given size holds in [node_loads] and
    [node_voltages], and what [ann.history.epoch[-1]] is worth: both belong
    to code outside this module. *)
Variable simulated : Z -> ndarray * ndarray.
Variable last_epoch : ANNRegression.t -> Z.

(** [TrainANN(pfs.node_loads, pfs.node_voltages, no_epochs=3000,
    early_stop=True)]: the name is looked up first. *)
Definition TrainANN : M t ANNRegression.t :=
  match lookup_global "TrainANN" with
  | None => raise (NameError "TrainANN")
  | Some ClsANNRegression =>
      p <- attr "pfs" pfs ;;
      call (PfsGet "node_loads") ;;
      call (PfsGet "node_voltages") ;;
      r <- on_object ANNRegression.fresh
             (ANNRegression.init (Some (fst p)) (Some (snd p)) 0.7 0.001 1 64
                None 3000 true false false) ;;
      ret (snd r)
  | Some _ => raise TypeError
  end.

(** The body of the loop.  [PowerFlowSim] is given two arguments here; the
    call is recorded with the third one empty. *)
Definition study (size : Z) : M t unit :=
  call (PowerFlowSimNew 50
          ("./data/montecarlo" ++ str_of_Z size ++ ".json")%string EmptyString) ;;
  set_self (fun l => {| pfs := Some (simulated size); ann := ann l;
                        results := results l |}) ;;
  a <- TrainANN ;;
  set_self (fun l => {| pfs := pfs l; ann := Some a; results := results l |}) ;;
  print ;;
  a' <- attr "ann" ann ;;
  set_self (fun l => {| pfs := pfs l; ann := ann l;
                        results := results l ++ [(size, last_epoch a')] |}).

(** [epochAnalysis(study_sizes)], from the loop on: the imports at its head
    are taken to succeed.  Reading a local that no turn of the loop has
    bound raises [UnboundLocalError], a [NameError]. *)
Definition epochAnalysis (study_sizes : list Z) :
  M t ((ndarray * ndarray) * ANNRegression.t) :=
  for_each study_sizes study ;;
  print ;;
  l <- get_self ;;
  p <- lift (NameError "pfs") (pfs l) ;;
  a <- lift (NameError "ann") (ann l) ;;
  ret (p, a).

End Function.
End EpochAnalysis.

(** ** [json.dump] of a string *)

Definition double_quote : ascii := ascii_of_nat 34.

Definition hex_digit (n : nat) : ascii :=
  nth n (list_ascii_of_string "0123456789abcdef") "0"%char.

(** The JSON escape of one character: the quote and the backslash get a
    backslash, what is not printable ASCII is written [\b], [\t], [\n],
    [\f], [\r] or [\u00XX]. *)
Definition json_escape_char (c : ascii) : string :=
  let n := nat_of_ascii c in
  if Ascii.eqb c double_quote then String backslash (String double_quote EmptyString)
  else if Ascii.eqb c backslash then String backslash (String backslash EmptyString)
  else if Nat.leb 32 n && Nat.leb n 126 then String c EmptyString
  else if Nat.eqb n 8 then String backslash "b"
  else if Nat.eqb n 9 then String backslash "t"
  else if Nat.eqb n 10 then String backslash "n"
  else if Nat.eqb n 12 then String backslash "f"
  else if Nat.eqb n 13 then String backslash "r"
  else String backslash
         (String "u" (String "0" (String "0"
            (String (hex_digit (Nat.div n 16))
               (String (hex_digit (Nat.modulo n 16)) EmptyString))))).

Fixpoint json_escape (s : string) : string :=
  match s with
  | EmptyString => EmptyString
  | String c rest => (json_escape_char c ++ json_escape rest)%string
  end.

(** [json.dumps(s)] for a string [s]. *)
Definition json_string (s : string) : string :=
  String double_quote (json_escape s ++ String double_quote EmptyString)%string.

(** Printable ASCII without backslash: what [json.dump] escapes with
    nothing but a backslash before each quote. *)
Fixpoint json_plain (s : string) : bool :=
  match s with
  | EmptyString => true
  | String c rest =>
      Nat.leb 32 (nat_of_ascii c) && Nat.leb (nat_of_ascii c) 126
      && negb (Ascii.eqb c backslash) && json_plain rest
  end.

(** What [ANNRegression.loadModel] makes of the text of the file before it
    hands it to Keras. *)
Definition decode_model_json (text : string) : string :=
  str_slice (Some 1) (Some (-1)) (replace_char backslash EmptyString text).

(** A JSON text with quotes in it. *)
Definition sample_json : string :=
  ("{" ++ String double_quote ("class_name" ++ String double_quote ": 1}"))%string.

(** An environment like [quiet] whose [json.dump] is the JSON encoding. *)
Definition quoting : Environment :=
  {| raises := fun _ _ => false;
     clock := fun h => float_of_Z (Z.of_nat (length h));
     now_string := fun _ => "2019-03-01 12:30:05.000001";
     evaluate_out := fun _ => (0.25%float, 0.5%float);
     rmse_out := fun _ => 0.5%float;
     model_json := fun _ => sample_json;
     json_dumps := json_string;
     model_from_json := fun _ => Some {| k_layers := []; k_learning_rate := None |};
     theta_out := fun _ y => y;
     prediction_out := fun x _ _ => x;
     float_repr := fun _ => "0.5";
     float_parse := float_of_decimal;
     stdout_encodes := fun _ => true |}.

(** ** What [buildModel] is to build *)

(** The layers one turn of the hidden-layer loop asks for: a dropout layer
    when [dropout] is a number other than zero, then a dense layer. *)
Definition dropout_layers (dropout : option float) : list layer :=
  match dropout with
  | Some rate => if PrimFloat.eqb rate 0 then [] else [Dropout rate]
  | None => []
  end.

Definition hidden_block (layer_density : Z) (dropout : option float) : list layer :=
  dropout_layers dropout ++ [Dense layer_density true None].

(** The layers of a model for [cols_in] inputs and [cols_out] outputs: the
    input layer, [no_hidden_layers - 1] more hidden blocks, the output
    layer. *)
Definition expected_layers (cols_in cols_out : nat)
  (no_hidden_layers layer_density : Z) (dropout : option float) : list layer :=
  Dense layer_density true (Some cols_in)
    :: concat (repeat (hidden_block layer_density dropout)
                      (Z.to_nat (no_hidden_layers - 1)))
    ++ [Dense (Z.of_nat cols_out) false None].

Definition is_dense (l : layer) : bool :=
  match l with
  | Dense _ _ _ => true
  | Dropout _ => false
  end.

(** An environment where Keras refuses every dropout layer and every other
    call returns. *)
Definition no_dropout : Environment :=
  {| raises := fun _ e => match e with ModelAdd (Dropout _) => true | _ => false end;
     clock := fun h => float_of_Z (Z.of_nat (length h));
     now_string := fun _ => "2019-03-01 12:30:05.000001";
     evaluate_out := fun _ => (0.25%float, 0.5%float);
     rmse_out := fun _ => 0.5%float;
     model_json := fun _ => "{}";
     json_dumps := fun s => s;
     model_from_json := fun _ => Some {| k_layers := []; k_learning_rate := None |};
     theta_out := fun _ y => y;
     prediction_out := fun x _ _ => x;
     float_repr := fun _ => "0.5";
     float_parse := float_of_decimal;
     stdout_encodes := fun _ => true |}.

(** An object holding the split of a ramp of ten rows, before any model is
    built. *)
Definition split_only : ANNRegression.t :=
  ANNRegression.set_split
    (nd_slice (Some 0) (Some 7) (ramp 10)) (nd_slice (Some 0) (Some 7) (ramp 10))
    (nd_slice (Some 8) None (ramp 10)) (nd_slice (Some 8) None (ramp 10))
    ANNRegression.fresh.

(** An [ANNRegression] built without profiles: its data attributes are
    unset. *)
Definition no_data (s : ANNRegression.t) : Prop :=
  ANNRegression.train_data s = None /\ ANNRegression.test_data s = None.

(** The strings of a list, one after the other. *)
Fixpoint concat_strings (l : list string) : string :=
  match l with
  | [] => EmptyString
  | x :: rest => (x ++ concat_strings rest)%string
  end.

(** A search whose results hold a row without entries. *)
Definition searched_with_empty_row : HyperparamSearch.t :=
  {| HyperparamSearch.solution_matrix :=
       Some [[NInt 5; NInt 1; NInt 1]; []; [NInt 3; NInt (-4)]];
     HyperparamSearch.params := None;
     HyperparamSearch.runtime := Some 12 |}.

(** [[int(x) for x in row]] as a value; [None] where [int] raises. *)
Fixpoint header_ints (row : list num) : option (list num) :=
  match row with
  | [] => Some []
  | x :: rest =>
      match (match x with NInt z => Some z | NFloat f => float_trunc f end),
            header_ints rest with
      | Some z, Some zs => Some (NInt z :: zs)
      | _, _ => None
      end
  end.

(** The results a search holds once they are read back from a file: floats. *)
Definition reread : HyperparamSearch.t :=
  {| HyperparamSearch.solution_matrix :=
       Some [[NFloat 1; NFloat 1; NFloat 1];
             [NFloat 1; NFloat 1; NFloat 50; NFloat 2; NFloat 3]];
     HyperparamSearch.params := None;
     HyperparamSearch.runtime := Some 12 |}.

(** After [learningRateAnalysis] has read the header: the rows left are
    [rows] and the parameters are [p]. *)
Definition analysed (rows : list (list num)) (p : list num)
  (s : HyperparamSearch.t) : Prop :=
  HyperparamSearch.solution_matrix s = Some rows
  /\ HyperparamSearch.params s = Some p.

(** A call that hands Keras a JSON text gives it one without backslash. *)
Definition no_backslash_to_keras (e : event) : Prop :=
  match e with
  | ModelFromJson text => lacks backslash text = true
  | _ => True
  end.

(** The construction of an [ANNRegression] on a ramp of ten rows with
    [save_model=True], where no call raises. *)
Definition saved_ann : result unit * ANNRegression.t * world :=
  ANNRegression.init (env := quiet) (Some (ramp 10)) (Some (ramp 10))
    0.7 0.001 1 64 None 1000 false true false ANNRegression.fresh empty_world.

(** ** Numbers written and read back *)

(** [float(x)] for an entry [x] of [solution_matrix]; the integers of a
    search are small, the conversion is that of integers below [2^63]. *)
Definition float_value (x : num) : float :=
  match x with
  | NInt z => float_of_Z z
  | NFloat f => f
  end.

(** What Python's [str] and [float] do on an entry: [float] reads from the
    decimal digits of an integer the float of that integer, and from the
    rendering of a float, which holds no comma and no line end, that float. *)
Definition rendered_faithfully {env : Environment} (x : num) : Prop :=
  match x with
  | NInt z => float_parse (str_of_Z z) = Some (float_of_Z z)
  | NFloat f => plain (float_repr f) = true /\ float_parse (float_repr f) = Some f
  end.

(** A row that has an entry, each entry rendered faithfully. *)
Definition faithful_row {env : Environment} (row : list num) : Prop :=
  row <> [] /\ Forall rendered_faithfully row.

(** The rows of floats that [importResults] is to read from the rows
    [exportResults] wrote. *)
Definition as_floats (rows : list (list num)) : list (list num) :=
  map (map (fun x => NFloat (float_value x))) rows.

(** *** A decimal rendering of floats, for running the model *)

(** [s] without its trailing zeros. *)
Fixpoint strip_zeros (s : string) : string :=
  match s with
  | EmptyString => EmptyString
  | String c rest =>
      match strip_zeros rest with
      | EmptyString => if Ascii.eqb c "0" then EmptyString else String c EmptyString
      | kept => String c kept
      end
  end.

(** [s] with zeros in front up to [k] characters. *)
Definition pad_zeros (k : nat) (s : string) : string :=
  (string_of_list_ascii (repeat "0"%char (k - String.length s)) ++ s)%string.

(** The digits of the fraction [r / 10^k], without trailing zeros but for
    one digit. *)
Definition fraction_digits (k : nat) (r : Z) : string :=
  match strip_zeros (pad_zeros k (str_of_Z r)) with
  | EmptyString => "0"
  | digits => digits
  end.

(** A float in positional notation with all its decimals, as Python writes
    [0.5], [-1.5] or [2.25]. *)
Definition decimal_of_float (f : float) : string :=
  match Prim2SF f with
  | S754_zero s => if s then "-0.0" else "0.0"
  | S754_infinity s => if s then "-inf" else "inf"
  | S754_nan => "nan"
  | S754_finite s m e =>
      let sign := if s then "-" else EmptyString in
      if 0 <=? e then (sign ++ str_of_Z (Z.pos m * 2 ^ e) ++ ".0")%string
      else
        let n := Z.pos m * 5 ^ (- e) in
        let unit := 10 ^ (- e) in
        (sign ++ str_of_Z (n / unit) ++ "."
         ++ fraction_digits (Z.to_nat (- e)) (n mod unit))%string
  end.

(** [s] cut at its first dot. *)
Fixpoint cut_at_dot (s : string) : string * option string :=
  match s with
  | EmptyString => (EmptyString, None)
  | String c rest =>
      if Ascii.eqb c "." then (EmptyString, Some rest)
      else let (a, b) := cut_at_dot rest in (String c a, b)
  end.

(** The float written as digits, a dot and digits. *)
Definition float_of_digits (s : string) : option float :=
  match cut_at_dot s with
  | (whole, None) => float_of_decimal whole
  | (whole, Some fraction) =>
      match NilZero.uint_of_string whole, NilZero.uint_of_string fraction with
      | Some i, Some f =>
          let unit := 10 ^ Z.of_nat (String.length fraction) in
          Some (float_of_Z (Z.of_uint i * unit + Z.of_uint f) / float_of_Z unit)%float
      | _, _ => None
      end
  end.

(** [float(s)] on such a rendering, with its sign. *)
Definition float_of_positional (s : string) : option float :=
  match s with
  | String "-" rest =>
      match cut_at_dot rest with
      | (_, None) => float_of_decimal s
      | _ => option_map PrimFloat.opp (float_of_digits rest)
      end
  | _ => float_of_digits s
  end.

(** An environment like [quiet] that writes floats in positional notation
    and reads them back. *)
Definition positional : Environment :=
  {| raises := fun _ _ => false;
     clock := fun h => float_of_Z (Z.of_nat (length h));
     now_string := fun _ => "2019-03-01 12:30:05.000001";
     evaluate_out := fun _ => (0.25%float, 0.5%float);
     rmse_out := fun _ => 0.5%float;
     model_json := fun _ => "{}";
     json_dumps := fun s => s;
     model_from_json := fun _ => Some {| k_layers := []; k_learning_rate := None |};
     theta_out := fun _ y => y;
     prediction_out := fun x _ _ => x;
     float_repr := decimal_of_float;
     float_parse := float_of_positional;
     stdout_encodes := fun _ => true |}.

(** A search whose results hold floats: a header and one row of a learning
    rate, two sizes and two errors. *)
Definition searched_floats : HyperparamSearch.t :=
  {| HyperparamSearch.solution_matrix :=
       Some [[NInt 5; NInt 1; NInt 1];
             [NFloat 0.5; NInt 2; NInt 50; NFloat 0.25; NFloat (-1.5)]];
     HyperparamSearch.params := None;
     HyperparamSearch.runtime := Some 12 |}.



(** ** The calls of a constructor that returned *)

(** A call to matplotlib. *)
Definition is_plot (e : event) : Prop :=
  match e with Plt _ => true | _ => false end = true.

(** The calls of [trainModel(no_epochs, early_stop)], with the default
    patience. *)
Definition fit_calls (no_epochs : Z) (early_stop : bool) : list event :=
  if early_stop then [EarlyStoppingNew 200; ModelFit no_epochs true]
  else [ModelFit no_epochs false].

(** The calls of the [save_model] branch: the time of day for the name,
    then those of [saveModel(name)]. *)
Definition save_calls (name : string) : list event :=
  [ DatetimeNow; ModelToJson;
    FileOpen (lookup_tables ++ name ++ ".json") "w";
    JsonDump (lookup_tables ++ name ++ ".json");
    ModelSaveWeights (lookup_tables ++ name ++ ".h5") ].

(** * Properties *)

Unset Implicit Arguments.

(** ** Slices *)

Lemma py_slice_prefix {A : Type} (s : Z) (l : list A) :
  0 <= s -> py_slice (Some 0) (Some s) l = firstn (Z.to_nat s) l.
Proof.
  intros Hs. unfold py_slice, norm_index.
  replace (0 <? 0) with false by reflexivity.
  destruct (s <? 0) eqn:E; [apply Z.ltb_lt in E; lia|].
  rewrite (Z.min_l 0) by lia. rewrite Z.sub_0_r. simpl skipn.
  destruct (Z.le_gt_cases s (Z.of_nat (length l))) as [H | H].
  - rewrite Z.min_l by lia. reflexivity.
  - rewrite Z.min_r by lia. rewrite Nat2Z.id.
    rewrite firstn_all. symmetry. apply firstn_all2. lia.
Qed.

Lemma py_slice_suffix {A : Type} (k : Z) (l : list A) :
  0 <= k -> py_slice (Some k) None l = skipn (Z.to_nat k) l.
Proof.
  intros Hk. unfold py_slice, norm_index.
  destruct (k <? 0) eqn:E; [apply Z.ltb_lt in E; lia|].
  destruct (Z.le_gt_cases k (Z.of_nat (length l))) as [H | H].
  - rewrite Z.min_l by lia. apply firstn_all2.
    rewrite length_skipn. lia.
  - rewrite Z.min_r by lia. rewrite Z.sub_diag, Nat2Z.id. simpl.
    symmetry. apply skipn_all2. lia.
Qed.

(** The two slices of the constructors leave out the row at the split
    index whenever that index is a position of the array. *)
Lemma split_drops_row {A : Type} (d : A) (s : Z) (l : list A) :
  0 <= s < Z.of_nat (length l) ->
  l = py_slice (Some 0) (Some s) l
        ++ nth (Z.to_nat s) l d :: py_slice (Some (s + 1)) None l.
Proof.
  intros Hs. rewrite py_slice_prefix, py_slice_suffix by lia.
  replace (Z.to_nat (s + 1)) with (S (Z.to_nat s)) by lia.
  rewrite <- (firstn_skipn (Z.to_nat s) l) at 1. f_equal.
  assert (Hn : (Z.to_nat s < length l)%nat) by lia.
  revert Hn. generalize (Z.to_nat s). clear Hs s.
  induction l as [|x l IH]; intros n Hn; simpl in Hn; [lia|].
  destruct n as [|n]; [reflexivity|]. simpl. apply IH. lia.
Qed.

Lemma split_sizes {A : Type} (s : Z) (l : list A) :
  0 <= s < Z.of_nat (length l) ->
  S (Nat.add (length (py_slice (Some 0) (Some s) l))
             (length (py_slice (Some (s + 1)) None l))) = length l.
Proof.
  intros Hs. rewrite py_slice_prefix, py_slice_suffix by lia.
  rewrite length_firstn, length_skipn. lia.
Qed.

(** The slices cover the array only when the split index is past its end. *)
Lemma split_covers {A : Type} (s : Z) (l : list A) :
  Z.of_nat (length l) <= s ->
  py_slice (Some 0) (Some s) l ++ py_slice (Some (s + 1)) None l = l.
Proof.
  intros Hs. rewrite py_slice_prefix, py_slice_suffix by lia.
  rewrite firstn_all2 by lia. rewrite skipn_all2 by lia. apply app_nil_r.
Qed.

(** ** The guards of the constructors *)

Lemma is_grid_false (search_type : pyarg) :
  search_type <> PStr "grid" -> HyperparamSearch.is_grid search_type = false.
Proof.
  destruct search_type as [s|]; simpl; [|reflexivity].
  intros H. apply String.eqb_neq. congruence.
Qed.

(** C8: a constructor of [ANNRegression] or [ParametricRegression] that is
    given [None] for either profile returns at once: it makes no call into
    a library (nothing is trained), leaves the files as they were, and
    assigns no attribute, so a new object keeps every attribute unset. *)
Theorem init_without_profiles_is_inert :
  forall (env : Environment) (load_profile voltage_profile : option ndarray)
         (train_percentage learning_rate : float)
         (no_hidden_layers layer_density : Z) (dropout : option float)
         (no_epochs : Z) (early_stop save_model plot_results : bool) (w : world),
    load_profile = None \/ voltage_profile = None ->
    (forall s,
        ANNRegression.init load_profile voltage_profile train_percentage
          learning_rate no_hidden_layers layer_density dropout no_epochs
          early_stop save_model plot_results s w = (Ok tt, s, w))
    /\ (forall s,
        ParametricRegression.init load_profile voltage_profile train_percentage
          save_model s w = (Ok tt, s, w))
    /\ ANNRegression.fresh
       = {| ANNRegression.train_data := None; ANNRegression.train_labels := None;
            ANNRegression.test_data := None; ANNRegression.test_labels := None;
            ANNRegression.model := None; ANNRegression.history := None;
            ANNRegression.model_name := None |}
    /\ ParametricRegression.fresh
       = {| ParametricRegression.train := None; ParametricRegression.test := None;
            ParametricRegression.theta := None; ParametricRegression.bias := None;
            ParametricRegression.model_name := None |}.
Proof.
  intros env lp vp tp lr nhl ld dropout epochs es save plot w H.
  repeat split; intros;
    destruct H as [-> | ->]; try destruct lp; reflexivity.
Qed.

(** C9: with both profiles given and a [search_type] other than ['grid'],
    the constructor of [HyperparamSearch] returns normally after reading
    the clock once: no call trains a model, no file is written, and
    [solution_matrix] is the empty list. *)
Theorem search_type_other_than_grid_is_inert :
  forall (env : Environment) (load_profile voltage_profile : ndarray)
         (search_type : pyarg) (s : HyperparamSearch.t) (w : world),
    search_type <> PStr "grid" ->
    HyperparamSearch.init (Some load_profile) (Some voltage_profile) search_type s w
    = (Ok tt,
       {| HyperparamSearch.solution_matrix := Some [];
          HyperparamSearch.params := HyperparamSearch.params s;
          HyperparamSearch.runtime := HyperparamSearch.runtime s |},
       {| trace := trace w ++ [TimeRead]; files := files w |}).
Proof.
  intros env lp vp st s w H.
  unfold HyperparamSearch.init, bind, set_self, time.
  rewrite (is_grid_false st H). reflexivity.
Qed.

(** ** The grid search *)

Lemma grid_learning_rates :
  exists a b c d e,
    np_arange_float 0.001 0.1 0.02 = Some [a; b; c; d; e].
Proof. do 5 eexists. vm_compute. reflexivity. Qed.

Lemma grid_hidden_layers : np_arange_int 1 2 1 = [1].
Proof. reflexivity. Qed.

Lemma grid_layer_density : np_arange_int 50 60 10 = [50].
Proof. reflexivity. Qed.

Lemma TrainANN_is_unbound : lookup_global "TrainANN" = None.
Proof. reflexivity. Qed.

(** C3: what the grid search does as the module stands.  The header row
    [5, 1, 1] is appended, and the first turn of the innermost loop raises
    [NameError]: the module binds no global [TrainANN].  No model is
    trained, no row of results is appended, and no file is written. *)
Theorem grid_search_raises_NameError :
  forall (env : Environment) (load_profile voltage_profile : ndarray)
         (s : HyperparamSearch.t) (w : world),
    HyperparamSearch.init (Some load_profile) (Some voltage_profile) (PStr "grid") s w
    = (Raise (NameError "TrainANN"),
       {| HyperparamSearch.solution_matrix := Some [[NInt 5; NInt 1; NInt 1]];
          HyperparamSearch.params := Some [NInt 5; NInt 1; NInt 1];
          HyperparamSearch.runtime := HyperparamSearch.runtime s |},
       {| trace := trace w ++ [TimeRead]; files := files w |}).
Proof.
  intros env lp vp s w.
  destruct grid_learning_rates as (a & b & c & d & e & Hlr).
  unfold HyperparamSearch.init.
  replace (HyperparamSearch.is_grid (PStr "grid")) with true by reflexivity.
  rewrite Hlr, grid_hidden_layers, grid_layer_density.
  reflexivity.
Qed.

(** ** Rules for [keeps] *)

Section Keeps.
Context {env : Environment}.
Variables (S : Type) (I : S -> Prop).

Lemma keeps_ret {A : Type} (a : A) : keeps I (ret a).
Proof. intros s w H. exact H. Qed.

Lemma keeps_raise {A : Type} (e : exn) : keeps I (@raise S A e).
Proof. intros s w H. exact H. Qed.

Lemma keeps_bind {A B : Type} (m : M S A) (f : A -> M S B) :
  keeps I m -> (forall a, keeps I (f a)) -> keeps I (bind m f).
Proof.
  intros Hm Hf s w H. specialize (Hm s w H). unfold state_of, bind in *.
  destruct (m s w) as [[[a|e] s'] w']; simpl in *; [|exact Hm].
  apply Hf. exact Hm.
Qed.

Lemma keeps_try_except {A : Type} (m : M S A) (h : exn -> M S A) :
  keeps I m -> (forall e, keeps I (h e)) -> keeps I (try_except m h).
Proof.
  intros Hm Hh s w H. specialize (Hm s w H). unfold state_of, try_except in *.
  destruct (m s w) as [[[a|e] s'] w']; simpl in *; [exact Hm|].
  apply Hh. exact Hm.
Qed.

Lemma keeps_set_self (f : S -> S) :
  (forall s, I s -> I (f s)) -> keeps I (set_self f).
Proof. intros Hf s w H. apply Hf. exact H. Qed.

Lemma keeps_attr {A : Type} (name : string) (proj : S -> option A) :
  keeps I (attr name proj).
Proof. intros s w H. unfold state_of, attr. destruct (proj s); exact H. Qed.

Lemma keeps_lift {A : Type} (e : exn) (o : option A) : keeps I (@lift S A e o).
Proof. destruct o; [apply keeps_ret | apply keeps_raise]. Qed.

Lemma keeps_call (e : event) : keeps I (call e).
Proof. intros s w H. unfold state_of, call. destruct (raises _ _); exact H. Qed.

Lemma keeps_call_value {A : Type} (e : event) (out : list event -> A) :
  keeps I (call_value e out).
Proof. intros s w H. unfold state_of, call_value. destruct (raises _ _); exact H. Qed.

Lemma keeps_print : keeps I (@print S).
Proof. intros s w H. exact H. Qed.

Lemma keeps_time : keeps I (@time env S).
Proof. intros s w H. exact H. Qed.

Lemma keeps_datetime_now : keeps I (@datetime_now env S).
Proof. intros s w H. exact H. Qed.

Lemma keeps_get_world : keeps I (@get_world S).
Proof. intros s w H. exact H. Qed.

Lemma keeps_get_self : keeps I (@get_self S).
Proof. intros s w H. exact H. Qed.

Lemma keeps_set_files (f : filesys -> filesys) : keeps I (@set_files S f).
Proof. intros s w H. exact H. Qed.

Lemma keeps_py_int (f : float) : keeps I (@py_int S f).
Proof.
  unfold py_int. destruct (float_trunc f); [apply keeps_ret|].
  destruct (PrimFloat.eqb f f); apply keeps_raise.
Qed.

Lemma keeps_concat_name (prefix : string) (name : pyarg) (suffix : string) :
  keeps I (@concat_name S prefix name suffix).
Proof. destruct name; [apply keeps_ret | apply keeps_raise]. Qed.

Lemma keeps_for_each {A : Type} (xs : list A) (body : A -> M S unit) :
  (forall x, keeps I (body x)) -> keeps I (for_each xs body).
Proof.
  intros Hb. induction xs as [|x xs IH]; simpl.
  - apply keeps_ret.
  - apply keeps_bind; [apply Hb | intros _; exact IH].
Qed.

Lemma keeps_collect {A : Type} (n : nat) (m : M S A) :
  keeps I m -> keeps I (collect n m).
Proof.
  intros Hm. induction n as [|n IH]; simpl.
  - apply keeps_ret.
  - apply keeps_bind; [exact Hm | intros x].
    apply keeps_bind; [exact IH | intros rest; apply keeps_ret].
Qed.

Lemma keeps_read_text (path : string) : keeps I (@read_text env S path).
Proof.
  unfold read_text.
  apply keeps_bind; [apply keeps_call | intros _].
  apply keeps_bind; [apply keeps_get_world | intros w].
  destruct (files w path) as [[c | d | m]|].
  - apply keeps_bind; [apply keeps_call | intros _; apply keeps_ret].
  - apply keeps_bind; [apply keeps_call | intros _; apply keeps_raise].
  - apply keeps_bind; [apply keeps_call | intros _; apply keeps_raise].
  - apply keeps_raise.
Qed.

End Keeps.

Create HintDb keeps.
#[local] Hint Resolve keeps_ret keeps_raise keeps_attr keeps_lift keeps_call
  keeps_call_value keeps_print keeps_time keeps_datetime_now keeps_get_world
  keeps_get_self keeps_set_files keeps_py_int keeps_concat_name
  keeps_read_text : keeps.

(** Walk through a computation, one rule per construct. *)
Ltac keeps_step :=
  match goal with
  | |- keeps _ (bind _ _) => apply keeps_bind; [|intro]
  | |- keeps _ (try_except _ _) => apply keeps_try_except; [|intro]
  | |- keeps _ (for_each _ _) => apply keeps_for_each; intro
  | |- keeps _ (collect _ _) => apply keeps_collect
  | |- keeps _ (if ?b then _ else _) => destruct b
  | |- keeps _ (match ?o with Some _ => _ | None => _ end) => destruct o
  | |- keeps _ (match ?l with nil => _ | cons _ _ => _ end) => destruct l
  | |- keeps _ (set_self _) => apply keeps_set_self; intros ? ?
  | |- keeps _ _ => solve [auto with keeps]
  end.

(** ** The split of the constructors *)

Section ANNRegressionData.
Context {env : Environment}.
Variables tr trl te tel : ndarray.

Ltac keeps_data := repeat (keeps_step; try (simpl; assumption)).

Lemma model_add_keeps_data (l : layer) :
  keeps (ann_data_is tr trl te tel) (ANNRegression.model_add l).
Proof. unfold ANNRegression.model_add. keeps_data. Qed.

Lemma buildModel_keeps_data lr nhl ld dropout :
  keeps (ann_data_is tr trl te tel) (ANNRegression.buildModel lr nhl ld dropout).
Proof.
  pose proof model_add_keeps_data as Hadd.
  unfold ANNRegression.buildModel, ANNRegression.hidden_layer.
  keeps_data; apply Hadd.
Qed.

Lemma trainModel_keeps_data epochs early_stop patience :
  keeps (ann_data_is tr trl te tel)
        (ANNRegression.trainModel epochs early_stop patience).
Proof. unfold ANNRegression.trainModel. keeps_data. Qed.

Lemma evaluateModel_keeps_data :
  keeps (ann_data_is tr trl te tel) ANNRegression.evaluateModel.
Proof. unfold ANNRegression.evaluateModel. keeps_data. Qed.

Lemma predictWithModel_keeps_data plot :
  keeps (ann_data_is tr trl te tel) (ANNRegression.predictWithModel plot).
Proof.
  unfold ANNRegression.predictWithModel, ANNRegression.plotHistory. keeps_data.
Qed.

Lemma saveModel_keeps_data name :
  keeps (ann_data_is tr trl te tel) (ANNRegression.saveModel name).
Proof. unfold ANNRegression.saveModel. keeps_data. Qed.

End ANNRegressionData.

(** Whatever the libraries do afterwards, [ANNRegression.__init__] leaves
    the two slices [[0:s]] and [[s+1:]] of each profile in the object. *)
Lemma ANNRegression_init_split :
  forall (env : Environment) (lp vp : ndarray) (tp lr : float) (nhl ld : Z)
         (dropout : option float) (epochs : Z) (es save plot : bool)
         (s0 : ANNRegression.t) (w : world) (idx : Z),
    float_trunc (split_product tp (nd_len lp)) = Some idx ->
    ann_data_is
      (nd_slice (Some 0) (Some idx) lp) (nd_slice (Some 0) (Some idx) vp)
      (nd_slice (Some (idx + 1)) None lp) (nd_slice (Some (idx + 1)) None vp)
      (state_of (ANNRegression.init (Some lp) (Some vp) tp lr nhl ld dropout
                   epochs es save plot s0 w)).
Proof.
  intros env lp vp tp lr nhl ld dropout epochs es save plot s0 w idx Hidx.
  unfold ANNRegression.init, py_int. rewrite Hidx.
  set (I := ann_data_is _ _ _ _).
  unfold bind at 1. unfold ret at 1. unfold bind at 1. unfold set_self at 1.
  assert (K : forall m : M ANNRegression.t unit, keeps I m ->
                forall s w', I s -> I (state_of (m s w'))) by (intros m Hm; exact Hm).
  apply K; [|repeat split].
  apply keeps_bind; [apply buildModel_keeps_data | intros _].
  apply keeps_bind; [apply trainModel_keeps_data | intros _].
  apply keeps_bind; [apply evaluateModel_keeps_data | intros _].
  apply keeps_bind; [apply predictWithModel_keeps_data | intros _].
  destruct save; [|apply keeps_ret].
  apply keeps_bind; [apply keeps_datetime_now | intros now].
  apply keeps_bind; [|intros _; apply saveModel_keeps_data].
  apply keeps_set_self. intros s Hs. exact Hs.
Qed.

Section ParametricRegressionData.
Context {env : Environment}.
Variables d tg pb te tet : ndarray.

Ltac keeps_data := repeat (keeps_step; try (simpl; assumption)).

Lemma calculateTheta_keeps_data :
  keeps (pr_data_is d tg pb te tet) ParametricRegression.calculateTheta.
Proof.
  unfold ParametricRegression.calculateTheta, ParametricRegression.train_data_pb.
  keeps_data.
Qed.

Lemma calculateBias_keeps_data :
  keeps (pr_data_is d tg pb te tet) ParametricRegression.calculateBias.
Proof.
  unfold ParametricRegression.calculateBias, ParametricRegression.theta_0.
  keeps_data.
Qed.

Lemma pr_predictWithModel_keeps_data lp :
  keeps (pr_data_is d tg pb te tet) (ParametricRegression.predictWithModel lp).
Proof.
  unfold ParametricRegression.predictWithModel, ParametricRegression.bias_0.
  keeps_data.
Qed.

Lemma pr_evaluateModel_keeps_data :
  keeps (pr_data_is d tg pb te tet) ParametricRegression.evaluateModel.
Proof.
  unfold ParametricRegression.evaluateModel.
  keeps_step; [keeps_data|]. keeps_step; [apply pr_predictWithModel_keeps_data|].
  keeps_data.
Qed.

Lemma pr_saveModel_keeps_data name :
  keeps (pr_data_is d tg pb te tet) (ParametricRegression.saveModel name).
Proof. unfold ParametricRegression.saveModel. keeps_data. Qed.

End ParametricRegressionData.

(** [ParametricRegression.__init__] leaves the same two slices of each
    profile in [self.train] and [self.test], once [np.c_] has accepted the
    training slices (they have the same number of rows). *)
Lemma ParametricRegression_init_split :
  forall (env : Environment) (lp vp : ndarray) (tp : float) (save : bool)
         (s0 : ParametricRegression.t) (w : world) (idx : Z) (pb : ndarray),
    float_trunc (split_product tp (nd_len lp)) = Some idx ->
    ParametricRegression.plus_bias
      (nd_len (nd_slice (Some 0) (Some idx) vp))
      (nd_slice (Some 0) (Some idx) lp) = Some pb ->
    pr_data_is
      (nd_slice (Some 0) (Some idx) lp) (nd_slice (Some 0) (Some idx) vp) pb
      (nd_slice (Some (idx + 1)) None lp) (nd_slice (Some (idx + 1)) None vp)
      (state_of (ParametricRegression.init (Some lp) (Some vp) tp save s0 w)).
Proof.
  intros env lp vp tp save s0 w idx pb Hidx Hpb.
  unfold ParametricRegression.init, py_int. rewrite Hidx.
  set (I := pr_data_is _ _ _ _ _).
  unfold bind at 1. unfold ret at 1. unfold bind at 1. unfold set_self at 1.
  unfold bind at 1. unfold attr at 1. cbn [ParametricRegression.train ParametricRegression.set_train].
  unfold bind at 1. unfold attr at 1. cbn [ParametricRegression.train ParametricRegression.set_train].
  cbn [ParametricRegression.target ParametricRegression.data].
  rewrite Hpb.
  unfold bind at 1. unfold lift at 1. unfold ret at 1.
  unfold bind at 1. unfold set_self at 1.
  unfold bind at 1. unfold set_self at 1.
  assert (K : forall m : M ParametricRegression.t unit, keeps I m ->
                forall s w', I s -> I (state_of (m s w'))) by (intros m Hm; exact Hm).
  apply K; [|split; reflexivity].
  apply keeps_bind; [apply calculateTheta_keeps_data | intros _].
  apply keeps_bind; [apply calculateBias_keeps_data | intros _].
  apply keeps_bind; [apply keeps_attr | intros t].
  apply keeps_bind; [apply pr_predictWithModel_keeps_data | intros _].
  apply keeps_bind; [apply pr_evaluateModel_keeps_data | intros _].
  destruct save; [|apply keeps_ret].
  apply keeps_bind; [apply keeps_datetime_now | intros now].
  apply keeps_bind; [|intros _; apply pr_saveModel_keeps_data].
  apply keeps_set_self. intros s Hs. exact Hs.
Qed.

Lemma nd_slice_len_eq (lo hi : option Z) (a b : ndarray) :
  nd_len a = nd_len b -> nd_len (nd_slice lo hi a) = nd_len (nd_slice lo hi b).
Proof.
  unfold nd_len, nd_slice, py_slice. simpl. intros H. rewrite H.
  rewrite !length_firstn, !length_skipn, H. reflexivity.
Qed.

(** C1, as the code stands: both constructors keep rows [[0, s)] for
    training and rows [[s+1, len)] for testing, with
    [s = int(train_percentage * len(load_profile))].  When [s] is a position
    of the arrays, the row at [s] is in neither part: the profile is the
    training part, then that row, then the test part, so the two parts hold
    one row less than the profile. *)
Theorem split_leaves_out_row_at_split_index :
  forall (env : Environment) (lp vp : ndarray) (tp lr : float) (nhl ld : Z)
         (dropout : option float) (epochs : Z) (es save plot : bool)
         (w : world) (s : Z) (d : list float),
    float_trunc (split_product tp (nd_len lp)) = Some s ->
    0 <= s < Z.of_nat (nd_len lp) ->
    nd_len vp = nd_len lp ->
    let ann := state_of (ANNRegression.init (Some lp) (Some vp) tp lr nhl ld
                           dropout epochs es save plot ANNRegression.fresh w) in
    let ne := state_of (ParametricRegression.init (Some lp) (Some vp) tp save
                          ParametricRegression.fresh w) in
    let train := nd_slice (Some 0) (Some s) lp in
    let test := nd_slice (Some (s + 1)) None lp in
    ANNRegression.train_data ann = Some train
    /\ ANNRegression.test_data ann = Some test
    /\ option_map ParametricRegression.data (ParametricRegression.train ne) = Some train
    /\ option_map ParametricRegression.test_data (ParametricRegression.test ne) = Some test
    /\ nd_rows train = firstn (Z.to_nat s) (nd_rows lp)
    /\ nd_rows lp = nd_rows train ++ nth (Z.to_nat s) (nd_rows lp) d :: nd_rows test
    /\ S (Nat.add (nd_len train) (nd_len test)) = nd_len lp.
Proof.
  intros env lp vp tp lr nhl ld dropout epochs es save plot w s d Hs Hin Hlen
         ann ne train test.
  destruct (ANNRegression_init_split env lp vp tp lr nhl ld dropout epochs es
              save plot ANNRegression.fresh w s Hs) as (Ha1 & _ & Ha3 & _).
  assert (Hpb : exists pb,
             ParametricRegression.plus_bias
               (nd_len (nd_slice (Some 0) (Some s) vp))
               (nd_slice (Some 0) (Some s) lp) = Some pb).
  { unfold ParametricRegression.plus_bias.
    rewrite (nd_slice_len_eq (Some 0) (Some s) vp lp Hlen), Nat.eqb_refl.
    eexists. reflexivity. }
  destruct Hpb as (pb & Hpb).
  destruct (ParametricRegression_init_split env lp vp tp save
              ParametricRegression.fresh w s pb Hs Hpb) as (Hp1 & Hp2).
  fold ne in Hp1, Hp2. fold ann in Ha1, Ha3.
  repeat split.
  - exact Ha1.
  - exact Ha3.
  - rewrite Hp1. reflexivity.
  - rewrite Hp2. reflexivity.
  - apply py_slice_prefix. lia.
  - apply split_drops_row. exact Hin.
  - apply split_sizes. exact Hin.
Qed.

(** ** Loading *)

(** A call that raised ends the block; go on where it returned. *)
Ltac case_raises :=
  match goal with
  | |- context [raises ?h ?e] => destruct (raises h e); simpl; [discriminate|]
  end.




Lemma list_ascii_of_string_app (a b : string) :
  list_ascii_of_string (a ++ b)
  = list_ascii_of_string a ++ list_ascii_of_string b.
Proof. induction a as [|c a IH]; simpl; [reflexivity | rewrite IH; reflexivity]. Qed.


(* Keep paths folded while runs are simplified. *)
#[local] Opaque lookup_tables.







(** ** Saving, then loading *)

(** What a [saveModel] that returned has left on disk. *)
Lemma pr_saveModel_writes (env : Environment) (model_name : pyarg)
  (s s1 : ParametricRegression.t) (w w1 : world) :
  ParametricRegression.saveModel model_name s w = (Ok tt, s1, w1) ->
  exists n th,
    model_name = PStr n
    /\ ParametricRegression.theta s = Some th
    /\ files w1 (lookup_tables ++ n ++ ".h5")%string = Some (H5File [("data", th)]).
Proof.
  unfold ParametricRegression.saveModel, concat_name, bind, call, set_files,
    ret, raise, attr.
  destruct model_name as [n|]; simpl; [|discriminate].
  case_raises.
  destruct (ParametricRegression.theta s) as [th|] eqn:Hth; simpl; [|discriminate].
  case_raises.
  intros H. inversion H. subst. simpl.
  exists n, th. repeat split. unfold fs_write. rewrite String.eqb_refl. reflexivity.
Qed.

(** C6: after [saveModel(model_name)] has returned, [loadModel(model_name)]
    on the files it left returns a dataset equal to the [theta] that was
    saved, and stores it in [self.theta], provided h5py does not fail the
    two reads for a reason of its own. *)
Theorem saveModel_then_loadModel :
  forall (env : Environment) (model_name : pyarg)
         (s s1 s2 : ParametricRegression.t) (w w1 w2 : world),
    ParametricRegression.saveModel model_name s w = (Ok tt, s1, w1) ->
    files w2 = files w1 ->
    (forall h path, raises h (H5Open path "r") = false) ->
    (forall h path, raises h (H5GetItem path "data") = false) ->
    exists th,
      ParametricRegression.theta s = Some th
      /\ result_of (ParametricRegression.loadModel model_name s2 w2) = Ok (Some th)
      /\ ParametricRegression.theta
           (state_of (ParametricRegression.loadModel model_name s2 w2)) = Some th.
Proof.
  intros env model_name s s1 s2 w w1 w2 Hsave Hfiles Hopen Hget.
  destruct (pr_saveModel_writes env model_name s s1 w w1 Hsave)
    as (n & th & -> & Hth & Hfile).
  exists th. split; [exact Hth|].
  unfold ParametricRegression.loadModel, ParametricRegression.loadModel_try,
    ParametricRegression.h5_read_data, try_except, concat_name, result_of,
    state_of, bind, call, get_world, ret, raise, set_self, print, attr.
  simpl. rewrite Hopen. simpl. rewrite Hfiles, Hfile. simpl.
  rewrite Hget. simpl. split; reflexivity.
Qed.

(** ** Rules for [emits] *)

Section Emits.
Context {env : Environment}.
Variables (S : Type) (P : event -> Prop).

Lemma emits_silent {A : Type} (m : M S A) :
  (forall s w, trace (world_of (m s w)) = trace w) -> emits P m.
Proof.
  intros H s w. exists []. rewrite app_nil_r. split; [apply H | constructor].
Qed.

Lemma emits_ret {A : Type} (a : A) : emits P (@ret S A a).
Proof. apply emits_silent. reflexivity. Qed.

Lemma emits_raise {A : Type} (e : exn) : emits P (@raise S A e).
Proof. apply emits_silent. reflexivity. Qed.

Lemma emits_attr {A : Type} (name : string) (proj : S -> option A) :
  emits P (attr name proj).
Proof.
  apply emits_silent. intros s w. unfold attr. destruct (proj s); reflexivity.
Qed.

Lemma emits_lift {A : Type} (e : exn) (o : option A) : emits P (@lift S A e o).
Proof. destruct o; [apply emits_ret | apply emits_raise]. Qed.

Lemma emits_set_self (f : S -> S) : emits P (set_self f).
Proof. apply emits_silent. reflexivity. Qed.

Lemma emits_get_self : emits P (@get_self S).
Proof. apply emits_silent. reflexivity. Qed.

Lemma emits_get_world : emits P (@get_world S).
Proof. apply emits_silent. reflexivity. Qed.

Lemma emits_set_files (f : filesys -> filesys) : emits P (@set_files S f).
Proof. apply emits_silent. reflexivity. Qed.

Lemma emits_py_int (f : float) : emits P (@py_int S f).
Proof.
  unfold py_int. destruct (float_trunc f); [apply emits_ret|].
  destruct (PrimFloat.eqb f f); apply emits_raise.
Qed.

Lemma emits_concat_name (prefix : string) (name : pyarg) (suffix : string) :
  emits P (@concat_name S prefix name suffix).
Proof. destruct name; [apply emits_ret | apply emits_raise]. Qed.

Lemma emits_some_call (e : event) : P e -> emits_some P (@call env S e).
Proof.
  intros He s w. exists [e]. unfold call, world_of.
  destruct (raises (trace w) e); simpl;
    (split; [reflexivity | split; [repeat constructor; exact He | discriminate]]).
Qed.

Lemma emits_some_call_value {A : Type} (e : event) (out : list event -> A) :
  P e -> emits_some P (@call_value env S A e out).
Proof.
  intros He s w. exists [e]. unfold call_value, world_of.
  destruct (raises (trace w) e); simpl;
    (split; [reflexivity | split; [repeat constructor; exact He | discriminate]]).
Qed.

Lemma emits_some_print : P Stdout -> emits_some P (@print S).
Proof.
  intros He s w. exists [Stdout].
  split; [reflexivity | split; [repeat constructor; exact He | discriminate]].
Qed.

Lemma emits_some_time : P TimeRead -> emits_some P (@time env S).
Proof.
  intros He s w. exists [TimeRead].
  split; [reflexivity | split; [repeat constructor; exact He | discriminate]].
Qed.

Lemma emits_some_datetime_now : P DatetimeNow -> emits_some P (@datetime_now env S).
Proof.
  intros He s w. exists [DatetimeNow].
  split; [reflexivity | split; [repeat constructor; exact He | discriminate]].
Qed.

Lemma emits_some_emits {A : Type} (m : M S A) : emits_some P m -> emits P m.
Proof.
  intros H s w. destruct (H s w) as (evs & Ht & HP & _). exists evs. auto.
Qed.

Lemma emits_bind {A B : Type} (m : M S A) (f : A -> M S B) :
  emits P m -> (forall a, emits P (f a)) -> emits P (bind m f).
Proof.
  intros Hm Hf s w. destruct (Hm s w) as (e1 & Ht1 & HP1).
  unfold bind, world_of in *.
  destruct (m s w) as [[[a|e] s'] w']; simpl in *.
  - destruct (Hf a s' w') as (e2 & Ht2 & HP2). exists (e1 ++ e2).
    unfold world_of in Ht2. rewrite Ht2, Ht1, app_assoc.
    split; [reflexivity | apply Forall_app; auto].
  - exists e1. auto.
Qed.

Lemma emits_some_bind_l {A B : Type} (m : M S A) (f : A -> M S B) :
  emits_some P m -> (forall a, emits P (f a)) -> emits_some P (bind m f).
Proof.
  intros Hm Hf s w. destruct (Hm s w) as (e1 & Ht1 & HP1 & Hne).
  unfold bind, world_of, result_of in *.
  destruct (m s w) as [[[a|e] s'] w']; simpl in *.
  - destruct (Hf a s' w') as (e2 & Ht2 & HP2). exists (e1 ++ e2).
    unfold world_of in Ht2. rewrite Ht2, Ht1, app_assoc.
    split; [reflexivity | split; [apply Forall_app; auto|]].
    intros b _ Hnil. apply app_eq_nil in Hnil. destruct Hnil as [Hnil _].
    exact (Hne a eq_refl Hnil).
  - exists e1. split; [exact Ht1 | split; [exact HP1 | discriminate]].
Qed.

Lemma emits_some_bind_r {A B : Type} (m : M S A) (f : A -> M S B) :
  emits P m -> (forall a, emits_some P (f a)) -> emits_some P (bind m f).
Proof.
  intros Hm Hf s w. destruct (Hm s w) as (e1 & Ht1 & HP1).
  unfold bind, world_of, result_of in *.
  destruct (m s w) as [[[a|e] s'] w']; simpl in *.
  - destruct (Hf a s' w') as (e2 & Ht2 & HP2 & Hne). exists (e1 ++ e2).
    unfold world_of, result_of in Ht2, Hne. rewrite Ht2, Ht1, app_assoc.
    split; [reflexivity | split; [apply Forall_app; auto|]].
    intros b Hb Hnil. apply app_eq_nil in Hnil. destruct Hnil as [_ Hnil].
    exact (Hne b Hb Hnil).
  - exists e1. split; [exact Ht1 | split; [exact HP1 | discriminate]].
Qed.

Lemma emits_try_except {A : Type} (m : M S A) (h : exn -> M S A) :
  emits P m -> (forall e, emits P (h e)) -> emits P (try_except m h).
Proof.
  intros Hm Hh s w. destruct (Hm s w) as (e1 & Ht1 & HP1).
  unfold try_except, world_of in *.
  destruct (m s w) as [[[a|e] s'] w']; simpl in *.
  - exists e1. auto.
  - destruct (Hh e s' w') as (e2 & Ht2 & HP2). exists (e1 ++ e2).
    unfold world_of in Ht2. rewrite Ht2, Ht1, app_assoc.
    split; [reflexivity | apply Forall_app; auto].
Qed.

Lemma emits_for_each {A : Type} (xs : list A) (body : A -> M S unit) :
  (forall x, emits P (body x)) -> emits P (for_each xs body).
Proof.
  intros Hb. induction xs as [|x xs IH]; simpl.
  - apply emits_ret.
  - apply emits_bind; [apply Hb | intros _; exact IH].
Qed.

End Emits.

Create HintDb emits.
#[local] Hint Resolve emits_ret emits_raise emits_attr emits_lift emits_set_self
  emits_get_self emits_get_world emits_set_files emits_py_int emits_concat_name
  : emits.

(** Walk through a computation whose calls are all in the stage at hand;
    [reflexivity] checks the stage of each call. *)
Ltac emits_step :=
  match goal with
  | |- emits _ (bind _ _) => apply emits_bind; [|intro]
  | |- emits _ (try_except _ _) => apply emits_try_except; [|intro]
  | |- emits _ (for_each _ _) => apply emits_for_each; intro
  | |- emits _ (if ?b then _ else _) => destruct b
  | |- emits _ (match ?o with Some _ => _ | None => _ end) => destruct o
  | |- emits _ (match ?l with nil => _ | cons _ _ => _ end) => destruct l
  | |- emits _ (call _) => apply emits_some_emits, emits_some_call; reflexivity
  | |- emits _ (call_value _ _) =>
      apply emits_some_emits, emits_some_call_value; reflexivity
  | |- emits _ print => apply emits_some_emits, emits_some_print; reflexivity
  | |- emits _ datetime_now =>
      apply emits_some_emits, emits_some_datetime_now; reflexivity
  | |- emits _ _ => solve [auto with emits]
  end.

(** ** Rules for [phased] *)

Section Phased.
Context {env : Environment}.
Variable S : Type.

Lemma Forall2_no_calls (Ps : list (event -> Prop)) :
  Forall2 (fun P block => Forall P block) Ps (map (fun _ => @nil event) Ps).
Proof. induction Ps; simpl; constructor; [constructor | assumption]. Qed.

Lemma concat_no_calls (Ps : list (event -> Prop)) :
  concat (map (fun _ => @nil event) Ps) = [].
Proof. induction Ps; simpl; assumption || reflexivity. Qed.

Lemma phased_nil {A : Type} (a : A) : phased [] (@ret S A a).
Proof.
  intros s w. exists []. simpl. rewrite app_nil_r.
  split; [reflexivity | split; constructor].
Qed.

Lemma phased_one {A : Type} (P : event -> Prop) (m : M S A) :
  emits_some P m -> phased [P] m.
Proof.
  intros Hm s w. destruct (Hm s w) as (evs & Ht & HP & Hne).
  exists [evs]. simpl. rewrite app_nil_r.
  split; [exact Ht | split; [repeat constructor; exact HP|]].
  intros a Ha. repeat constructor. exact (Hne a Ha).
Qed.

(** A stage, then the stages that follow it. *)
Lemma phased_cons {A B : Type} (P : event -> Prop) (Ps : list (event -> Prop))
  (m : M S A) (f : A -> M S B) :
  emits_some P m -> (forall a, phased Ps (f a)) -> phased (P :: Ps) (bind m f).
Proof.
  intros Hm Hf s w. destruct (Hm s w) as (e1 & Ht1 & HP1 & Hne).
  unfold bind, world_of, result_of in *.
  destruct (m s w) as [[[a|e] s'] w']; simpl in *.
  - destruct (Hf a s' w') as (blocks & Ht2 & HP2 & Hne2).
    unfold world_of, result_of in Ht2, Hne2.
    exists (e1 :: blocks). simpl. rewrite Ht2, Ht1, app_assoc.
    split; [reflexivity | split; [constructor; assumption|]].
    intros b Hb. constructor; [exact (Hne a eq_refl) | exact (Hne2 b Hb)].
  - exists (e1 :: map (fun _ => []) Ps). simpl. rewrite concat_no_calls, app_nil_r.
    split; [exact Ht1 | split; [|discriminate]].
    constructor; [exact HP1 | apply Forall2_no_calls].
Qed.

(** Calls of the first stage, then the first stage going on. *)
Lemma phased_absorb {A B : Type} (P : event -> Prop) (Ps : list (event -> Prop))
  (m : M S A) (f : A -> M S B) :
  emits P m -> (forall a, phased (P :: Ps) (f a)) -> phased (P :: Ps) (bind m f).
Proof.
  intros Hm Hf s w. destruct (Hm s w) as (e1 & Ht1 & HP1).
  unfold bind, world_of, result_of in *.
  destruct (m s w) as [[[a|e] s'] w']; simpl in *.
  - destruct (Hf a s' w') as (blocks & Ht2 & HP2 & Hne2).
    unfold world_of, result_of in Ht2, Hne2.
    inversion HP2 as [|P' b0 Ps' rest HPb0 HPrest]; subst.
    exists ((e1 ++ b0) :: rest). simpl in *.
    rewrite Ht2, Ht1, <- !app_assoc.
    split; [reflexivity | split; [constructor; [apply Forall_app; auto | assumption]|]].
    intros b Hb. specialize (Hne2 b Hb).
    inversion Hne2 as [|b0' rest' Hb0 Hrest]; subst.
    constructor; [|assumption].
    intros Hnil. apply app_eq_nil in Hnil. destruct Hnil as [_ Hnil]. exact (Hb0 Hnil).
  - exists (e1 :: map (fun _ => []) Ps). simpl. rewrite concat_no_calls, app_nil_r.
    split; [exact Ht1 | split; [|discriminate]].
    constructor; [exact HP1 | apply Forall2_no_calls].
Qed.

End Phased.

(** ** The stages of [ANNRegression.__init__] *)

Section ANNRegressionStages.
Context {env : Environment}.

Ltac emits_all := repeat emits_step.

Lemma model_add_in_Build (l : layer) :
  emits (in_stage Build) (ANNRegression.model_add l).
Proof. unfold ANNRegression.model_add. emits_all. Qed.

Lemma buildModel_in_Build lr nhl ld dropout :
  emits_some (in_stage Build) (ANNRegression.buildModel lr nhl ld dropout).
Proof.
  pose proof model_add_in_Build as Hadd.
  unfold ANNRegression.buildModel, ANNRegression.hidden_layer.
  apply emits_some_bind_l; [apply emits_some_call; reflexivity | intros _].
  emits_all; apply Hadd.
Qed.

Lemma trainModel_in_Training epochs early_stop patience :
  emits_some (in_stage Training)
             (ANNRegression.trainModel epochs early_stop patience).
Proof.
  unfold ANNRegression.trainModel. destruct early_stop.
  - apply emits_some_bind_l; [apply emits_some_call; reflexivity | intros _].
    emits_all.
  - do 3 (apply emits_some_bind_r; [emits_all | intros _]).
    apply emits_some_bind_l; [apply emits_some_call; reflexivity | intros _].
    emits_all.
Qed.

Lemma evaluateModel_in_Evaluation :
  emits (in_stage Evaluation) ANNRegression.evaluateModel.
Proof. unfold ANNRegression.evaluateModel. emits_all. Qed.

Lemma predictWithModel_in_Evaluation plot :
  emits_some (in_stage Evaluation) (ANNRegression.predictWithModel plot).
Proof.
  unfold ANNRegression.predictWithModel, ANNRegression.plotHistory.
  do 2 (apply emits_some_bind_r; [emits_all | intros _]).
  apply emits_some_bind_l; [apply emits_some_call; reflexivity | intros _].
  emits_all.
Qed.

Lemma saveModel_in_Persistence name :
  emits (in_stage Persistence) (ANNRegression.saveModel name).
Proof. unfold ANNRegression.saveModel. emits_all. Qed.

End ANNRegressionStages.

Section ANNRegressionInit.
Context {env : Environment}.
Variables (lp vp : ndarray) (tp lr : float) (nhl ld : Z) (dropout : option float)
          (epochs : Z) (es plot : bool).

Lemma init_phased_saving :
  phased [in_stage Build; in_stage Training; in_stage Evaluation;
          in_stage Persistence]
    (ANNRegression.init (Some lp) (Some vp) tp lr nhl ld dropout epochs es
       true plot).
Proof.
  unfold ANNRegression.init.
  apply phased_absorb; [apply emits_py_int | intros idx].
  apply phased_absorb; [apply emits_set_self | intros _].
  apply phased_cons; [apply buildModel_in_Build | intros _].
  apply phased_cons; [apply trainModel_in_Training | intros _].
  apply phased_absorb; [apply evaluateModel_in_Evaluation | intros _].
  apply phased_cons; [apply predictWithModel_in_Evaluation | intros _].
  apply phased_one.
  apply emits_some_bind_l; [apply emits_some_datetime_now; reflexivity | intros now].
  apply emits_bind; [apply emits_set_self | intros _].
  apply saveModel_in_Persistence.
Qed.

Lemma init_phased_not_saving :
  phased [in_stage Build; in_stage Training; in_stage Evaluation]
    (ANNRegression.init (Some lp) (Some vp) tp lr nhl ld dropout epochs es
       false plot).
Proof.
  unfold ANNRegression.init.
  apply phased_absorb; [apply emits_py_int | intros idx].
  apply phased_absorb; [apply emits_set_self | intros _].
  apply phased_cons; [apply buildModel_in_Build | intros _].
  apply phased_cons; [apply trainModel_in_Training | intros _].
  apply phased_absorb; [apply evaluateModel_in_Evaluation | intros _].
  apply phased_one.
  apply emits_some_bind_l; [apply predictWithModel_in_Evaluation | intros _].
  apply emits_ret.
Qed.

(** Nothing is called before the split index has been computed. *)
Lemma init_calls_after_split (save : bool) (s : ANNRegression.t) (w : world) :
  trace (world_of (ANNRegression.init (Some lp) (Some vp) tp lr nhl ld dropout
                     epochs es save plot s w)) <> trace w ->
  exists idx, float_trunc (split_product tp (nd_len lp)) = Some idx.
Proof.
  destruct (float_trunc (split_product tp (nd_len lp))) as [idx|] eqn:Hidx.
  - intros _. exists idx. reflexivity.
  - intros H. exfalso. apply H.
    unfold ANNRegression.init, py_int. rewrite Hidx.
    destruct (PrimFloat.eqb _ _); reflexivity.
Qed.

End ANNRegressionInit.

Lemma bind_returns {S A B : Type} (m : M S A) (f : A -> M S B)
  (s s2 : S) (w w2 : world) (b : B) :
  bind m f s w = (Ok b, s2, w2) ->
  exists a s1 w1, m s w = (Ok a, s1, w1) /\ f a s1 w1 = (Ok b, s2, w2).
Proof.
  unfold bind. destruct (m s w) as [[[a|e] s1] w1]; [|discriminate].
  intros H. exists a, s1, w1. split; [reflexivity | exact H].
Qed.

(** *** What a constructor that returned has called *)

Section ANNRegressionReturns.
Context {env : Environment}.

Lemma call_trace {S : Type} (e : event) (s s' : S) (w w' : world)
  (r : result unit) :
  call e s w = (r, s', w') -> s' = s /\ trace w' = trace w ++ [e].
Proof.
  unfold call. destruct (raises (trace w) e); intros H; inversion H; split;
    reflexivity.
Qed.

Lemma attr_world {S A : Type} (name : string) (proj : S -> option A)
  (s s' : S) (w w' : world) (r : result A) :
  attr name proj s w = (r, s', w') -> s' = s /\ w' = w.
Proof.
  unfold attr. destruct (proj s); intros H; inversion H; split; reflexivity.
Qed.

Lemma set_self_world {S : Type} (f : S -> S) (s s' : S) (w w' : world)
  (r : result unit) :
  set_self f s w = (r, s', w') -> s' = f s /\ w' = w.
Proof. unfold set_self. intros H. inversion H. split; reflexivity. Qed.

Lemma ret_world {S A : Type} (a : A) (s s' : S) (w w' : world) (r : result A) :
  ret a s w = (r, s', w') -> s' = s /\ w' = w.
Proof. unfold ret. intros H. inversion H. split; reflexivity. Qed.

Lemma datetime_now_run {S : Type} (s s' : S) (w w' : world) (now : string) :
  datetime_now s w = (Ok now, s', w') ->
  now = now_string (trace w) /\ s' = s /\ trace w' = trace w ++ [DatetimeNow].
Proof.
  unfold datetime_now. intros H. inversion H. repeat split; reflexivity.
Qed.

Lemma emits_run {S A : Type} (P : event -> Prop) (m : M S A)
  (s s' : S) (w w' : world) (r : result A) :
  emits P m -> m s w = (r, s', w') ->
  exists evs, trace w' = trace w ++ evs /\ Forall P evs.
Proof.
  intros Hm Hrun. destruct (Hm s w) as (evs & Ht & HP).
  rewrite Hrun in Ht. exists evs. split; assumption.
Qed.

Lemma hidden_layer_in_Build (ld : Z) (dropout : option float) :
  emits (in_stage Build) (ANNRegression.hidden_layer ld dropout).
Proof.
  pose proof model_add_in_Build as Hadd.
  unfold ANNRegression.hidden_layer. repeat emits_step; apply Hadd.
Qed.

(** [buildModel] that returned has gone from [keras.Sequential()] to
    [compile]. *)
Lemma buildModel_returned (lr : float) (nhl ld : Z) (dropout : option float)
  (s s' : ANNRegression.t) (w w' : world) :
  ANNRegression.buildModel lr nhl ld dropout s w = (Ok tt, s', w') ->
  exists mid,
    trace w' = trace w ++ KerasSequential :: mid ++ [RMSPropOptimizer lr; ModelCompile]
    /\ Forall (in_stage Build) mid.
Proof.
  unfold ANNRegression.buildModel. intros H.
  apply bind_returns in H. destruct H as (? & s1 & w1 & H1 & H).
  apply call_trace in H1. destruct H1 as [_ T1].
  apply bind_returns in H. destruct H as (? & s2 & w2 & H2 & H).
  apply set_self_world in H2. destruct H2 as [_ ->].
  apply bind_returns in H. destruct H as (td & s3 & w3 & H3 & H).
  apply attr_world in H3. destruct H3 as [_ ->].
  apply bind_returns in H. destruct H as (? & s4 & w4 & H4 & H).
  apply (emits_run (in_stage Build)) in H4; [|apply model_add_in_Build].
  destruct H4 as (e4 & T4 & P4).
  apply bind_returns in H. destruct H as (? & s5 & w5 & H5 & H).
  apply (emits_run (in_stage Build)) in H5;
    [|apply emits_for_each; intros; apply hidden_layer_in_Build].
  destruct H5 as (e5 & T5 & P5).
  apply bind_returns in H. destruct H as (tl & s6 & w6 & H6 & H).
  apply attr_world in H6. destruct H6 as [_ ->].
  apply bind_returns in H. destruct H as (? & s7 & w7 & H7 & H).
  apply (emits_run (in_stage Build)) in H7; [|apply model_add_in_Build].
  destruct H7 as (e7 & T7 & P7).
  apply bind_returns in H. destruct H as (? & s8 & w8 & H8 & H).
  apply call_trace in H8. destruct H8 as [_ T8].
  apply bind_returns in H. destruct H as (m & s9 & w9 & H9 & H).
  apply attr_world in H9. destruct H9 as [_ ->].
  apply bind_returns in H. destruct H as (? & s10 & w10 & H10 & H).
  apply call_trace in H10. destruct H10 as [_ T10].
  apply set_self_world in H. destruct H as [_ ->].
  exists (e4 ++ e5 ++ e7).
  split; [|repeat (apply Forall_app; split); assumption].
  rewrite T10, T8, T7, T5, T4, T1. repeat rewrite <- app_assoc. reflexivity.
Qed.

(** [trainModel] that returned has fitted the model. *)
Lemma trainModel_returned (epochs : Z) (es : bool)
  (s s' : ANNRegression.t) (w w' : world) :
  ANNRegression.trainModel epochs es 200 s w = (Ok tt, s', w') ->
  trace w' = trace w ++ fit_calls epochs es.
Proof.
  unfold ANNRegression.trainModel, fit_calls. destruct es; intros H.
  - apply bind_returns in H. destruct H as (? & s1 & w1 & H1 & H).
    apply call_trace in H1. destruct H1 as [_ T1].
    do 3 (apply bind_returns in H; destruct H as (? & ? & ? & Ha & H);
          apply attr_world in Ha; destruct Ha as [_ ->]).
    apply bind_returns in H. destruct H as (? & s2 & w2 & H2 & H).
    apply call_trace in H2. destruct H2 as [_ T2].
    apply set_self_world in H. destruct H as [_ ->].
    rewrite T2, T1, <- app_assoc. reflexivity.
  - do 3 (apply bind_returns in H; destruct H as (? & ? & ? & Ha & H);
          apply attr_world in Ha; destruct Ha as [_ ->]).
    apply bind_returns in H. destruct H as (? & s2 & w2 & H2 & H).
    apply call_trace in H2. destruct H2 as [_ T2].
    apply set_self_world in H. destruct H as [_ ->]. exact T2.
Qed.

(** [evaluateModel] that returned has called [evaluate]. *)
Lemma evaluateModel_returned (s s' : ANNRegression.t) (w w' : world) (rmse : float) :
  ANNRegression.evaluateModel s w = (Ok rmse, s', w') ->
  trace w' = trace w ++ [ModelEvaluate].
Proof.
  unfold ANNRegression.evaluateModel. intros H.
  do 3 (apply bind_returns in H; destruct H as (? & ? & ? & Ha & H);
        apply attr_world in Ha; destruct Ha as [_ ->]).
  apply bind_returns in H. destruct H as (r & s1 & w1 & H1 & H).
  apply ret_world in H. destruct H as [_ <-].
  unfold call_value in H1.
  destruct (raises (trace w) ModelEvaluate); inversion H1. reflexivity.
Qed.

(** [predictWithModel] that returned has called [predict], and then only
    matplotlib, and this only if asked to plot. *)
Lemma predictWithModel_returned (plot : bool)
  (s s' : ANNRegression.t) (w w' : world) :
  ANNRegression.predictWithModel plot s w = (Ok tt, s', w') ->
  exists plots,
    trace w' = trace w ++ ModelPredict :: plots
    /\ Forall is_plot plots
    /\ (plot = false -> plots = []).
Proof.
  unfold ANNRegression.predictWithModel. intros H.
  do 2 (apply bind_returns in H; destruct H as (? & ? & ? & Ha & H);
        apply attr_world in Ha; destruct Ha as [_ ->]).
  apply bind_returns in H. destruct H as (? & s1 & w1 & H1 & H).
  apply call_trace in H1. destruct H1 as [_ T1].
  destruct plot.
  - match type of H with
    | ?m _ _ = _ => assert (Hem : emits is_plot m)
    end.
    { unfold ANNRegression.plotHistory. repeat emits_step. }
    apply (emits_run is_plot) in H; [|exact Hem].
    destruct H as (plots & T & P). exists plots.
    split; [|split; [exact P | discriminate]].
    rewrite T, T1, <- app_assoc. reflexivity.
  - apply ret_world in H. destruct H as [_ ->]. exists [].
    split; [exact T1 | split; [constructor | reflexivity]].
Qed.

(** [saveModel] that returned has written the model and its weights, and
    left the object as it was. *)
Lemma saveModel_returned (n : string) (s s' : ANNRegression.t) (w w' : world) :
  ANNRegression.saveModel (PStr n) s w = (Ok tt, s', w') ->
  s' = s
  /\ trace w'
     = trace w ++ [ModelToJson;
                   FileOpen (lookup_tables ++ n ++ ".json") "w";
                   JsonDump (lookup_tables ++ n ++ ".json");
                   ModelSaveWeights (lookup_tables ++ n ++ ".h5")].
Proof.
  unfold ANNRegression.saveModel, concat_name, bind, call, set_files, ret,
    raise, attr.
  destruct (ANNRegression.model s) as [m|] eqn:Hm; simpl; [|discriminate].
  case_raises. case_raises. case_raises. rewrite Hm. simpl. case_raises.
  intros H. inversion H. split; [reflexivity|].
  simpl. repeat rewrite <- app_assoc. reflexivity.
Qed.

Lemma is_plot_in_Evaluation (e : event) : is_plot e -> in_stage Evaluation e.
Proof. destruct e; simpl; intros H; try discriminate H; reflexivity. Qed.

(** The calls of a constructor that returned, stage by stage. *)
Lemma init_returned (lp vp : ndarray) (tp lr : float) (nhl ld : Z)
  (dropout : option float) (epochs : Z) (es save plot : bool)
  (s s' : ANNRegression.t) (w w' : world) :
  ANNRegression.init (Some lp) (Some vp) tp lr nhl ld dropout epochs es save
    plot s w = (Ok tt, s', w') ->
  exists mid plots p,
    trace w'
    = trace w ++ (KerasSequential :: mid ++ [RMSPropOptimizer lr; ModelCompile])
        ++ fit_calls epochs es ++ (ModelEvaluate :: ModelPredict :: plots) ++ p
    /\ Forall (in_stage Build) mid
    /\ Forall is_plot plots
    /\ (plot = false -> plots = [])
    /\ (save = true ->
        exists now,
          p = save_calls ("ann_model_" ++ timestamp now)
          /\ ANNRegression.model_name s' = Some ("ann_model_" ++ timestamp now)%string)
    /\ (save = false -> p = []).
Proof.
  unfold ANNRegression.init. intros H.
  apply bind_returns in H. destruct H as (idx & s1 & w1 & H1 & H).
  assert (W1 : w1 = w).
  { unfold py_int in H1. destruct (float_trunc _); [inversion H1; reflexivity|].
    destruct (PrimFloat.eqb _ _); discriminate H1. }
  subst w1. clear H1.
  apply bind_returns in H. destruct H as (? & s2 & w2 & H2 & H).
  apply set_self_world in H2. destruct H2 as [_ ->].
  apply bind_returns in H. destruct H as ([] & s3 & w3 & H3 & H).
  apply buildModel_returned in H3. destruct H3 as (mid & T3 & P3).
  apply bind_returns in H. destruct H as ([] & s4 & w4 & H4 & H).
  apply trainModel_returned in H4.
  apply bind_returns in H. destruct H as (rmse & s5 & w5 & H5 & H).
  apply evaluateModel_returned in H5.
  apply bind_returns in H. destruct H as ([] & s6 & w6 & H6 & H).
  apply predictWithModel_returned in H6.
  destruct H6 as (plots & T6 & P6 & N6).
  exists mid, plots.
  destruct save.
  - apply bind_returns in H. destruct H as (now & s7 & w7 & H7 & H).
    apply datetime_now_run in H7. destruct H7 as (-> & -> & T7).
    apply bind_returns in H. destruct H as (? & s8 & w8 & H8 & H).
    apply set_self_world in H8. destruct H8 as [-> ->].
    apply saveModel_returned in H. destruct H as (-> & T).
    exists (save_calls ("ann_model_" ++ timestamp (now_string (trace w6)))).
    split; [|split; [exact P3 | split; [exact P6 | split; [exact N6|]]]].
    + rewrite T, T7, T6, H5, H4, T3. unfold save_calls.
      repeat rewrite <- app_assoc. cbn [app]. reflexivity.
    + split; [|discriminate].
      intros _. exists (now_string (trace w6)). split; reflexivity.
  - apply ret_world in H. destruct H as [-> ->]. exists [].
    split; [|split; [exact P3 | split; [exact P6 | split; [exact N6|]]]].
    + rewrite T6, H5, H4, T3. repeat rewrite <- app_assoc. cbn [app].
      rewrite app_nil_r. reflexivity.
    + split; [discriminate | reflexivity].
Qed.

End ANNRegressionReturns.

(** C4: with both profiles given, the calls of [ANNRegression.__init__]
    come in four consecutive blocks: those of [buildModel], then those of
    [trainModel], then those of [evaluateModel] and [predictWithModel],
    then those of the [save_model] branch.  A call of the last block is made
    only if [save_model] is true.  When the constructor returns, every
    stage has run to its end: the first block goes from [keras.Sequential()]
    to [compile], the second is the fit asked for, the third is [evaluate],
    then [predict], then only plots (none unless [plot_results]), and the
    last is empty when [save_model] is false and otherwise is the calls of
    [saveModel] under the name made from the time of day, which is left in
    [model_name].  The split comes first: as soon as one call has been
    made, the four data attributes hold their slices. *)
Theorem ANNRegression_init_stage_order :
  forall (env : Environment) (lp vp : ndarray) (tp lr : float) (nhl ld : Z)
         (dropout : option float) (epochs : Z) (es save plot : bool)
         (s : ANNRegression.t) (w : world),
    let run := ANNRegression.init (Some lp) (Some vp) tp lr nhl ld dropout
                 epochs es save plot s w in
    exists b t e p,
      trace (world_of run) = trace w ++ b ++ t ++ e ++ p
      /\ Forall (in_stage Build) b
      /\ Forall (in_stage Training) t
      /\ Forall (in_stage Evaluation) e
      /\ Forall (in_stage Persistence) p
      /\ (p <> [] -> save = true)
      /\ (result_of run = Ok tt ->
          b <> [] /\ t <> [] /\ e <> [] /\ (save = true -> p <> []))
      /\ (result_of run = Ok tt ->
          (exists mid,
              b = KerasSequential :: mid ++ [RMSPropOptimizer lr; ModelCompile])
          /\ t = fit_calls epochs es
          /\ (exists plots,
                e = ModelEvaluate :: ModelPredict :: plots
                /\ Forall is_plot plots
                /\ (plot = false -> plots = []))
          /\ (save = true ->
              exists now,
                p = save_calls ("ann_model_" ++ timestamp now)
                /\ ANNRegression.model_name (state_of run)
                   = Some ("ann_model_" ++ timestamp now)%string)
          /\ (save = false -> p = []))
      /\ (b ++ t ++ e ++ p <> [] ->
          exists idx,
            float_trunc (split_product tp (nd_len lp)) = Some idx
            /\ ann_data_is
                 (nd_slice (Some 0) (Some idx) lp)
                 (nd_slice (Some 0) (Some idx) vp)
                 (nd_slice (Some (idx + 1)) None lp)
                 (nd_slice (Some (idx + 1)) None vp)
                 (state_of run)).
Proof.
  intros env lp vp tp lr nhl ld dropout epochs es save plot s w run.
  assert (Hsplit : forall evs, trace (world_of run) = trace w ++ evs -> evs <> [] ->
            exists idx,
              float_trunc (split_product tp (nd_len lp)) = Some idx
              /\ ann_data_is
                   (nd_slice (Some 0) (Some idx) lp)
                   (nd_slice (Some 0) (Some idx) vp)
                   (nd_slice (Some (idx + 1)) None lp)
                   (nd_slice (Some (idx + 1)) None vp)
                   (state_of run)).
  { intros evs Ht Hne.
    destruct (init_calls_after_split lp vp tp lr nhl ld dropout epochs es plot
                save s w) as (idx & Hidx).
    - fold run. rewrite Ht. intros Heq.
      rewrite <- (app_nil_r (trace w)) in Heq at 2.
      apply app_inv_head in Heq. exact (Hne Heq).
    - exists idx. split; [exact Hidx|].
      apply ANNRegression_init_split. exact Hidx. }
  destruct (result_of run) as [[]|err] eqn:Hres.
  - (* the constructor returned *)
    assert (Hrun : run = (Ok tt, state_of run, world_of run)).
    { unfold result_of, state_of, world_of in *.
      destruct run as [[r s'] w']. simpl in *. rewrite Hres. reflexivity. }
    destruct (init_returned lp vp tp lr nhl ld dropout epochs es save plot s
                (state_of run) w (world_of run) Hrun)
      as (mid & plots & p & Ht & Hmid & Hplots & Hnoplot & Hsave & Hnosave).
    exists (KerasSequential :: mid ++ [RMSPropOptimizer lr; ModelCompile]),
      (fit_calls epochs es), (ModelEvaluate :: ModelPredict :: plots), p.
    assert (Hp : Forall (in_stage Persistence) p /\ (p <> [] -> save = true)
                 /\ (save = true -> p <> [])).
    { destruct save.
      - destruct (Hsave eq_refl) as (now & -> & _).
        split; [repeat constructor|]. split; [reflexivity | discriminate].
      - rewrite (Hnosave eq_refl).
        split; [constructor|]. split; [intros H; contradiction H; reflexivity|].
        discriminate. }
    destruct Hp as (Hp1 & Hp2 & Hp3).
    split; [exact Ht|].
    split; [constructor; [reflexivity|];
            apply Forall_app; split; [exact Hmid | repeat constructor]|].
    split; [unfold fit_calls; destruct es; repeat constructor|].
    split; [constructor; [reflexivity|]; constructor; [reflexivity|];
            eapply Forall_impl; [apply is_plot_in_Evaluation | exact Hplots]|].
    split; [exact Hp1|]. split; [exact Hp2|].
    split; [intros _; split; [discriminate|];
            split; [unfold fit_calls; destruct es; discriminate|];
            split; [discriminate | exact Hp3]|].
    split.
    + intros _. split; [exists mid; reflexivity|]. split; [reflexivity|].
      split; [exists plots; repeat split; assumption|].
      split; [exact Hsave | exact Hnosave].
    + apply Hsplit. exact Ht.
  - (* a call raised *)
    destruct save.
    + destruct (init_phased_saving lp vp tp lr nhl ld dropout epochs es plot s w)
        as (blocks & Ht & HP & _).
      fold run in Ht.
      inversion HP as [|P1 b Ps1 r1 Hb H1]; subst.
      inversion H1 as [|P2 t Ps2 r2 Htr H2]; subst.
      inversion H2 as [|P3 e Ps3 r3 He H3]; subst.
      inversion H3 as [|P4 p Ps4 r4 Hp H4]; subst.
      inversion H4; subst. simpl in Ht. rewrite app_nil_r in Ht.
      exists b, t, e, p.
      split; [exact Ht|]. split; [exact Hb|]. split; [exact Htr|].
      split; [exact He|]. split; [exact Hp|]. split; [reflexivity|].
      split; [discriminate|]. split; [discriminate|].
      apply Hsplit. exact Ht.
    + destruct (init_phased_not_saving lp vp tp lr nhl ld dropout epochs es plot s w)
        as (blocks & Ht & HP & _).
      fold run in Ht.
      inversion HP as [|P1 b Ps1 r1 Hb H1]; subst.
      inversion H1 as [|P2 t Ps2 r2 Htr H2]; subst.
      inversion H2 as [|P3 e Ps3 r3 He H3]; subst.
      inversion H3; subst. simpl in Ht.
      exists b, t, e, [].
      split; [exact Ht|]. split; [exact Hb|]. split; [exact Htr|].
      split; [exact He|]. split; [constructor|].
      split; [intros H; contradiction H; reflexivity|].
      split; [discriminate|]. split; [discriminate|].
      apply Hsplit. exact Ht.
Qed.

(** ** The sweep of the timing script *)

Section SweepRuns.
Context {env : Environment}.
Hypothesis returns : forall h e, raises h e = false.

Lemma sweep_step_run (no_houses : Z) (g : TimingScript.t) (w : world) :
  TimingScript.k g = Z.of_nat (length (TimingScript.data_0 g)) ->
  length (TimingScript.data_1 g) = length (TimingScript.data_0 g) ->
  TimingScript.sweep_step no_houses g w
  = (Ok tt,
     {| TimingScript.data_0 := TimingScript.data_0 g ++ [no_houses];
        TimingScript.data_1 :=
          TimingScript.data_1 g ++ [sweep_time (trace w) no_houses];
        TimingScript.k := TimingScript.k g + 1 |},
     {| trace := trace w ++ sweep_calls no_houses; files := files w |}).
Proof.
  intros Hk Hlen.
  unfold TimingScript.sweep_step, TimingScript.train, bind, call, set_self,
    get_self, print, time, ret, lift, sweep_time, sweep_calls,
    simulation_calls, training_calls.
  set (config := ("../_configs/montecarlo" ++ str_of_Z no_houses ++ ".json")%string).
  cbn [trace files TimingScript.data_0 TimingScript.data_1 TimingScript.k].
  rewrite !returns.
  cbn [trace files TimingScript.data_0 TimingScript.data_1 TimingScript.k].
  rewrite Hk, Nat2Z.id.
  rewrite nth_error_app2 by lia. rewrite Hlen, Nat.sub_diag.
  cbn [nth_error]. unfold ret at 1.
  cbn [trace files TimingScript.data_0 TimingScript.data_1 TimingScript.k].
  rewrite nth_error_app2 by lia. rewrite Nat.sub_diag.
  cbn [nth_error]. unfold ret at 1.
  cbn [trace files TimingScript.data_0 TimingScript.data_1 TimingScript.k].
  repeat rewrite <- app_assoc. cbn [app].
  reflexivity.
Qed.

Lemma sweep_run (sizes : list Z) :
  forall (g : TimingScript.t) (w : world),
    TimingScript.k g = Z.of_nat (length (TimingScript.data_0 g)) ->
    length (TimingScript.data_1 g) = length (TimingScript.data_0 g) ->
    for_each sizes TimingScript.sweep_step g w
    = (Ok tt,
       {| TimingScript.data_0 := TimingScript.data_0 g ++ sizes;
          TimingScript.data_1 :=
            TimingScript.data_1 g ++ sweep_times (trace w) sizes;
          TimingScript.k := TimingScript.k g + Z.of_nat (length sizes) |},
       {| trace := trace w ++ flat_map sweep_calls sizes; files := files w |}).
Proof.
  induction sizes as [|n rest IH]; intros g w Hk Hlen.
  - simpl. unfold ret. rewrite !app_nil_r, Z.add_0_r.
    destruct g, w; reflexivity.
  - cbn [for_each]. unfold bind at 1. rewrite (sweep_step_run n g w Hk Hlen).
    rewrite IH.
    + cbn [trace files TimingScript.data_0 TimingScript.data_1 TimingScript.k
             flat_map sweep_times length].
      rewrite <- !app_assoc. simpl app.
      replace (TimingScript.k g + 1 + Z.of_nat (length rest))
        with (TimingScript.k g + Z.of_nat (S (length rest))) by lia.
      reflexivity.
    + cbn [TimingScript.data_0 TimingScript.k]. rewrite length_app. simpl. lia.
    + cbn [TimingScript.data_0 TimingScript.data_1]. rewrite !length_app.
      simpl. lia.
Qed.

End SweepRuns.

Lemma sweep_sizes :
  np_arange_int 10 250 10
  = [10; 20; 30; 40; 50; 60; 70; 80; 90; 100; 110; 120; 130; 140; 150; 160;
     170; 180; 190; 200; 210; 220; 230; 240].
Proof. reflexivity. Qed.

Lemma sweep_times_length (env : Environment) (sizes : list Z) :
  forall h, length (sweep_times h sizes) = length sizes.
Proof.
  induction sizes as [|n rest IH]; intros h; simpl; [reflexivity|].
  rewrite IH. reflexivity.
Qed.

(** C7: when every call returns, the script runs one turn per size
    [10, 20, ..., 240], in that order.  Each turn makes one [nrPfSim] call,
    then reads the clock, constructs [TrainANN], calls [buildModel],
    [trainModel], [evaluateModel] and [predictWithModel] once each, and
    reads the clock again; it records the size in [data[0]] and the
    difference of the two readings in [data[1]], so the two lists pair each
    size with exactly one time. *)
Theorem timing_sweep :
  forall (env : Environment) (w : world),
    (forall h e, raises h e = false) ->
    let sizes := np_arange_int 10 250 10 in
    let run := TimingScript.script TimingScript.fresh w in
    sizes = [10; 20; 30; 40; 50; 60; 70; 80; 90; 100; 110; 120; 130; 140; 150;
             160; 170; 180; 190; 200; 210; 220; 230; 240]
    /\ result_of run = Ok tt
    /\ TimingScript.data_0 (state_of run) = sizes
    /\ TimingScript.data_1 (state_of run) = sweep_times (trace w) sizes
    /\ length (TimingScript.data_1 (state_of run)) = length sizes
    /\ trace (world_of run)
       = trace w ++ flat_map sweep_calls sizes ++ plot_calls.
Proof.
  intros env w Hr sizes run.
  assert (Hrun : run
    = (Ok tt,
       {| TimingScript.data_0 := sizes;
          TimingScript.data_1 := sweep_times (trace w) sizes;
          TimingScript.k := Z.of_nat (length sizes) |},
       {| trace := trace w ++ flat_map sweep_calls sizes ++ plot_calls;
          files := files w |})).
  { unfold run, TimingScript.script. fold sizes.
    unfold bind at 1.
    rewrite (sweep_run Hr sizes TimingScript.fresh w) by reflexivity.
    cbn [TimingScript.data_0 TimingScript.data_1 TimingScript.k
           TimingScript.fresh app].
    unfold TimingScript.plotit, bind, get_self, call.
    cbn [trace files]. rewrite !Hr. cbn [trace files].
    unfold plot_calls. repeat rewrite <- app_assoc. simpl app.
    rewrite Z.add_0_l. reflexivity. }
  rewrite Hrun. unfold result_of, state_of, world_of.
  cbn [fst snd TimingScript.data_0 TimingScript.data_1 trace].
  repeat split; apply sweep_times_length.
Qed.

(** ** Text written, then read *)

Lemma string_app_nil_r (s : string) : (s ++ "")%string = s.
Proof. induction s as [|c s IH]; simpl; [reflexivity | rewrite IH; reflexivity]. Qed.

Lemma string_app_assoc (a b c : string) :
  ((a ++ b) ++ c)%string = (a ++ b ++ c)%string.
Proof. induction a as [|x a IH]; simpl; [reflexivity | rewrite IH; reflexivity]. Qed.

Lemma lacks_app (c : ascii) (a b : string) :
  lacks c (a ++ b) = lacks c a && lacks c b.
Proof.
  induction a as [|x a IH]; simpl; [reflexivity|].
  rewrite IH. apply andb_assoc.
Qed.

Lemma plain_lacks (s : string) :
  plain s = true ->
  lacks "," s = true /\ lacks newline s = true /\ lacks carriage_return s = true.
Proof.
  unfold plain. intros H. apply andb_true_iff in H. destruct H as [H H3].
  apply andb_true_iff in H. destruct H as [H1 H2]. auto.
Qed.

(** A field without comma is read up to the separator that follows it. *)
Lemma split_field (field : string) :
  lacks "," field = true ->
  forall cur tail,
    split_comma_space_from cur (field ++ ", " ++ tail)
    = (cur ++ field)%string :: split_comma_space_from EmptyString tail.
Proof.
  induction field as [|c field IH]; intros Hf cur tail.
  - simpl. rewrite string_app_nil_r. reflexivity.
  - simpl in Hf. apply andb_true_iff in Hf. destruct Hf as [Hc Hf].
    apply negb_true_iff in Hc.
    specialize (IH Hf (cur ++ String c EmptyString)%string tail).
    rewrite string_app_assoc in IH. simpl in IH.
    destruct field as [|c' field']; simpl in *; rewrite Hc; simpl; exact IH.
Qed.

(** The last field is read up to the end of the line. *)
Lemma split_last_field (field : string) :
  lacks "," field = true ->
  forall cur, split_comma_space_from cur field = [(cur ++ field)%string].
Proof.
  induction field as [|c field IH]; intros Hf cur.
  - simpl. rewrite string_app_nil_r. reflexivity.
  - simpl in Hf. apply andb_true_iff in Hf. destruct Hf as [Hc Hf].
    apply negb_true_iff in Hc.
    specialize (IH Hf (cur ++ String c EmptyString)%string).
    rewrite string_app_assoc in IH. simpl in IH.
    destruct field as [|c' field']; simpl in *; [reflexivity|].
    rewrite Hc. simpl. exact IH.
Qed.

Lemma split_join (fields : list string) :
  fields <> [] ->
  Forall (fun f => lacks "," f = true) fields ->
  split_comma_space (join_fields fields) = fields.
Proof.
  unfold split_comma_space.
  induction fields as [|f rest IH]; intros Hne Hall; [congruence|].
  inversion Hall as [|? ? Hf Hrest]; subst.
  destruct rest as [|g rest'].
  - simpl. apply (split_last_field f Hf EmptyString).
  - change (join_fields (f :: g :: rest'))
      with (f ++ ", " ++ join_fields (g :: rest'))%string.
    rewrite (split_field f Hf). simpl append. f_equal.
    apply IH; [discriminate | exact Hrest].
Qed.

(** What the inner loop of [exportResults] writes is the row's renderings
    joined by the separator. *)
Lemma export_items_join (env : Environment) (items : list num) :
  forall len counter,
    counter + Z.of_nat (length items) = len ->
    HyperparamSearch.export_items items len counter
    = join_fields (map HyperparamSearch.py_str items).
Proof.
  induction items as [|x rest IH]; intros len counter Hlen; [reflexivity|].
  cbn [HyperparamSearch.export_items map].
  rewrite (IH len (counter + 1)) by (simpl length in Hlen; lia).
  destruct rest as [|y rest'].
  - simpl length in Hlen. replace (counter <? len - 1) with false
      by (symmetry; apply Z.ltb_ge; lia).
    simpl. apply string_app_nil_r.
  - simpl length in Hlen. replace (counter <? len - 1) with true
      by (symmetry; apply Z.ltb_lt; lia).
    reflexivity.
Qed.

Lemma lacks_join (c : ascii) (fields : list string) :
  lacks c ", " = true ->
  Forall (fun f => lacks c f = true) fields ->
  lacks c (join_fields fields) = true.
Proof.
  intros Hsep Hall. induction Hall as [|f rest Hf Hrest IH]; [reflexivity|].
  destruct rest as [|g rest']; [exact Hf|].
  change (join_fields (f :: g :: rest'))
    with (f ++ ", " ++ join_fields (g :: rest'))%string.
  rewrite !lacks_app, Hf, Hsep, IH. reflexivity.
Qed.

(** A line without newline is read whole, with its terminator. *)
Lemma file_lines_line (line : string) :
  lacks newline line = true ->
  forall cur rest,
    file_lines_from cur (line ++ String newline rest)
    = (cur ++ line ++ String newline EmptyString)%string
        :: file_lines_from EmptyString rest.
Proof.
  induction line as [|c line IH]; intros Hl cur rest.
  - simpl. reflexivity.
  - simpl in Hl. apply andb_true_iff in Hl. destruct Hl as [Hc Hl].
    apply negb_true_iff in Hc. simpl. rewrite Hc.
    rewrite (IH Hl). rewrite string_app_assoc. reflexivity.
Qed.

Lemma replace_newline_line (line : string) :
  lacks newline line = true ->
  replace_char newline EmptyString (line ++ String newline EmptyString) = line.
Proof.
  induction line as [|c line IH]; intros Hl.
  - reflexivity.
  - simpl in Hl. apply andb_true_iff in Hl. destruct Hl as [Hc Hl].
    apply negb_true_iff in Hc. simpl. rewrite Hc, (IH Hl). reflexivity.
Qed.

Lemma universal_newlines_id (s : string) :
  lacks carriage_return s = true -> universal_newlines s = s.
Proof.
  induction s as [|c s IH]; intros Hs; [reflexivity|].
  simpl in Hs. apply andb_true_iff in Hs. destruct Hs as [Hc Hs].
  apply negb_true_iff in Hc. simpl. rewrite Hc, (IH Hs). reflexivity.
Qed.

(** The rendering of an integer is plain. *)
Lemma plain_str_of_Z (z : Z) : plain (str_of_Z z) = true.
Proof.
  assert (Hu : forall d, plain (NilEmpty.string_of_uint d) = true)
    by (induction d; simpl; auto).
  assert (Hz : forall d, plain (NilZero.string_of_uint d) = true)
    by (intros d; destruct d; try reflexivity; apply (Hu (_ _))).
  unfold str_of_Z, NilZero.string_of_int.
  destruct (Z.to_int z) as [d|d]; [apply Hz|].
  change (plain (String "-" (NilZero.string_of_uint d)) = true).
  specialize (Hz d). unfold plain in *. simpl. exact Hz.
Qed.

Section ResultsFile.
Context {env : Environment}.

Lemma readable_fields (row : list num) :
  readable_row row ->
  map HyperparamSearch.py_str row <> []
  /\ Forall (fun f => lacks "," f = true) (map HyperparamSearch.py_str row)
  /\ Forall (fun f => lacks newline f = true) (map HyperparamSearch.py_str row)
  /\ Forall (fun f => lacks carriage_return f = true)
            (map HyperparamSearch.py_str row).
Proof.
  intros [Hne Hall]. split.
  - destruct row; [congruence | discriminate].
  - repeat split; apply Forall_map; eapply Forall_impl; try exact Hall;
      intros x [Hp _]; apply plain_lacks in Hp; tauto.
Qed.

Lemma file_lines_export (sm : list (list num)) :
  Forall readable_row sm ->
  file_lines (HyperparamSearch.export_text sm) = map line_of sm.
Proof.
  unfold file_lines. intros Hall.
  induction Hall as [|row rest Hrow Hrest IH]; [reflexivity|].
  cbn [HyperparamSearch.export_text map].
  rewrite (export_items_join env row (Z.of_nat (length row)) 0) by lia.
  destruct (readable_fields row Hrow) as (_ & _ & Hnl & _).
  change (String newline EmptyString ++ HyperparamSearch.export_text rest)%string
    with (String newline (HyperparamSearch.export_text rest)).
  rewrite file_lines_line by (apply lacks_join; [reflexivity | exact Hnl]).
  rewrite IH. reflexivity.
Qed.

Lemma export_text_lacks_cr (sm : list (list num)) :
  Forall readable_row sm ->
  lacks carriage_return (HyperparamSearch.export_text sm) = true.
Proof.
  intros Hall. induction Hall as [|row rest Hrow Hrest IH]; [reflexivity|].
  cbn [HyperparamSearch.export_text].
  rewrite (export_items_join env row (Z.of_nat (length row)) 0) by lia.
  destruct (readable_fields row Hrow) as (_ & _ & _ & Hcr).
  rewrite !lacks_app, IH, lacks_join by (reflexivity || exact Hcr).
  reflexivity.
Qed.

Lemma floats_of_rendered (row : list num) (s : HyperparamSearch.t) (w : world) :
  Forall (fun x => float_parse (HyperparamSearch.py_str x) <> None) row ->
  exists row',
    HyperparamSearch.floats_of (map HyperparamSearch.py_str row) s w = (Ok row', s, w)
    /\ Forall2 reads_as row row'.
Proof.
  intros Hall. induction Hall as [|x rest Hx Hrest IH].
  - exists []. split; [reflexivity | constructor].
  - destruct IH as (rest' & Hrun & Hrel).
    destruct (float_parse (HyperparamSearch.py_str x)) as [f|] eqn:Hf; [|congruence].
    exists (NFloat f :: rest'). split.
    + cbn [map HyperparamSearch.floats_of]. unfold bind, lift. rewrite Hf.
      unfold ret at 1. rewrite Hrun. reflexivity.
    + constructor; [exists f; auto | exact Hrel].
Qed.

Lemma import_lines_exported (sm : list (list num)) (s : HyperparamSearch.t) (w : world) :
  Forall readable_row sm ->
  exists sm',
    HyperparamSearch.import_lines (map line_of sm) s w = (Ok sm', s, w)
    /\ Forall2 (Forall2 reads_as) sm sm'.
Proof.
  intros Hall. induction Hall as [|row rest Hrow Hrest IH].
  - exists []. split; [reflexivity | constructor].
  - destruct IH as (rest' & Hrun & Hrel).
    destruct (readable_fields row Hrow) as (Hne & Hcomma & Hnl & _).
    destruct (floats_of_rendered row s w) as (row' & Hrow' & Hrel').
    { destruct Hrow as [_ Hrow]. eapply Forall_impl; [|exact Hrow].
      intros x [_ Hx]. exact Hx. }
    exists (row' :: rest'). split; [|constructor; assumption].
    cbn [map HyperparamSearch.import_lines]. unfold line_of at 1.
    rewrite replace_newline_line by (apply lacks_join; [reflexivity | exact Hnl]).
    rewrite (split_join _ Hne Hcomma).
    unfold bind. rewrite Hrow', Hrun. reflexivity.
Qed.

End ResultsFile.

(** What an [exportResults] that returned has left on disk. *)
Lemma exportResults_writes (env : Environment) (s s1 : HyperparamSearch.t)
  (w w1 : world) :
  HyperparamSearch.exportResults s w = (Ok tt, s1, w1) ->
  exists r sm,
    HyperparamSearch.runtime s = Some r
    /\ HyperparamSearch.solution_matrix s = Some sm
    /\ s1 = s
    /\ files w1 (HyperparamSearch.results_path (str_of_Z r))
       = Some (TextFile (HyperparamSearch.export_text sm)).
Proof.
  unfold HyperparamSearch.exportResults, bind, call, set_files, ret, raise, attr.
  destruct (HyperparamSearch.runtime s) as [r|] eqn:Hr; [|discriminate].
  set (path := ("./data/hyperparamsearchresults_" ++ str_of_Z r ++ "seconds"
                ++ ".txt")%string).
  assert (Hpath : HyperparamSearch.results_path (str_of_Z r) = path) by reflexivity.
  clearbody path. simpl.
  case_raises.
  destruct (HyperparamSearch.solution_matrix s) as [sm|] eqn:Hsm; simpl; [|discriminate].
  case_raises.
  intros H. inversion H. subst s1 w1. simpl.
  exists r, sm. repeat split. rewrite Hpath. unfold fs_write.
  rewrite String.eqb_refl. reflexivity.
Qed.

(** After [exportResults] has returned, [importResults] called with
    [str(self.runtime)] on the files it left returns and sets
    [solution_matrix] to as many rows of as many entries, each entry the
    float read from the rendering of the entry that was written. *)
Lemma export_then_import_reads :
  forall (env : Environment) (s s1 s2 : HyperparamSearch.t) (w w1 w2 : world)
         (r : Z) (sm : list (list num)),
    HyperparamSearch.runtime s = Some r ->
    HyperparamSearch.solution_matrix s = Some sm ->
    HyperparamSearch.exportResults s w = (Ok tt, s1, w1) ->
    files w2 = files w1 ->
    Forall readable_row sm ->
    (forall h path, raises h (FileOpen path "r") = false) ->
    (forall h path, raises h (FileRead path) = false) ->
    let run := HyperparamSearch.importResults (str_of_Z r) s2 w2 in
    result_of run = Ok tt
    /\ exists sm',
         HyperparamSearch.solution_matrix (state_of run) = Some sm'
         /\ Forall2 (Forall2 reads_as) sm sm'.
Proof.
  intros env s s1 s2 w w1 w2 r sm Hr Hsm Hexport Hfiles Hrows Hopen Hread run.
  destruct (exportResults_writes env s s1 w w1 Hexport)
    as (r' & sm' & Hr' & Hsm' & _ & Hfile).
  rewrite Hr in Hr'. inversion Hr'. subst r'.
  rewrite Hsm in Hsm'. inversion Hsm'. subst sm'.
  assert (Hrun : exists rows w',
             run = (Ok tt, HyperparamSearch.set_solution_matrix rows s2, w')
             /\ Forall2 (Forall2 reads_as) sm rows).
  { unfold run, HyperparamSearch.importResults, read_text.
    unfold bind at 1. unfold bind at 1. unfold call at 1. rewrite Hopen.
    unfold bind at 1. unfold get_world at 1. cbn [files trace].
    rewrite Hfiles, Hfile.
    unfold bind at 1. unfold call at 1. cbn [files trace]. rewrite Hread.
    unfold ret at 1.
    rewrite universal_newlines_id by (apply export_text_lacks_cr; exact Hrows).
    rewrite file_lines_export by exact Hrows.
    match goal with
    | |- context [bind (HyperparamSearch.import_lines ?ls) ?k ?s0 ?w0] =>
        destruct (import_lines_exported sm s0 w0 Hrows) as (rows & Hrun & Hrel);
        unfold bind at 1; rewrite Hrun
    end.
    eexists rows, _. split; [reflexivity | exact Hrel]. }
  destruct Hrun as (rows & w' & -> & Hrel).
  split; [reflexivity|]. exists rows. split; [reflexivity | exact Hrel].
Qed.

Lemma rendered_faithfully_reads (env : Environment) (x : num) :
  rendered_faithfully x ->
  plain (HyperparamSearch.py_str x) = true
  /\ float_parse (HyperparamSearch.py_str x) = Some (float_value x).
Proof.
  destruct x as [z|f]; simpl.
  - intros H. split; [apply plain_str_of_Z | exact H].
  - intros H. exact H.
Qed.

Lemma faithful_row_readable (env : Environment) (row : list num) :
  faithful_row row -> readable_row row.
Proof.
  intros [Hne Hrow]. split; [exact Hne|].
  apply Forall_forall. intros x Hx.
  rewrite Forall_forall in Hrow.
  destruct (rendered_faithfully_reads env x (Hrow x Hx)) as [Hp Hf].
  split; [exact Hp | rewrite Hf; discriminate].
Qed.

(** Entries read from faithful renderings are the values written. *)
Lemma reads_as_values (env : Environment) (row row' : list num) :
  Forall rendered_faithfully row ->
  Forall2 reads_as row row' ->
  row' = map (fun x => NFloat (float_value x)) row.
Proof.
  intros Hrow Hrel. induction Hrel as [|x y row row' Hxy Hrel IH];
    [reflexivity|].
  inversion Hrow as [|? ? Hx Hrest]; subst.
  destruct (rendered_faithfully_reads env x Hx) as [_ Hf].
  destruct Hxy as (f & Hparse & ->).
  rewrite Hf in Hparse. inversion Hparse. subst f.
  simpl. rewrite (IH Hrest). reflexivity.
Qed.

Lemma reads_as_rows (env : Environment) (sm sm' : list (list num)) :
  Forall faithful_row sm ->
  Forall2 (Forall2 reads_as) sm sm' ->
  sm' = as_floats sm.
Proof.
  intros Hsm Hrel. induction Hrel as [|row row' sm sm' Hrow Hrel IH];
    [reflexivity|].
  inversion Hsm as [|? ? [_ Hr] Hrest]; subst.
  unfold as_floats in *. simpl.
  rewrite (reads_as_values env row row' Hr Hrow), (IH Hrest). reflexivity.
Qed.

(** C10: after [exportResults] has returned, [importResults] called with
    [str(self.runtime)] on the files it left returns and sets
    [solution_matrix] to the same rows of the same values, each as a float:
    an integer entry [z] comes back as [float(z)] and a float entry as
    itself.  This holds provided every row has an entry, Python's [str] and
    [float] round-trip each entry (the rendering of a float is a plain
    number from which [float] reads that float, and [float] reads an
    integer from its digits), and the two reads of the file do not fail. *)
Theorem exportResults_then_importResults :
  forall (env : Environment) (s s1 s2 : HyperparamSearch.t) (w w1 w2 : world)
         (r : Z) (sm : list (list num)),
    HyperparamSearch.runtime s = Some r ->
    HyperparamSearch.solution_matrix s = Some sm ->
    HyperparamSearch.exportResults s w = (Ok tt, s1, w1) ->
    files w2 = files w1 ->
    Forall faithful_row sm ->
    (forall h path, raises h (FileOpen path "r") = false) ->
    (forall h path, raises h (FileRead path) = false) ->
    let run := HyperparamSearch.importResults (str_of_Z r) s2 w2 in
    result_of run = Ok tt
    /\ HyperparamSearch.solution_matrix (state_of run) = Some (as_floats sm).
Proof.
  intros env s s1 s2 w w1 w2 r sm Hr Hsm Hexport Hfiles Hrows Hopen Hread run.
  assert (Hreadable : Forall readable_row sm).
  { apply Forall_forall. intros row Hrow. rewrite Forall_forall in Hrows.
    apply faithful_row_readable, Hrows, Hrow. }
  destruct (export_then_import_reads env s s1 s2 w w1 w2 r sm Hr Hsm Hexport
              Hfiles Hreadable Hopen Hread) as (Hok & sm' & Hsm' & Hrel).
  split; [exact Hok|].
  fold run in Hsm'. rewrite Hsm'.
  rewrite (reads_as_rows env sm sm' Hrows Hrel). reflexivity.
Qed.

(** ** Instances on concrete inputs *)

Lemma init_without_profiles_is_inert_witness :
  (@None ndarray = None \/ @None ndarray = None)
  /\ ANNRegression.init (env := quiet) None None 0.7 0.001 1 64 None 1000
       false false false ANNRegression.fresh empty_world
     = (Ok tt, ANNRegression.fresh, empty_world)
  /\ ParametricRegression.init (env := quiet) None (Some (ramp 10)) 0.7 true
       ParametricRegression.fresh empty_world
     = (Ok tt, ParametricRegression.fresh, empty_world).
Proof.
  split; [left; reflexivity|]. split.
  - apply (init_without_profiles_is_inert quiet None None 0.7 0.001 1 64 None
             1000 false false false empty_world (or_introl eq_refl)).
  - apply (init_without_profiles_is_inert quiet None (Some (ramp 10)) 0.7 0.001
             1 64 None 1000 false true false empty_world (or_introl eq_refl)).
Defined.

Lemma search_type_other_than_grid_is_inert_witness :
  PStr "random" <> PStr "grid"
  /\ HyperparamSearch.init (env := quiet) (Some (ramp 10)) (Some (ramp 10))
       (PStr "random") HyperparamSearch.fresh empty_world
     = (Ok tt,
        {| HyperparamSearch.solution_matrix := Some [];
           HyperparamSearch.params := None;
           HyperparamSearch.runtime := None |},
        {| trace := [TimeRead]; files := files empty_world |}).
Proof.
  assert (H : PStr "random" <> PStr "grid") by discriminate.
  split; [exact H|].
  apply (search_type_other_than_grid_is_inert quiet (ramp 10) (ramp 10)
           (PStr "random") HyperparamSearch.fresh empty_world H).
Defined.

Lemma split_leaves_out_row_at_split_index_witness :
  float_trunc (split_product 0.7 (nd_len (ramp 10))) = Some 7
  /\ 0 <= 7 < Z.of_nat (nd_len (ramp 10))
  /\ ANNRegression.train_data
       (state_of (ANNRegression.init (env := quiet) (Some (ramp 10))
                    (Some (ramp 10)) 0.7 0.001 1 64 None 1000 false false false
                    ANNRegression.fresh empty_world))
     = Some (nd_slice (Some 0) (Some 7) (ramp 10))
  /\ ANNRegression.test_data
       (state_of (ANNRegression.init (env := quiet) (Some (ramp 10))
                    (Some (ramp 10)) 0.7 0.001 1 64 None 1000 false false false
                    ANNRegression.fresh empty_world))
     = Some (nd_slice (Some (7 + 1)) None (ramp 10))
  /\ S (Nat.add (nd_len (nd_slice (Some 0) (Some 7) (ramp 10)))
                (nd_len (nd_slice (Some (7 + 1)) None (ramp 10))))
     = nd_len (ramp 10)
  /\ row_ids (nd_slice (Some 0) (Some 7) (ramp 10))
     = [[Some 0]; [Some 1]; [Some 2]; [Some 3]; [Some 4]; [Some 5]; [Some 6]]
  /\ row_ids (nd_slice (Some (7 + 1)) None (ramp 10)) = [[Some 8]; [Some 9]].
Proof.
  assert (H1 : float_trunc (split_product 0.7 (nd_len (ramp 10))) = Some 7)
    by (vm_compute; reflexivity).
  assert (H2 : 0 <= 7 < Z.of_nat (nd_len (ramp 10))) by (simpl; lia).
  destruct (split_leaves_out_row_at_split_index quiet (ramp 10) (ramp 10) 0.7
              0.001 1 64 None 1000 false false false empty_world 7 [] H1 H2
              eq_refl) as (Ha & Hb & _ & _ & _ & _ & Hsize).
  repeat split; try assumption; try lia; vm_compute; reflexivity.
Defined.

Lemma ANNRegression_init_stage_order_witness :
  result_of (ANNRegression.init (env := quiet) (Some (ramp 10)) (Some (ramp 10))
               0.7 0.001 2 64 None 1000 false true false
               ANNRegression.fresh empty_world) = Ok tt
  /\ exists b t e p,
       trace (world_of (ANNRegression.init (env := quiet) (Some (ramp 10))
                          (Some (ramp 10)) 0.7 0.001 2 64 None 1000 false true
                          false ANNRegression.fresh empty_world))
       = trace empty_world ++ b ++ t ++ e ++ p
       /\ (exists mid,
             b = KerasSequential :: mid ++ [RMSPropOptimizer 0.001; ModelCompile])
       /\ t = [ModelFit 1000 false]
       /\ e = [ModelEvaluate; ModelPredict]
       /\ exists now, p = save_calls ("ann_model_" ++ timestamp now).
Proof.
  assert (H : result_of (ANNRegression.init (env := quiet) (Some (ramp 10))
                           (Some (ramp 10)) 0.7 0.001 2 64 None 1000 false true
                           false ANNRegression.fresh empty_world) = Ok tt)
    by (vm_compute; reflexivity).
  split; [exact H|].
  destruct (ANNRegression_init_stage_order quiet (ramp 10) (ramp 10) 0.7 0.001 2
              64 None 1000 false true false ANNRegression.fresh empty_world)
    as (b & t & e & p & Ht & _ & _ & _ & _ & _ & _ & Hok & _).
  destruct (Hok H) as (Hb & Htr & (plots & He & _ & Hnone) & Hp & _).
  destruct (Hp eq_refl) as (now & Hnow & _).
  exists b, t, e, p.
  split; [exact Ht|]. split; [exact Hb|]. split; [exact Htr|].
  split; [rewrite He, (Hnone eq_refl); reflexivity|].
  exists now. exact Hnow.
Defined.



Lemma saveModel_then_loadModel_witness :
  ParametricRegression.saveModel (env := quiet) (PStr "m") fitted empty_world
  = (Ok tt,
     state_of (ParametricRegression.saveModel (env := quiet) (PStr "m") fitted
                 empty_world),
     world_of (ParametricRegression.saveModel (env := quiet) (PStr "m") fitted
                 empty_world))
  /\ result_of
       (ParametricRegression.loadModel (env := quiet) (PStr "m")
          ParametricRegression.fresh
          (world_of (ParametricRegression.saveModel (env := quiet) (PStr "m")
                       fitted empty_world)))
     = Ok (Some (ramp 3)).
Proof.
  assert (H : ParametricRegression.saveModel (env := quiet) (PStr "m") fitted
                empty_world
              = (Ok tt,
                 state_of (ParametricRegression.saveModel (env := quiet)
                             (PStr "m") fitted empty_world),
                 world_of (ParametricRegression.saveModel (env := quiet)
                             (PStr "m") fitted empty_world)))
    by reflexivity.
  split; [exact H|].
  destruct (saveModel_then_loadModel quiet (PStr "m") fitted _
              ParametricRegression.fresh empty_world _ _ H eq_refl
              (fun _ _ => eq_refl) (fun _ _ => eq_refl))
    as (th & Hth & Hload & _).
  inversion Hth. subst th. exact Hload.
Defined.

Lemma timing_sweep_witness :
  (forall h e, raises (Environment := quiet) h e = false)
  /\ result_of (TimingScript.script (env := quiet) TimingScript.fresh empty_world)
     = Ok tt
  /\ TimingScript.data_0
       (state_of (TimingScript.script (env := quiet) TimingScript.fresh empty_world))
     = [10; 20; 30; 40; 50; 60; 70; 80; 90; 100; 110; 120; 130; 140; 150; 160;
        170; 180; 190; 200; 210; 220; 230; 240]
  /\ length (TimingScript.data_1
               (state_of (TimingScript.script (env := quiet) TimingScript.fresh
                            empty_world))) = 24%nat.
Proof.
  assert (H : forall h e, raises (Environment := quiet) h e = false)
    by (intros; reflexivity).
  split; [exact H|].
  destruct (timing_sweep quiet empty_world H) as (Hs & Hr & H0 & _ & H1 & _).
  split; [exact Hr|]. split.
  - rewrite H0. exact Hs.
  - rewrite H1, Hs. reflexivity.
Defined.

Lemma searched_floats_faithful :
  Forall (faithful_row (env := positional))
         [[NInt 5; NInt 1; NInt 1];
          [NFloat 0.5; NInt 2; NInt 50; NFloat 0.25; NFloat (-1.5)]].
Proof.
  repeat constructor; try discriminate; vm_compute; reflexivity.
Defined.

Lemma exportResults_then_importResults_witness :
  HyperparamSearch.exportResults (env := positional) searched_floats empty_world
  = (Ok tt,
     state_of (HyperparamSearch.exportResults (env := positional) searched_floats
                 empty_world),
     world_of (HyperparamSearch.exportResults (env := positional) searched_floats
                 empty_world))
  /\ Forall (faithful_row (env := positional))
            [[NInt 5; NInt 1; NInt 1];
             [NFloat 0.5; NInt 2; NInt 50; NFloat 0.25; NFloat (-1.5)]]
  /\ files (world_of (HyperparamSearch.exportResults (env := positional)
                        searched_floats empty_world))
       (HyperparamSearch.results_path "12")
     = Some (TextFile ("5, 1, 1" ++ String newline
                         ("0.5, 2, 50, 0.25, -1.5" ++ String newline "")))
  /\ HyperparamSearch.solution_matrix
       (state_of
          (HyperparamSearch.importResults (env := positional) (str_of_Z 12)
             HyperparamSearch.fresh
             (world_of (HyperparamSearch.exportResults (env := positional)
                          searched_floats empty_world))))
     = Some [[NFloat 5; NFloat 1; NFloat 1];
             [NFloat 0.5; NFloat 2; NFloat 50; NFloat 0.25; NFloat (-1.5)]].
Proof.
  assert (H : HyperparamSearch.exportResults (env := positional) searched_floats
                empty_world
              = (Ok tt,
                 state_of (HyperparamSearch.exportResults (env := positional)
                             searched_floats empty_world),
                 world_of (HyperparamSearch.exportResults (env := positional)
                             searched_floats empty_world)))
    by reflexivity.
  split; [exact H|]. split; [exact searched_floats_faithful|].
  split; [vm_compute; reflexivity|].
  destruct (exportResults_then_importResults positional searched_floats _
              HyperparamSearch.fresh empty_world _ _ 12
              [[NInt 5; NInt 1; NInt 1];
               [NFloat 0.5; NInt 2; NInt 50; NFloat 0.25; NFloat (-1.5)]]
              eq_refl eq_refl H eq_refl searched_floats_faithful
              (fun _ _ => eq_refl) (fun _ _ => eq_refl)) as (_ & Hsm).
  rewrite Hsm. vm_compute. reflexivity.
Defined.

(** * Further properties *)

(** ** TrainRNN *)

(** X1: once [int] has given the split index [s], whatever it is,
    [TrainRNN.__init__] returns: it calls no library, its only effect
    outside the object is one [print].  It leaves the slices [[0:s]] and
    [[s+1:]] of both profiles and the name in the object, and builds no
    model.  When [s] is a position of the profile, the row at [s] is in
    neither part. *)
Theorem TrainRNN_init_split :
  forall (lp vp : ndarray) (tp : float) (name : string)
         (s0 : TrainRNN.t) (w : world) (s : Z) (d : list float),
    float_trunc (split_product tp (nd_len lp)) = Some s ->
    TrainRNN.init lp vp tp name s0 w
    = (Ok tt,
       {| TrainRNN.train_data := Some (nd_slice (Some 0) (Some s) lp);
          TrainRNN.train_labels := Some (nd_slice (Some 0) (Some s) vp);
          TrainRNN.test_data := Some (nd_slice (Some (s + 1)) None lp);
          TrainRNN.test_labels := Some (nd_slice (Some (s + 1)) None vp);
          TrainRNN.name := Some name;
          TrainRNN.model := TrainRNN.model s0;
          TrainRNN.history := TrainRNN.history s0 |},
       {| trace := trace w ++ [Stdout]; files := files w |})
    /\ (0 <= s < Z.of_nat (nd_len lp) ->
        nd_rows lp
        = nd_rows (nd_slice (Some 0) (Some s) lp)
            ++ nth (Z.to_nat s) (nd_rows lp) d
            :: nd_rows (nd_slice (Some (s + 1)) None lp)).
Proof.
  intros lp vp tp name s0 w s d Hs. split.
  - unfold TrainRNN.init, py_int. rewrite Hs. reflexivity.
  - intros Hin. apply split_drops_row. exact Hin.
Qed.

Lemma TrainRNN_init_split_witness :
  (float_trunc (split_product 0.7 (nd_len (ramp 10))) = Some 7
   /\ result_of (TrainRNN.init (ramp 10) (ramp 10) 0.7 "ann_model"
                   TrainRNN.fresh empty_world) = Ok tt
   /\ option_map row_ids
        (TrainRNN.test_data
           (state_of (TrainRNN.init (ramp 10) (ramp 10) 0.7
                        "ann_model" TrainRNN.fresh empty_world)))
      = Some [[Some 8]; [Some 9]])
  /\ (float_trunc (split_product 1 (nd_len (ramp 10))) = Some 10
      /\ result_of (TrainRNN.init (ramp 10) (ramp 10) 1 "ann_model"
                      TrainRNN.fresh empty_world) = Ok tt
      /\ option_map row_ids
           (TrainRNN.test_data
              (state_of (TrainRNN.init (ramp 10) (ramp 10) 1
                           "ann_model" TrainRNN.fresh empty_world)))
         = Some [])
  /\ (float_trunc (split_product (-0.25) (nd_len (ramp 10))) = Some (-2)
      /\ result_of (TrainRNN.init (ramp 10) (ramp 10) (-0.25) "ann_model"
                      TrainRNN.fresh empty_world) = Ok tt
      /\ option_map row_ids
           (TrainRNN.train_data
              (state_of (TrainRNN.init (ramp 10) (ramp 10) (-0.25)
                           "ann_model" TrainRNN.fresh empty_world)))
         = Some [[Some 0]; [Some 1]; [Some 2]; [Some 3]; [Some 4]; [Some 5];
                 [Some 6]; [Some 7]]).
Proof.
  assert (H1 : float_trunc (split_product 0.7 (nd_len (ramp 10))) = Some 7)
    by (vm_compute; reflexivity).
  assert (H2 : float_trunc (split_product 1 (nd_len (ramp 10))) = Some 10)
    by (vm_compute; reflexivity).
  assert (H3 : float_trunc (split_product (-0.25) (nd_len (ramp 10))) = Some (-2))
    by (vm_compute; reflexivity).
  destruct (TrainRNN_init_split (ramp 10) (ramp 10) 0.7 "ann_model"
              TrainRNN.fresh empty_world 7 [] H1) as [Hrun1 _].
  destruct (TrainRNN_init_split (ramp 10) (ramp 10) 1 "ann_model"
              TrainRNN.fresh empty_world 10 [] H2) as [Hrun2 _].
  destruct (TrainRNN_init_split (ramp 10) (ramp 10) (-0.25) "ann_model"
              TrainRNN.fresh empty_world (-2) [] H3) as [Hrun3 _].
  split; [|split].
  - split; [exact H1|]. rewrite Hrun1. split; vm_compute; reflexivity.
  - split; [exact H2|]. rewrite Hrun2. split; vm_compute; reflexivity.
  - split; [exact H3|]. rewrite Hrun3. split; vm_compute; reflexivity.
Defined.

(** ** The layers [buildModel] builds *)

Section BuildModel.
Context {env : Environment}.

(** Every call returns, except perhaps the addition of a dropout layer. *)
Hypothesis returns :
  forall h e, (forall rate, e <> ModelAdd (Dropout rate)) -> raises h e = false.

Ltac in_block :=
  apply Forall_forall; intros ? ?; simpl in *; tauto.

Lemma dense_add_run (units : Z) (relu : bool) (shape : option nat)
  (m : kmodel) (s : ANNRegression.t) (w : world) :
  ANNRegression.model s = Some m ->
  ANNRegression.model_add (Dense units relu shape) s w
  = (Ok tt,
     ANNRegression.set_model
       {| k_layers := k_layers m ++ [Dense units relu shape];
          k_learning_rate := k_learning_rate m |} s,
     {| trace := trace w ++ [ModelAdd (Dense units relu shape)];
        files := files w |}).
Proof.
  intros Hm. unfold ANNRegression.model_add, bind, attr, call, set_self.
  rewrite Hm, returns by (intros rate; discriminate). reflexivity.
Qed.

(** One turn of the loop adds a dense layer, after the dropout layer if one
    was asked for and Keras took it. *)
Lemma hidden_layer_run (ld : Z) (dropout : option float)
  (m : kmodel) (s : ANNRegression.t) (w : world) :
  ANNRegression.model s = Some m ->
  exists added w',
    ANNRegression.hidden_layer ld dropout s w
    = (Ok tt,
       ANNRegression.set_model
         {| k_layers := k_layers m ++ added;
            k_learning_rate := k_learning_rate m |} s, w')
    /\ filter is_dense added = [Dense ld true None]
    /\ Forall (fun l => In l (hidden_block ld dropout)) added
    /\ ((forall h e, raises h e = false) -> added = hidden_block ld dropout).
Proof.
  intros Hm. unfold ANNRegression.hidden_layer, hidden_block, dropout_layers.
  destruct dropout as [rate|]; [destruct (PrimFloat.eqb rate 0)|].
  - unfold bind at 1. unfold ret at 1.
    rewrite (dense_add_run ld true None m s w Hm).
    eexists [_], _. split; [reflexivity|]. split; [reflexivity|].
    split; [in_block | reflexivity].
  - unfold ANNRegression.model_add, try_except, bind, attr, call, set_self, print.
    rewrite Hm.
    destruct (raises (trace w) (ModelAdd (Dropout rate))) eqn:Hd;
      cbn [ANNRegression.model ANNRegression.set_model trace files
             k_layers k_learning_rate];
      try rewrite Hm;
      rewrite returns by (intros r; discriminate).
    + eexists [_], _. split; [reflexivity|]. split; [reflexivity|].
      split; [in_block|].
      intros Hall. specialize (Hall (trace w) (ModelAdd (Dropout rate))). congruence.
    + rewrite <- app_assoc.
      eexists [_; _], _. split; [reflexivity|]. split; [reflexivity|].
      split; [in_block | reflexivity].
  - unfold bind at 1. unfold ret at 1.
    rewrite (dense_add_run ld true None m s w Hm).
    eexists [_], _. split; [reflexivity|]. split; [reflexivity|].
    split; [in_block | reflexivity].
Qed.

Lemma hidden_layers_run (ld : Z) (dropout : option float) (xs : list Z) :
  forall (m : kmodel) (s : ANNRegression.t) (w : world),
    ANNRegression.model s = Some m ->
    exists added w',
      for_each xs (fun _ => ANNRegression.hidden_layer ld dropout) s w
      = (Ok tt,
         ANNRegression.set_model
           {| k_layers := k_layers m ++ added;
              k_learning_rate := k_learning_rate m |} s, w')
      /\ filter is_dense added = repeat (Dense ld true None) (length xs)
      /\ Forall (fun l => In l (hidden_block ld dropout)) added
      /\ ((forall h e, raises h e = false) ->
          added = concat (repeat (hidden_block ld dropout) (length xs))).
Proof.
  induction xs as [|x xs IH]; intros m s w Hm.
  - exists [], w. cbn [for_each]. rewrite app_nil_r.
    split; [|repeat split; constructor].
    unfold ret. f_equal. f_equal. destruct s, m. simpl in *. subst. reflexivity.
  - destruct (hidden_layer_run ld dropout m s w Hm)
      as (a1 & w1 & Hrun1 & Hf1 & Hin1 & Hex1).
    cbn [for_each]. unfold bind at 1. rewrite Hrun1.
    destruct (IH _ (ANNRegression.set_model
                      {| k_layers := k_layers m ++ a1;
                         k_learning_rate := k_learning_rate m |} s) w1 eq_refl)
      as (a2 & w2 & Hrun2 & Hf2 & Hin2 & Hex2).
    rewrite Hrun2. cbn [k_layers k_learning_rate].
    exists (a1 ++ a2), w2. rewrite app_assoc.
    split; [reflexivity|]. split; [|split].
    + rewrite filter_app, Hf1, Hf2. reflexivity.
    + apply Forall_app. split; assumption.
    + intros Hall. rewrite (Hex1 Hall), (Hex2 Hall). reflexivity.
Qed.

Lemma buildModel_run (lr : float) (nhl ld : Z) (dropout : option float)
  (td tl : ndarray) (s : ANNRegression.t) (w : world) :
  ANNRegression.train_data s = Some td ->
  ANNRegression.train_labels s = Some tl ->
  exists hidden w',
    ANNRegression.buildModel lr nhl ld dropout s w
    = (Ok tt,
       ANNRegression.set_model
         {| k_layers := Dense ld true (Some (nd_cols td)) :: hidden
                          ++ [Dense (Z.of_nat (nd_cols tl)) false None];
            k_learning_rate := Some lr |} s, w')
    /\ filter is_dense hidden
       = repeat (Dense ld true None) (Z.to_nat (nhl - 1))
    /\ Forall (fun l => In l (hidden_block ld dropout)) hidden
    /\ ((forall h e, raises h e = false) ->
        hidden = concat (repeat (hidden_block ld dropout) (Z.to_nat (nhl - 1)))).
Proof.
  intros Htd Htl. unfold ANNRegression.buildModel.
  unfold bind at 1. unfold call at 1.
  rewrite returns by (intros rate; discriminate).
  unfold bind at 1. unfold set_self at 1.
  unfold bind at 1. unfold attr at 1.
  cbn [ANNRegression.train_data ANNRegression.set_model]. rewrite Htd.
  unfold bind at 1. erewrite dense_add_run by reflexivity.
  cbn [k_layers k_learning_rate app].
  match goal with
  | |- context [bind (for_each ?xs ?body) ?k ?s1 ?w1] =>
      destruct (hidden_layers_run ld dropout xs _ s1 w1 eq_refl)
        as (hidden & w2 & Hrun & Hf & Hin & Hex);
      unfold bind at 1; rewrite Hrun
  end.
  cbn [k_layers k_learning_rate app].
  unfold bind at 1. unfold attr at 1.
  cbn [ANNRegression.train_labels ANNRegression.set_model]. rewrite Htl.
  unfold bind at 1. erewrite dense_add_run by reflexivity.
  cbn [k_layers k_learning_rate app].
  unfold bind at 1. unfold call at 1.
  rewrite returns by (intros rate; discriminate).
  unfold bind at 1. unfold attr at 1. cbn [ANNRegression.model ANNRegression.set_model].
  unfold bind at 1. unfold call at 1.
  rewrite returns by (intros rate; discriminate).
  unfold set_self. cbn [k_layers k_learning_rate app].
  unfold py_range in Hf, Hex. rewrite length_map, length_seq in Hf, Hex.
  exists hidden. eexists.
  split; [reflexivity|]. split; [exact Hf|]. split; [exact Hin | exact Hex].
Qed.

End BuildModel.

(** X2: when every call returns, [buildModel] leaves in [self.model] the
    input layer, then [no_hidden_layers - 1] hidden layers (none when
    [no_hidden_layers] is 1 or less), each after a dropout layer when
    [dropout] is a number other than zero, then the output layer, compiled
    with the learning rate; the rest of the object is as it was. *)
Theorem buildModel_layers :
  forall (env : Environment) (lr : float) (nhl ld : Z) (dropout : option float)
         (td tl : ndarray) (s : ANNRegression.t) (w : world),
    (forall h e, raises h e = false) ->
    ANNRegression.train_data s = Some td ->
    ANNRegression.train_labels s = Some tl ->
    result_of (ANNRegression.buildModel lr nhl ld dropout s w) = Ok tt
    /\ state_of (ANNRegression.buildModel lr nhl ld dropout s w)
       = ANNRegression.set_model
           {| k_layers := expected_layers (nd_cols td) (nd_cols tl) nhl ld dropout;
              k_learning_rate := Some lr |} s.
Proof.
  intros env lr nhl ld dropout td tl s w Hall Htd Htl.
  destruct (buildModel_run (fun h e _ => Hall h e) lr nhl ld dropout td tl s w
              Htd Htl) as (hidden & w' & Hrun & _ & _ & Hex).
  rewrite Hrun, (Hex Hall). split; reflexivity.
Qed.

Lemma buildModel_layers_witness :
  (forall h e, raises (Environment := quiet) h e = false)
  /\ option_map k_layers
       (ANNRegression.model
          (state_of (ANNRegression.buildModel (env := quiet) 0.001 3 64
                       (Some 0.5%float) split_only empty_world)))
     = Some [Dense 64 true (Some 1%nat);
             Dropout 0.5; Dense 64 true None;
             Dropout 0.5; Dense 64 true None;
             Dense 1 false None]
  /\ option_map k_layers
       (ANNRegression.model
          (state_of (ANNRegression.buildModel (env := quiet) 0.001 0 64 None
                       split_only empty_world)))
     = Some [Dense 64 true (Some 1%nat); Dense 1 false None].
Proof.
  assert (H : forall h e, raises (Environment := quiet) h e = false)
    by (intros; reflexivity).
  split; [exact H|].
  destruct (buildModel_layers quiet 0.001 3 64 (Some 0.5%float) _ _ split_only
              empty_world H eq_refl eq_refl) as [_ H1].
  destruct (buildModel_layers quiet 0.001 0 64 None _ _ split_only
              empty_world H eq_refl eq_refl) as [_ H2].
  rewrite H1, H2. split; reflexivity.
Defined.

(** X3: [buildModel] returns even if Keras refuses dropout layers, provided
    every other call returns: the handler in the loop prints and the loop
    goes on.  The model then has the input layer, [no_hidden_layers - 1]
    more dense hidden layers, with between them only dropout layers of the
    rate asked for, and the output layer. *)
Theorem buildModel_survives_refused_dropout :
  forall (env : Environment) (lr : float) (nhl ld : Z) (dropout : option float)
         (td tl : ndarray) (s : ANNRegression.t) (w : world),
    (forall h e, (forall rate, e <> ModelAdd (Dropout rate)) -> raises h e = false) ->
    ANNRegression.train_data s = Some td ->
    ANNRegression.train_labels s = Some tl ->
    result_of (ANNRegression.buildModel lr nhl ld dropout s w) = Ok tt
    /\ exists hidden,
         ANNRegression.model (state_of (ANNRegression.buildModel lr nhl ld dropout s w))
         = Some {| k_layers := Dense ld true (Some (nd_cols td)) :: hidden
                                 ++ [Dense (Z.of_nat (nd_cols tl)) false None];
                   k_learning_rate := Some lr |}
         /\ filter is_dense hidden = repeat (Dense ld true None) (Z.to_nat (nhl - 1))
         /\ Forall (fun l => In l (hidden_block ld dropout)) hidden.
Proof.
  intros env lr nhl ld dropout td tl s w Hret Htd Htl.
  destruct (buildModel_run Hret lr nhl ld dropout td tl s w Htd Htl)
    as (hidden & w' & Hrun & Hf & Hin & _).
  rewrite Hrun. split; [reflexivity|].
  exists hidden. split; [reflexivity|]. split; assumption.
Qed.

Lemma buildModel_survives_refused_dropout_witness :
  (forall h e, (forall rate, e <> ModelAdd (Dropout rate)) ->
               raises (Environment := no_dropout) h e = false)
  /\ result_of (ANNRegression.buildModel (env := no_dropout) 0.001 3 64
                  (Some 0.5%float) split_only empty_world) = Ok tt
  /\ option_map k_layers
       (ANNRegression.model
          (state_of (ANNRegression.buildModel (env := no_dropout) 0.001 3 64
                       (Some 0.5%float) split_only empty_world)))
     = Some [Dense 64 true (Some 1%nat); Dense 64 true None; Dense 64 true None;
             Dense 1 false None].
Proof.
  assert (H : forall h e, (forall rate, e <> ModelAdd (Dropout rate)) ->
                          raises (Environment := no_dropout) h e = false).
  { intros h e He. destruct e; try reflexivity.
    destruct l; [reflexivity|]. exfalso. exact (He rate eq_refl). }
  split; [exact H|].
  destruct (buildModel_survives_refused_dropout no_dropout 0.001 3 64
              (Some 0.5%float) _ _ split_only empty_world H eq_refl eq_refl)
    as [Hok _].
  split; [exact Hok | vm_compute; reflexivity].
Defined.

(** ** An object built without profiles *)

(** Split a run on every call that may raise and on every file it reads. *)
Ltac crunch :=
  repeat (simpl;
          match goal with
          | |- context [raises ?h ?e] => destruct (raises h e)
          | |- context [match files ?w ?p with _ => _ end] =>
              destruct (files w p) as [[?|?|?]|]
          | |- context [match model_from_json ?x with _ => _ end] =>
              destruct (model_from_json x)
          | |- context [match find ?f ?l with _ => _ end] => destruct (find f l)
          | |- context [match ANNRegression.model ?s with _ => _ end] =>
              destruct (ANNRegression.model s)
          | |- context [printable ?ex] => destruct (printable ex)
          end);
  simpl.

(** X4: an [ANNRegression] whose data attributes are unset, as the
    constructor leaves it when a profile is [None], can be neither built,
    trained, evaluated nor used to predict: [buildModel], [trainModel],
    [evaluateModel] and [predictWithModel] never return normally on it,
    whatever the environment, and they leave the data attributes unset, so
    the same holds after any of them. *)
Theorem methods_fail_without_data :
  forall (env : Environment) (s : ANNRegression.t) (w : world),
    no_data s ->
    (forall lr nhl ld dropout,
        result_of (ANNRegression.buildModel lr nhl ld dropout s w) <> Ok tt
        /\ no_data (state_of (ANNRegression.buildModel lr nhl ld dropout s w)))
    /\ (forall epochs early_stop patience,
        result_of (ANNRegression.trainModel epochs early_stop patience s w) <> Ok tt
        /\ no_data (state_of (ANNRegression.trainModel epochs early_stop patience s w)))
    /\ (forall v,
        result_of (ANNRegression.evaluateModel s w) <> Ok v)
    /\ no_data (state_of (ANNRegression.evaluateModel s w))
    /\ (forall plot,
        result_of (ANNRegression.predictWithModel plot s w) <> Ok tt
        /\ no_data (state_of (ANNRegression.predictWithModel plot s w))).
Proof.
  intros env s w [Htr Hte]. unfold no_data.
  split; [|split; [|split; [|split]]].
  - intros lr nhl ld dropout.
    unfold ANNRegression.buildModel, result_of, state_of, bind, call, set_self, attr.
    destruct (raises (trace w) KerasSequential); simpl; rewrite ?Htr;
      simpl; (split; [discriminate | split; auto]).
  - intros epochs early_stop patience.
    unfold ANNRegression.trainModel, result_of, state_of, bind, call, set_self, attr.
    destruct early_stop; crunch; rewrite ?Htr; simpl;
      (split; [discriminate | split; auto]).
  - intros v.
    unfold ANNRegression.evaluateModel, result_of, bind, call_value, attr.
    crunch; rewrite ?Hte; simpl; discriminate.
  - unfold ANNRegression.evaluateModel, state_of, bind, call_value, attr.
    crunch; rewrite ?Hte; simpl; split; auto.
  - intros plot.
    unfold ANNRegression.predictWithModel, result_of, state_of, bind, call, attr.
    crunch; rewrite ?Hte; simpl; (split; [discriminate | split; auto]).
Qed.

Lemma methods_fail_without_data_witness :
  no_data ANNRegression.fresh
  /\ ANNRegression.trainModel (env := quiet) 1000 false 200 ANNRegression.fresh
       empty_world
     = (Raise (AttributeError "model"), ANNRegression.fresh, empty_world)
  /\ result_of (ANNRegression.buildModel (env := quiet) 0.001 1 64 None
                  ANNRegression.fresh empty_world) <> Ok tt.
Proof.
  assert (H : no_data ANNRegression.fresh) by (split; reflexivity).
  split; [exact H|]. split; [reflexivity|].
  destruct (methods_fail_without_data quiet ANNRegression.fresh empty_world H)
    as (Hb & _).
  exact (proj1 (Hb 0.001%float 1 64 None)).
Defined.

(** ** What loading changes *)

(** X5: [ANNRegression.loadModel] hands the model back to its caller and
    nothing else: whatever it returns, the object (its [model] attribute
    included) and the files are as they were. *)
Theorem ANNRegression_loadModel_changes_nothing :
  forall (env : Environment) (model_name : pyarg) (s : ANNRegression.t) (w : world),
    state_of (ANNRegression.loadModel model_name s w) = s
    /\ files (world_of (ANNRegression.loadModel model_name s w)) = files w.
Proof.
  intros env model_name s w.
  unfold ANNRegression.loadModel, ANNRegression.loadModel_try, read_text,
    try_except, concat_name, state_of, world_of, bind, call, get_world, ret,
    raise, print, print_exn, lift.
  destruct model_name as [n|]; crunch; split; reflexivity.
Qed.

(** X6: [ParametricRegression.loadModel] never touches the files; when it
    returns [False] the object is as it was, and when it returns a dataset
    it has assigned that dataset to [self.theta] and nothing else. *)
Theorem ParametricRegression_loadModel_frame :
  forall (env : Environment) (model_name : pyarg)
         (s : ParametricRegression.t) (w : world),
    files (world_of (ParametricRegression.loadModel model_name s w)) = files w
    /\ (result_of (ParametricRegression.loadModel model_name s w) = Ok None ->
        state_of (ParametricRegression.loadModel model_name s w) = s)
    /\ (forall th,
        result_of (ParametricRegression.loadModel model_name s w) = Ok (Some th) ->
        state_of (ParametricRegression.loadModel model_name s w)
        = ParametricRegression.set_theta th s).
Proof.
  intros env model_name s w.
  unfold ParametricRegression.loadModel, ParametricRegression.loadModel_try,
    ParametricRegression.h5_read_data, try_except, concat_name, result_of,
    state_of, world_of, bind, call, get_world, ret, raise, print, print_exn,
    set_self, attr.
  destruct model_name as [n|]; crunch;
    (split; [reflexivity | split; [intros H | intros th H]]);
    try discriminate; try reflexivity.
  inversion H. reflexivity.
Qed.

Lemma ParametricRegression_loadModel_frame_witness :
  result_of (ParametricRegression.loadModel (env := quiet) (PStr "absent")
               fitted empty_world) = Ok None
  /\ state_of (ParametricRegression.loadModel (env := quiet) (PStr "absent")
                 fitted empty_world) = fitted.
Proof.
  assert (H : result_of (ParametricRegression.loadModel (env := quiet)
                           (PStr "absent") fitted empty_world) = Ok None)
    by (vm_compute; reflexivity).
  split; [exact H|].
  destruct (ParametricRegression_loadModel_frame quiet (PStr "absent") fitted
              empty_world) as (_ & Hnone & _).
  exact (Hnone H).
Defined.

(** ** Saving an object that holds no theta *)



(** ** The bias of the parametric model *)

Lemma collect_constant {S A : Type} (m : M S A) (x : A) (s : S) (w : world) (n : nat) :
  m s w = (Ok x, s, w) -> collect n m s w = (Ok (repeat x n), s, w).
Proof.
  intros Hm. induction n as [|n IH]; [reflexivity|].
  cbn [collect repeat]. unfold bind. rewrite Hm, IH. reflexivity.
Qed.

Lemma collect_raises {S A : Type} (m : M S A) (e : exn) (s : S) (w : world) (n : nat) :
  m s w = (Raise e, s, w) -> collect (Datatypes.S n) m s w = (Raise e, s, w).
Proof. intros Hm. cbn [collect]. unfold bind. rewrite Hm. reflexivity. Qed.

(** X8: [calculateBias] makes no call.  With [m] rows of training targets,
    it sets [self.bias] to [m] copies of the first row of [theta]; when
    [theta] has no row it raises [IndexError] and changes nothing, unless
    there is no training row either, in which case the bias is empty. *)
Theorem calculateBias_copies_first_row :
  forall (s : ParametricRegression.t) (w : world)
         (tr : ParametricRegression.train_dict) (th : ndarray),
    ParametricRegression.train s = Some tr ->
    ParametricRegression.theta s = Some th ->
    (forall row, nth_error (nd_rows th) 0 = Some row ->
       ParametricRegression.calculateBias s w
       = (Ok tt,
          ParametricRegression.set_bias
            (repeat row (nd_len (ParametricRegression.target tr))) s, w))
    /\ (nd_rows th = [] ->
        ParametricRegression.calculateBias s w
        = match nd_len (ParametricRegression.target tr) with
          | O => (Ok tt, ParametricRegression.set_bias [] s, w)
          | Datatypes.S _ => (Raise IndexError, s, w)
          end).
Proof.
  intros s w tr th Htr Hth. split.
  - intros row Hrow.
    unfold ParametricRegression.calculateBias. unfold bind at 1. unfold attr at 1.
    rewrite Htr. unfold bind at 1.
    rewrite (collect_constant ParametricRegression.theta_0 row s w).
    + reflexivity.
    + unfold ParametricRegression.theta_0, bind, attr, lift. rewrite Hth, Hrow.
      reflexivity.
  - intros Hrows.
    unfold ParametricRegression.calculateBias. unfold bind at 1. unfold attr at 1.
    rewrite Htr. unfold bind at 1.
    destruct (nd_len (ParametricRegression.target tr)) as [|n]; [reflexivity|].
    rewrite (collect_raises ParametricRegression.theta_0 IndexError s w).
    + reflexivity.
    + unfold ParametricRegression.theta_0, bind, attr, lift. rewrite Hth, Hrows.
      reflexivity.
Qed.

Lemma calculateBias_copies_first_row_witness :
  ParametricRegression.bias
    (state_of
       (ParametricRegression.calculateBias
          (ParametricRegression.set_train
             {| ParametricRegression.data := ramp 2;
                ParametricRegression.target := ramp 2;
                ParametricRegression.data_pb := None |} fitted)
          empty_world))
  = Some [[0%float]; [0%float]].
Proof.
  destruct (calculateBias_copies_first_row
              (ParametricRegression.set_train
                 {| ParametricRegression.data := ramp 2;
                    ParametricRegression.target := ramp 2;
                    ParametricRegression.data_pb := None |} fitted)
              empty_world _ (ramp 3) eq_refl eq_refl) as [Hrow _].
  rewrite (Hrow [0%float] eq_refl). reflexivity.
Defined.

(** ** A training part without rows *)

Lemma calculateTheta_outcome (env : Environment) (s : ParametricRegression.t)
  (w : world) (tr : ParametricRegression.train_dict) (x : ndarray) :
  ParametricRegression.train s = Some tr ->
  ParametricRegression.data_pb tr = Some x ->
  ((exists e s' w', ParametricRegression.calculateTheta s w = (Raise e, s', w'))
   \/ (exists w',
         ParametricRegression.calculateTheta s w
         = (Ok tt,
            ParametricRegression.set_theta
              (theta_out x (ParametricRegression.target tr)) s, w')))
  /\ ((forall h e, raises h e = false) ->
      exists w',
        ParametricRegression.calculateTheta s w
        = (Ok tt,
           ParametricRegression.set_theta
             (theta_out x (ParametricRegression.target tr)) s, w')).
Proof.
  intros Htr Hx.
  unfold ParametricRegression.calculateTheta, ParametricRegression.train_data_pb,
    bind, attr, lift, call, set_self, ret.
  rewrite Htr, Hx. split.
  - repeat (simpl; rewrite ?Htr;
            match goal with
            | |- context [raises ?h ?e] => destruct (raises h e)
            end);
      simpl; rewrite ?Htr; simpl;
      try (left; do 3 eexists; reflexivity).
    right. eexists. reflexivity.
  - intros Hall. repeat (simpl; rewrite ?Htr; rewrite ?Hall).
    eexists. reflexivity.
Qed.

Lemma empty_prefix_slice (a : ndarray) : nd_len (nd_slice (Some 0) (Some 0) a) = O.
Proof.
  unfold nd_len, nd_slice. cbn [nd_rows]. rewrite py_slice_prefix by lia.
  reflexivity.
Qed.

Lemma suffix_slice_len (a : ndarray) :
  nd_len (nd_slice (Some (0 + 1)) None a) = Nat.pred (nd_len a).
Proof.
  unfold nd_len, nd_slice. cbn [nd_rows]. rewrite py_slice_suffix by lia.
  rewrite length_skipn. simpl. lia.
Qed.

(** X9: when the split index is 0 (so [train_percentage * len] is below 1)
    and the profile has two rows or more, [ParametricRegression.__init__]
    never returns normally: the training part has no row, so the bias is
    empty and [predictWithModel] on the test rows reads [self.bias[0]].
    When every call returns, the exception is that [IndexError]. *)
Theorem init_with_empty_training_part_raises :
  forall (env : Environment) (lp vp : ndarray) (tp : float) (save : bool)
         (s0 : ParametricRegression.t) (w : world),
    float_trunc (split_product tp (nd_len lp)) = Some 0 ->
    (2 <= nd_len lp)%nat ->
    result_of (ParametricRegression.init (Some lp) (Some vp) tp save s0 w) <> Ok tt
    /\ ((forall h e, raises h e = false) ->
        result_of (ParametricRegression.init (Some lp) (Some vp) tp save s0 w)
        = Raise IndexError).
Proof.
  intros env lp vp tp save s0 w Hidx Hlen.
  assert (Hpb : ParametricRegression.plus_bias
                  (nd_len (nd_slice (Some 0) (Some 0) vp))
                  (nd_slice (Some 0) (Some 0) lp)
                = Some {| nd_rows := map (fun r => 1%float :: r)
                                         (nd_rows (nd_slice (Some 0) (Some 0) lp));
                          nd_cols := Datatypes.S (nd_cols lp) |}).
  { unfold ParametricRegression.plus_bias. rewrite !empty_prefix_slice. reflexivity. }
  assert (Htest : exists k, nd_len (nd_slice (Some (0 + 1)) None lp) = Datatypes.S k).
  { rewrite suffix_slice_len. exists (Nat.pred (Nat.pred (nd_len lp))). lia. }
  destruct Htest as (k & Htest).
  assert (Hmain : exists e,
             result_of (ParametricRegression.init (Some lp) (Some vp) tp save s0 w)
             = Raise e
             /\ ((forall h e', raises h e' = false) -> e = IndexError));
    [|destruct Hmain as (e & -> & He); split;
      [discriminate | intros Hall; rewrite (He Hall); reflexivity]].
  unfold ParametricRegression.init, py_int. rewrite Hidx.
  unfold bind at 1. unfold ret at 1. unfold bind at 1. unfold set_self at 1.
  unfold bind at 1. unfold attr at 1.
  cbn [ParametricRegression.train ParametricRegression.set_train].
  unfold bind at 1. unfold attr at 1.
  cbn [ParametricRegression.train ParametricRegression.set_train
         ParametricRegression.target ParametricRegression.data].
  rewrite Hpb.
  unfold bind at 1. unfold lift at 1. unfold ret at 1.
  unfold bind at 1. unfold set_self at 1.
  unfold bind at 1. unfold set_self at 1.
  match goal with
  | |- context [bind ParametricRegression.calculateTheta ?k ?s1 ?w1] =>
      destruct (calculateTheta_outcome env s1 w1 _ _ eq_refl eq_refl)
        as [Hcases Hquiet]
  end.
  assert (Hafter : forall w1 th s1,
    s1 = ParametricRegression.set_theta th
           (ParametricRegression.set_test
              {| ParametricRegression.test_data := nd_slice (Some (0 + 1)) None lp;
                 ParametricRegression.test_target := nd_slice (Some (0 + 1)) None vp |}
              (ParametricRegression.set_train
                 {| ParametricRegression.data := nd_slice (Some 0) (Some 0) lp;
                    ParametricRegression.target := nd_slice (Some 0) (Some 0) vp;
                    ParametricRegression.data_pb :=
                      Some {| nd_rows := map (fun r => 1%float :: r)
                                           (nd_rows (nd_slice (Some 0) (Some 0) lp));
                              nd_cols := Datatypes.S (nd_cols lp) |} |}
                 (ParametricRegression.set_train
                    {| ParametricRegression.data := nd_slice (Some 0) (Some 0) lp;
                       ParametricRegression.target := nd_slice (Some 0) (Some 0) vp;
                       ParametricRegression.data_pb := None |} s0))) ->
    forall rest : M ParametricRegression.t unit,
    result_of
      ((ParametricRegression.calculateBias ;;
        te <- attr "test" ParametricRegression.test ;;
        _ <- ParametricRegression.predictWithModel
               (ParametricRegression.test_data te) ;;
        rest) s1 w1) = Raise IndexError).
  { intros w1 th s1 -> rest.
    unfold ParametricRegression.calculateBias.
    unfold bind at 1. unfold bind at 1. unfold attr at 1.
    cbn [ParametricRegression.train ParametricRegression.set_theta
           ParametricRegression.set_test ParametricRegression.set_train
           ParametricRegression.target].
    rewrite empty_prefix_slice. cbn [collect].
    unfold bind at 1. unfold ret at 1. unfold set_self at 1.
    unfold bind at 1. unfold attr at 1.
    cbn [ParametricRegression.test ParametricRegression.set_bias
           ParametricRegression.set_theta ParametricRegression.set_test
           ParametricRegression.test_data].
    unfold bind at 1. unfold ParametricRegression.predictWithModel.
    unfold bind at 1. rewrite Htest.
    erewrite collect_raises; [reflexivity|].
    unfold ParametricRegression.bias_0, bind, attr, lift. reflexivity. }
  destruct Hcases as [(e & s' & w' & Hrun) | (w' & Hrun)].
  - exists e. unfold bind at 1. rewrite Hrun. split; [reflexivity|].
    intros Hall. destruct (Hquiet Hall) as (w'' & Hrun'). congruence.
  - exists IndexError. unfold bind at 1. rewrite Hrun.
    split; [apply (Hafter w' _ _ eq_refl) | reflexivity].
Qed.

Lemma init_with_empty_training_part_raises_witness :
  float_trunc (split_product 0.3 (nd_len (ramp 3))) = Some 0
  /\ (2 <= nd_len (ramp 3))%nat
  /\ (forall h e, raises (Environment := quiet) h e = false)
  /\ result_of (ParametricRegression.init (env := quiet) (Some (ramp 3))
                  (Some (ramp 3)) 0.3 false ParametricRegression.fresh empty_world)
     = Raise IndexError.
Proof.
  assert (H1 : float_trunc (split_product 0.3 (nd_len (ramp 3))) = Some 0)
    by (vm_compute; reflexivity).
  assert (H2 : (2 <= nd_len (ramp 3))%nat) by (unfold nd_len; simpl; lia).
  assert (H3 : forall h e, raises (Environment := quiet) h e = false)
    by (intros; reflexivity).
  split; [exact H1|]. split; [exact H2|]. split; [exact H3|].
  destruct (init_with_empty_training_part_raises quiet (ramp 3) (ramp 3) 0.3
              false ParametricRegression.fresh empty_world H1 H2) as [_ Hq].
  exact (Hq H3).
Defined.

(** ** The results file *)

(** X10: [exportResults] writes the rows one per line, the renderings of the
    entries of a row joined by [', '] with no separator after the last one;
    a row without entries gives an empty line. *)
Theorem export_text_format :
  forall (env : Environment) (sm : list (list num)),
    HyperparamSearch.export_text sm = concat_strings (map line_of sm).
Proof.
  intros env sm. induction sm as [|row rest IH]; [reflexivity|].
  cbn [HyperparamSearch.export_text map concat_strings].
  rewrite (export_items_join env row (Z.of_nat (length row)) 0) by lia.
  rewrite IH. unfold line_of. rewrite string_app_assoc. reflexivity.
Qed.

Section ResultsFileEdges.
Context {env : Environment}.

Lemma export_text_app (a b : list (list num)) :
  HyperparamSearch.export_text (a ++ b)
  = (HyperparamSearch.export_text a ++ HyperparamSearch.export_text b)%string.
Proof.
  induction a as [|row a IH]; [reflexivity|].
  cbn [app HyperparamSearch.export_text]. rewrite IH.
  rewrite !string_app_assoc. reflexivity.
Qed.

Lemma universal_newlines_prefix (a b : string) :
  lacks carriage_return a = true ->
  universal_newlines (a ++ b) = (a ++ universal_newlines b)%string.
Proof.
  induction a as [|c a IH]; intros Ha; [reflexivity|].
  simpl in Ha. apply andb_true_iff in Ha. destruct Ha as [Hc Ha].
  apply negb_true_iff in Hc. cbn [append universal_newlines].
  rewrite Hc, (IH Ha). reflexivity.
Qed.

Lemma file_lines_export_then (sm : list (list num)) (rest : string) :
  Forall readable_row sm ->
  file_lines (HyperparamSearch.export_text sm ++ rest)
  = map line_of sm ++ file_lines rest.
Proof.
  unfold file_lines. intros Hall.
  induction Hall as [|row more Hrow Hmore IH]; [reflexivity|].
  cbn [HyperparamSearch.export_text map app].
  rewrite (export_items_join env row (Z.of_nat (length row)) 0) by lia.
  destruct (readable_fields row Hrow) as (_ & _ & Hnl & _).
  rewrite !string_app_assoc.
  change (String newline EmptyString ++ HyperparamSearch.export_text more ++ rest)%string
    with (String newline (HyperparamSearch.export_text more ++ rest)).
  rewrite file_lines_line by (apply lacks_join; [reflexivity | exact Hnl]).
  rewrite IH. reflexivity.
Qed.

(** Reading stops at the first line that has no field [float] accepts. *)
Lemma import_lines_stops (sm : list (list num)) (more : list string)
  (s : HyperparamSearch.t) (w : world) :
  Forall readable_row sm ->
  float_parse EmptyString = None ->
  HyperparamSearch.import_lines
    (map line_of sm ++ String newline EmptyString :: more) s w
  = (Raise ValueError, s, w).
Proof.
  intros Hall Hempty. induction Hall as [|row rest Hrow Hrest IH].
  - cbn [map app HyperparamSearch.import_lines].
    unfold bind.
    replace (replace_char newline EmptyString (String newline EmptyString))
      with EmptyString by reflexivity.
    cbn [split_comma_space split_comma_space_from HyperparamSearch.floats_of].
    unfold bind, lift. rewrite Hempty. reflexivity.
  - destruct (readable_fields row Hrow) as (Hne & Hcomma & Hnl & _).
    destruct (floats_of_rendered row s w) as (row' & Hrow' & _).
    { destruct Hrow as [_ Hrow]. eapply Forall_impl; [|exact Hrow].
      intros x [_ Hx]. exact Hx. }
    cbn [map app HyperparamSearch.import_lines]. unfold line_of at 1.
    rewrite replace_newline_line by (apply lacks_join; [reflexivity | exact Hnl]).
    rewrite (split_join _ Hne Hcomma).
    unfold bind at 1. rewrite Hrow'. unfold bind at 1. rewrite IH. reflexivity.
Qed.

End ResultsFileEdges.

(** X11: a row without entries breaks the round trip.  [exportResults]
    writes it as an empty line; [importResults] then calls [float] on the
    empty string, which raises [ValueError], and leaves [solution_matrix] as
    it was.  (The rows before it are readable, and the two reads of the file
    do not fail.) *)
Theorem importResults_rejects_empty_row :
  forall (env : Environment) (s s1 s2 : HyperparamSearch.t) (w w1 w2 : world)
         (r : Z) (before after : list (list num)),
    HyperparamSearch.runtime s = Some r ->
    HyperparamSearch.solution_matrix s = Some (before ++ [] :: after) ->
    HyperparamSearch.exportResults s w = (Ok tt, s1, w1) ->
    files w2 = files w1 ->
    Forall readable_row before ->
    float_parse EmptyString = None ->
    (forall h path, raises h (FileOpen path "r") = false) ->
    (forall h path, raises h (FileRead path) = false) ->
    result_of (HyperparamSearch.importResults (str_of_Z r) s2 w2) = Raise ValueError
    /\ state_of (HyperparamSearch.importResults (str_of_Z r) s2 w2) = s2.
Proof.
  intros env s s1 s2 w w1 w2 r before after Hr Hsm Hexport Hfiles Hrows Hempty
         Hopen Hread.
  destruct (exportResults_writes env s s1 w w1 Hexport)
    as (r' & sm' & Hr' & Hsm' & _ & Hfile).
  rewrite Hr in Hr'. inversion Hr'. subst r'.
  rewrite Hsm in Hsm'. inversion Hsm'. subst sm'.
  assert (Hrun : HyperparamSearch.importResults (str_of_Z r) s2 w2
                 = (Raise ValueError, s2,
                    {| trace := (trace w2
                                 ++ [FileOpen (HyperparamSearch.results_path (str_of_Z r)) "r"])
                                ++ [FileRead (HyperparamSearch.results_path (str_of_Z r))];
                       files := files w2 |})).
  { unfold HyperparamSearch.importResults, read_text.
    unfold bind at 1. unfold bind at 1. unfold call at 1. rewrite Hopen.
    unfold bind at 1. unfold get_world at 1. cbn [files trace].
    rewrite Hfiles, Hfile.
    unfold bind at 1. unfold call at 1. cbn [files trace]. rewrite Hread.
    unfold ret at 1.
    rewrite export_text_app.
    rewrite universal_newlines_prefix by (apply export_text_lacks_cr; exact Hrows).
    rewrite file_lines_export_then by exact Hrows.
    cbn [HyperparamSearch.export_text HyperparamSearch.export_items length].
    change (EmptyString ++ String newline EmptyString
            ++ HyperparamSearch.export_text after)%string
      with (String newline (HyperparamSearch.export_text after)).
    replace (universal_newlines (String newline (HyperparamSearch.export_text after)))
      with (String newline (universal_newlines (HyperparamSearch.export_text after)))
      by reflexivity.
    unfold file_lines at 1. cbn [file_lines_from].
    replace (Ascii.eqb newline newline) with true by reflexivity.
    cbn [append].
    unfold bind at 1.
    rewrite (import_lines_stops before _ s2 _ Hrows Hempty). rewrite <- Hfiles.
    reflexivity. }
  rewrite Hrun. split; reflexivity.
Qed.

Lemma importResults_rejects_empty_row_witness :
  HyperparamSearch.exportResults (env := quiet) searched_with_empty_row empty_world
  = (Ok tt,
     state_of (HyperparamSearch.exportResults (env := quiet)
                 searched_with_empty_row empty_world),
     world_of (HyperparamSearch.exportResults (env := quiet)
                 searched_with_empty_row empty_world))
  /\ float_parse (Environment := quiet) EmptyString = None
  /\ result_of
       (HyperparamSearch.importResults (env := quiet) (str_of_Z 12) searched
          (world_of (HyperparamSearch.exportResults (env := quiet)
                       searched_with_empty_row empty_world)))
     = Raise ValueError
  /\ state_of
       (HyperparamSearch.importResults (env := quiet) (str_of_Z 12) searched
          (world_of (HyperparamSearch.exportResults (env := quiet)
                       searched_with_empty_row empty_world)))
     = searched.
Proof.
  assert (H : HyperparamSearch.exportResults (env := quiet)
                searched_with_empty_row empty_world
              = (Ok tt,
                 state_of (HyperparamSearch.exportResults (env := quiet)
                             searched_with_empty_row empty_world),
                 world_of (HyperparamSearch.exportResults (env := quiet)
                             searched_with_empty_row empty_world)))
    by reflexivity.
  assert (Hrows : Forall (readable_row (env := quiet)) [[NInt 5; NInt 1; NInt 1]]).
  { repeat constructor; try discriminate; vm_compute; discriminate. }
  split; [exact H|]. split; [reflexivity|].
  exact (importResults_rejects_empty_row quiet searched_with_empty_row _ searched
           empty_world _ _ 12 [[NInt 5; NInt 1; NInt 1]] [[NInt 3; NInt (-4)]]
           eq_refl eq_refl H eq_refl Hrows eq_refl
           (fun _ _ => eq_refl) (fun _ _ => eq_refl)).
Defined.

Section ImportFrame.
Context {env : Environment}.

Lemma floats_of_pure (fields : list string) (s : HyperparamSearch.t) (w : world) :
  exists r, HyperparamSearch.floats_of fields s w = (r, s, w).
Proof.
  induction fields as [|f rest IH]; [eexists; reflexivity|].
  cbn [HyperparamSearch.floats_of]. unfold bind, lift.
  destruct (float_parse f) as [x|]; [|eexists; reflexivity].
  unfold ret at 1. destruct IH as (r & ->).
  destruct r; eexists; reflexivity.
Qed.

Lemma import_lines_pure (lines : list string) (s : HyperparamSearch.t) (w : world) :
  exists r, HyperparamSearch.import_lines lines s w = (r, s, w).
Proof.
  induction lines as [|line rest IH]; [eexists; reflexivity|].
  cbn [HyperparamSearch.import_lines]. unfold bind.
  destruct (floats_of_pure
              (split_comma_space (replace_char newline EmptyString line)) s w)
    as (r1 & ->).
  destruct r1; [|eexists; reflexivity].
  destruct IH as (r & ->). destruct r; eexists; reflexivity.
Qed.

End ImportFrame.

(* Close a case of a run of [importResults]. *)
Ltac import_leaf :=
  do 3 eexists; split; [reflexivity|]; split; [reflexivity|];
  split;
  [ intros ? ?; first [reflexivity | discriminate]
  | intros ?; first [discriminate | eexists; reflexivity] ].

(** X12: [importResults] replaces [solution_matrix] only after every line of
    the file has been read: when it raises (the file is missing or is no
    text, a field is no number, a read fails) the object is as it was.  It
    never changes a file, and on return only [solution_matrix] differs. *)
Theorem importResults_is_all_or_nothing :
  forall (env : Environment) (runtime : string) (s : HyperparamSearch.t) (w : world),
    files (world_of (HyperparamSearch.importResults runtime s w)) = files w
    /\ (forall e,
        result_of (HyperparamSearch.importResults runtime s w) = Raise e ->
        state_of (HyperparamSearch.importResults runtime s w) = s)
    /\ (result_of (HyperparamSearch.importResults runtime s w) = Ok tt ->
        exists rows,
          state_of (HyperparamSearch.importResults runtime s w)
          = HyperparamSearch.set_solution_matrix rows s).
Proof.
  intros env runtime s w.
  assert (Hmain : exists r s' w',
             HyperparamSearch.importResults runtime s w = (r, s', w')
             /\ files w' = files w
             /\ (forall e, r = Raise e -> s' = s)
             /\ (r = Ok tt ->
                 exists rows, s' = HyperparamSearch.set_solution_matrix rows s)).
  { unfold HyperparamSearch.importResults, read_text, bind, call, get_world,
      ret, raise, set_self.
    destruct (raises (trace w) (FileOpen (HyperparamSearch.results_path runtime) "r"));
      simpl; [import_leaf|].
    destruct (files w (HyperparamSearch.results_path runtime)) as [[text|d|m]|];
      simpl; try import_leaf;
      match goal with
      | |- context [raises ?h ?e] => destruct (raises h e); simpl; try import_leaf
      end.
    match goal with
    | |- context [HyperparamSearch.import_lines ?ls ?s0 ?w0] =>
        destruct (import_lines_pure ls s0 w0) as (r & Hr); rewrite Hr
    end.
    destruct r as [rows|e0]; simpl; import_leaf. }
  destruct Hmain as (r & s' & w' & -> & Hfiles & Hraise & Hok).
  unfold result_of, state_of, world_of. simpl.
  split; [exact Hfiles | split; [exact Hraise | exact Hok]].
Qed.

Lemma importResults_is_all_or_nothing_witness :
  result_of (HyperparamSearch.importResults (env := quiet) "12" searched empty_world)
  = Raise (FileNotFoundError (HyperparamSearch.results_path "12"))
  /\ state_of (HyperparamSearch.importResults (env := quiet) "12" searched
                 empty_world) = searched.
Proof.
  assert (H : result_of (HyperparamSearch.importResults (env := quiet) "12"
                           searched empty_world)
              = Raise (FileNotFoundError (HyperparamSearch.results_path "12")))
    by reflexivity.
  split; [exact H|].
  destruct (importResults_is_all_or_nothing quiet "12" searched empty_world)
    as (_ & Hraise & _).
  exact (Hraise _ H).
Defined.

(** ** A search that was just constructed *)

Lemma HyperparamSearch_init_keeps_runtime (env : Environment)
  (lp vp : option ndarray) (st : pyarg) (s : HyperparamSearch.t) (w : world) :
  HyperparamSearch.runtime (state_of (HyperparamSearch.init lp vp st s w))
  = HyperparamSearch.runtime s.
Proof.
  destruct grid_learning_rates as (a & b & c & d & e & Hlr).
  unfold HyperparamSearch.init.
  destruct lp as [lp|]; [destruct vp as [vp|]|]; try reflexivity.
  destruct (HyperparamSearch.is_grid st); [|reflexivity].
  rewrite Hlr, grid_hidden_layers, grid_layer_density. reflexivity.
Qed.

(** X13: no path through the constructor of [HyperparamSearch] assigns
    [self.runtime]: the only assignment follows the grid loop, which raises.
    So on a newly constructed object, whatever the arguments were,
    [exportResults] raises [AttributeError] before it opens any file. *)
Theorem exportResults_after_init_raises :
  forall (env : Environment) (lp vp : option ndarray) (st : pyarg) (w w' : world),
    let s := state_of (HyperparamSearch.init lp vp st HyperparamSearch.fresh w) in
    HyperparamSearch.runtime s = None
    /\ HyperparamSearch.exportResults s w' = (Raise (AttributeError "runtime"), s, w').
Proof.
  intros env lp vp st w w' s.
  assert (H : HyperparamSearch.runtime s = None)
    by (unfold s; rewrite HyperparamSearch_init_keeps_runtime; reflexivity).
  split; [exact H|].
  unfold HyperparamSearch.exportResults, bind, attr. rewrite H. reflexivity.
Qed.

(** ** learningRateAnalysis *)

Section LearningRateAnalysis.
Context {env : Environment}.

Lemma ints_of_run (row : list num) (s : HyperparamSearch.t) (w : world) :
  match header_ints row with
  | Some p => LearningRate.ints_of row s w = (Ok p, s, w)
  | None => exists e, LearningRate.ints_of row s w = (Raise e, s, w)
  end.
Proof.
  induction row as [|x rest IH]; [reflexivity|].
  cbn [header_ints LearningRate.ints_of].
  unfold bind, LearningRate.int_of, py_int, ret, raise.
  destruct x as [z|f].
  - cbn iota beta. destruct (header_ints rest) as [zs|].
    + rewrite IH. reflexivity.
    + destruct IH as (e & ->). exists e. reflexivity.
  - destruct (float_trunc f) as [z|].
    + cbn iota beta. destruct (header_ints rest) as [zs|].
      * rewrite IH. reflexivity.
      * destruct IH as (e & ->). exists e. reflexivity.
    + destruct (PrimFloat.eqb f f); eexists; reflexivity.
Qed.

Variables (rows : list (list num)) (p : list num).

Ltac keeps_analysed := repeat (keeps_step; try (simpl; assumption)).

Lemma stride_keeps : keeps (analysed rows p) LearningRate.stride.
Proof.
  unfold LearningRate.stride.
  apply keeps_bind; [apply keeps_attr | intros p0].
  apply keeps_bind; [apply keeps_lift | intros a].
  apply keeps_bind; [apply keeps_attr | intros p1].
  apply keeps_bind; [apply keeps_lift | intros b].
  destruct a, b; (apply keeps_ret || apply keeps_raise).
Qed.

Lemma rows_at_keeps (js : list Z) : keeps (analysed rows p) (LearningRate.rows_at js).
Proof.
  induction js as [|j js IH]; cbn [LearningRate.rows_at]; [auto with keeps|].
  do 2 (keeps_step; [keeps_analysed|]).
  keeps_step; [exact IH | auto with keeps].
Qed.

Lemma plot_group_keeps (savefig : option Z) (i : Z) :
  keeps (analysed rows p) (LearningRate.plot_group savefig i).
Proof.
  unfold LearningRate.plot_group.
  keeps_step; [keeps_analysed|].
  keeps_step; [apply stride_keeps|].
  keeps_step; [keeps_analysed|].
  keeps_step; [apply rows_at_keeps|].
  do 10 (keeps_step; [keeps_analysed|]).
  keeps_step; [|keeps_analysed].
  destruct savefig as [k|]; [destruct (k =? i)|]; auto with keeps.
Qed.

End LearningRateAnalysis.

(** X14: [learningRateAnalysis] changes the object it analyses.  It reads
    the header row as integers into [self.params] and pops it from
    [solution_matrix]; both stay so whatever happens to the plots, so a
    second call takes the first row of results for a header.  On an empty
    [solution_matrix] it raises [IndexError], and when an entry of the
    header is no finite number it raises; in both cases nothing has
    changed and nothing was plotted. *)
Theorem learningRateAnalysis_pops_header :
  forall (env : Environment) (savefig : option Z) (s : HyperparamSearch.t) (w : world),
    (forall header rows p,
        HyperparamSearch.solution_matrix s = Some (header :: rows) ->
        header_ints header = Some p ->
        HyperparamSearch.solution_matrix
          (state_of (LearningRate.learningRateAnalysis savefig s w)) = Some rows
        /\ HyperparamSearch.params
             (state_of (LearningRate.learningRateAnalysis savefig s w)) = Some p)
    /\ (HyperparamSearch.solution_matrix s = Some [] ->
        LearningRate.learningRateAnalysis savefig s w = (Raise IndexError, s, w))
    /\ (forall header rows,
        HyperparamSearch.solution_matrix s = Some (header :: rows) ->
        header_ints header = None ->
        exists e,
          LearningRate.learningRateAnalysis savefig s w = (Raise e, s, w)).
Proof.
  intros env savefig s w. split; [|split].
  - intros header rows p Hsm Hp.
    assert (K : forall m : M HyperparamSearch.t unit, keeps (analysed rows p) m ->
                  forall s1 w1, analysed rows p s1 ->
                                analysed rows p (state_of (m s1 w1)))
      by (intros m Hm; exact Hm).
    change (analysed rows p
              (state_of (LearningRate.learningRateAnalysis savefig s w))).
    unfold LearningRate.learningRateAnalysis.
    unfold bind at 1. unfold attr at 1. rewrite Hsm.
    unfold bind at 1. unfold lift at 1. cbn [nth_error]. unfold ret at 1.
    unfold bind at 1.
    pose proof (ints_of_run header s w) as Hints. rewrite Hp in Hints.
    rewrite Hints.
    unfold bind at 1. unfold set_self at 1.
    unfold bind at 1. unfold attr at 1.
    cbn [HyperparamSearch.solution_matrix HyperparamSearch.set_params].
    rewrite Hsm.
    unfold bind at 1. unfold lift at 1. cbn [nth_error]. unfold ret at 1.
    unfold bind at 1. unfold set_self at 1. cbn [tl].
    apply K; [|split; reflexivity].
    apply keeps_bind; [apply stride_keeps | intros n].
    apply keeps_for_each. intros i. apply plot_group_keeps.
  - intros Hsm. unfold LearningRate.learningRateAnalysis, bind, attr, lift.
    rewrite Hsm. reflexivity.
  - intros header rows Hsm Hp.
    pose proof (ints_of_run header s w) as Hints. rewrite Hp in Hints.
    destruct Hints as (e & Hints). exists e.
    unfold LearningRate.learningRateAnalysis.
    unfold bind at 1. unfold attr at 1. rewrite Hsm.
    unfold bind at 1. unfold lift at 1. cbn [nth_error]. unfold ret at 1.
    unfold bind at 1. rewrite Hints. reflexivity.
Qed.

Lemma learningRateAnalysis_pops_header_witness :
  header_ints [NFloat 1; NFloat 1; NFloat 1] = Some [NInt 1; NInt 1; NInt 1]
  /\ HyperparamSearch.solution_matrix
       (state_of (LearningRate.learningRateAnalysis (env := quiet) None reread
                    empty_world))
     = Some [[NFloat 1; NFloat 1; NFloat 50; NFloat 2; NFloat 3]]
  /\ HyperparamSearch.params
       (state_of (LearningRate.learningRateAnalysis (env := quiet) None reread
                    empty_world))
     = Some [NInt 1; NInt 1; NInt 1].
Proof.
  assert (H : header_ints [NFloat 1; NFloat 1; NFloat 1]
              = Some [NInt 1; NInt 1; NInt 1]) by (vm_compute; reflexivity).
  split; [exact H|].
  destruct (learningRateAnalysis_pops_header quiet None reread empty_world)
    as (Hpop & _).
  exact (Hpop _ _ _ eq_refl H).
Defined.

(** ** The sweep when calls may raise *)

Section SweepAnyEnvironment.
Context {env : Environment}.

(** The calls made up to a call that raised: those before it, then it. *)
Ltac calls_made :=
  etransitivity; [|symmetry; apply app_assoc];
  f_equal;
  first [ symmetry; apply app_nil_r
        | repeat rewrite <- app_assoc; cbn [app]; reflexivity ].

(** Close the case of a turn that a call has ended. *)
Ltac turn_raised :=
  right; do 3 eexists;
  split; [reflexivity|];
  refine (conj _ (conj _ (conj _ (conj _ _))));
  [cbn [trace]; calls_made | | | | ];
  [cbn [app]; reflexivity | reflexivity | reflexivity | reflexivity].

(** A turn either completes as when every call returns, or ends at the call
    that raised, the size recorded and no time. *)
Lemma sweep_step_outcome (no_houses : Z) (g : TimingScript.t) (w : world) :
  TimingScript.k g = Z.of_nat (length (TimingScript.data_0 g)) ->
  length (TimingScript.data_1 g) = length (TimingScript.data_0 g) ->
  TimingScript.sweep_step no_houses g w
  = (Ok tt,
     {| TimingScript.data_0 := TimingScript.data_0 g ++ [no_houses];
        TimingScript.data_1 :=
          TimingScript.data_1 g ++ [sweep_time (trace w) no_houses];
        TimingScript.k := TimingScript.k g + 1 |},
     {| trace := trace w ++ sweep_calls no_houses; files := files w |})
  \/ exists evs failed more,
       result_of (TimingScript.sweep_step no_houses g w)
       = Raise (LibraryError failed)
       /\ trace (world_of (TimingScript.sweep_step no_houses g w))
          = trace w ++ evs ++ [failed]
       /\ sweep_calls no_houses = evs ++ failed :: more
       /\ TimingScript.data_0 (state_of (TimingScript.sweep_step no_houses g w))
          = TimingScript.data_0 g ++ [no_houses]
       /\ TimingScript.data_1 (state_of (TimingScript.sweep_step no_houses g w))
          = TimingScript.data_1 g
       /\ TimingScript.k (state_of (TimingScript.sweep_step no_houses g w))
          = TimingScript.k g.
Proof.
  intros Hk Hlen.
  unfold TimingScript.sweep_step, TimingScript.train, bind, call, set_self,
    get_self, print, time, ret, lift, sweep_time, sweep_calls,
    simulation_calls, training_calls, result_of, state_of, world_of.
  set (config := ("../_configs/montecarlo" ++ str_of_Z no_houses ++ ".json")%string).
  cbn [trace files TimingScript.data_0 TimingScript.data_1 TimingScript.k].
  repeat match goal with
         | |- context [raises ?h ?e] =>
             destruct (raises h e);
             cbn [trace files fst snd TimingScript.data_0 TimingScript.data_1
                    TimingScript.k];
             [turn_raised|]
         end.
  left.
  rewrite Hk, Nat2Z.id.
  rewrite nth_error_app2 by lia. rewrite Hlen, Nat.sub_diag.
  cbn [nth_error]. unfold ret at 1.
  cbn [trace files TimingScript.data_0 TimingScript.data_1 TimingScript.k].
  rewrite nth_error_app2 by lia. rewrite Nat.sub_diag.
  cbn [nth_error]. unfold ret at 1.
  cbn [trace files TimingScript.data_0 TimingScript.data_1 TimingScript.k].
  repeat rewrite <- app_assoc. cbn [app].
  reflexivity.
Qed.

(** The loop stops at the first turn that a call ends. *)
Lemma sweep_outcome (sizes : list Z) :
  forall (g : TimingScript.t) (w : world),
    TimingScript.k g = Z.of_nat (length (TimingScript.data_0 g)) ->
    length (TimingScript.data_1 g) = length (TimingScript.data_0 g) ->
    for_each sizes TimingScript.sweep_step g w
    = (Ok tt,
       {| TimingScript.data_0 := TimingScript.data_0 g ++ sizes;
          TimingScript.data_1 :=
            TimingScript.data_1 g ++ sweep_times (trace w) sizes;
          TimingScript.k := TimingScript.k g + Z.of_nat (length sizes) |},
       {| trace := trace w ++ flat_map sweep_calls sizes; files := files w |})
    \/ exists done n rest evs failed more,
         sizes = done ++ n :: rest
         /\ sweep_calls n = evs ++ failed :: more
         /\ result_of (for_each sizes TimingScript.sweep_step g w)
            = Raise (LibraryError failed)
         /\ trace (world_of (for_each sizes TimingScript.sweep_step g w))
            = trace w ++ flat_map sweep_calls done ++ evs ++ [failed]
         /\ TimingScript.data_0
              (state_of (for_each sizes TimingScript.sweep_step g w))
            = TimingScript.data_0 g ++ done ++ [n]
         /\ TimingScript.data_1
              (state_of (for_each sizes TimingScript.sweep_step g w))
            = TimingScript.data_1 g ++ sweep_times (trace w) done.
Proof.
  induction sizes as [|n rest IH]; intros g w Hk Hlen.
  - left. simpl. unfold ret. rewrite !app_nil_r, Z.add_0_r.
    destruct g, w; reflexivity.
  - cbn [for_each]. unfold bind.
    destruct (sweep_step_outcome n g w Hk Hlen)
      as [Heq | (evs & failed & more & Hr & Ht & Hc & H0 & H1 & _)].
    + rewrite Heq.
      match goal with
      | |- context [for_each rest TimingScript.sweep_step ?g1 ?w1] =>
          destruct (IH g1 w1) as [Hall | (done & n' & rest' & evs & failed & more
                                           & Hs & Hc & Hr & Ht & H0 & H1)]
      end.
      * cbn [TimingScript.data_0 TimingScript.k]. rewrite length_app. simpl. lia.
      * cbn [TimingScript.data_0 TimingScript.data_1]. rewrite !length_app.
        simpl. lia.
      * left. rewrite Hall.
        cbn [trace files TimingScript.data_0 TimingScript.data_1 TimingScript.k
               flat_map sweep_times length].
        rewrite <- !app_assoc. simpl app.
        replace (TimingScript.k g + 1 + Z.of_nat (length rest))
          with (TimingScript.k g + Z.of_nat (S (length rest))) by lia.
        reflexivity.
      * right. exists (n :: done), n', rest', evs, failed, more.
        cbn [trace files TimingScript.data_0 TimingScript.data_1 TimingScript.k
               flat_map sweep_times] in *.
        rewrite Hr, Ht, H0, H1, Hs. rewrite <- !app_assoc.
        repeat split; auto.
    + right. exists [], n, rest, evs, failed, more.
      destruct (TimingScript.sweep_step n g w) as [[r g'] w'].
      unfold result_of, state_of, world_of in *. cbn [fst snd] in *.
      subst r. cbn [fst snd flat_map sweep_times app].
      rewrite app_nil_r. repeat split; auto.
Qed.

(** The calls of [plotit] run until one raises. *)
Lemma plotit_outcome (x : list Z) (y : list float) (g : TimingScript.t)
  (w : world) :
  TimingScript.plotit x y g w
  = (Ok tt, g, {| trace := trace w ++ plot_calls; files := files w |})
  \/ exists evs failed more,
       plot_calls = evs ++ failed :: more
       /\ TimingScript.plotit x y g w
          = (Raise (LibraryError failed), g,
             {| trace := trace w ++ evs ++ [failed]; files := files w |}).
Proof.
  unfold TimingScript.plotit, bind, call, plot_calls.
  cbn [trace files].
  repeat match goal with
         | |- context [raises ?h ?e] =>
             destruct (raises h e);
             cbn [trace files];
             [right; do 3 eexists;
              refine (conj _ _);
              [|f_equal; f_equal; calls_made];
              cbn [app]; reflexivity|]
         end.
  left. repeat rewrite <- app_assoc. reflexivity.
Qed.

End SweepAnyEnvironment.

(** X15: whatever the calls of the script do, it ends in one of three ways.
    All 24 turns and the plot complete.  Or a call raises inside a turn: the
    script ends with that call's error, the sizes recorded are those of the
    completed turns and of the turn that failed, the times are those of the
    completed turns only, so [data[0]] is one longer than [data[1]]; the
    calls made are those of the completed turns and those of the failed
    turn up to the one that raised, and no plot call is made.  Or a plot
    call raises, after all 24 turns are recorded. *)
Theorem timing_sweep_outcomes :
  forall (env : Environment) (w : world),
    let sizes := np_arange_int 10 250 10 in
    let run := TimingScript.script TimingScript.fresh w in
    (result_of run = Ok tt
     /\ TimingScript.data_0 (state_of run) = sizes
     /\ TimingScript.data_1 (state_of run) = sweep_times (trace w) sizes
     /\ trace (world_of run) = trace w ++ flat_map sweep_calls sizes ++ plot_calls)
    \/ (exists done n rest evs failed more,
          result_of run = Raise (LibraryError failed)
          /\ sizes = done ++ n :: rest
          /\ sweep_calls n = evs ++ failed :: more
          /\ TimingScript.data_0 (state_of run) = done ++ [n]
          /\ TimingScript.data_1 (state_of run) = sweep_times (trace w) done
          /\ trace (world_of run)
             = trace w ++ flat_map sweep_calls done ++ evs ++ [failed])
    \/ (exists evs failed more,
          result_of run = Raise (LibraryError failed)
          /\ plot_calls = evs ++ failed :: more
          /\ TimingScript.data_0 (state_of run) = sizes
          /\ TimingScript.data_1 (state_of run) = sweep_times (trace w) sizes
          /\ trace (world_of run)
             = trace w ++ flat_map sweep_calls sizes ++ evs ++ [failed]).
Proof.
  intros env w sizes run.
  assert (Hrun : run
    = match for_each sizes TimingScript.sweep_step TimingScript.fresh w with
      | (Ok _, g, w') =>
          TimingScript.plotit (TimingScript.data_0 g) (TimingScript.data_1 g) g w'
      | (Raise e, g, w') => (Raise e, g, w')
      end).
  { unfold run, TimingScript.script, bind, get_self. fold sizes.
    destruct (for_each sizes TimingScript.sweep_step TimingScript.fresh w)
      as [[[[]|e] g] w']; reflexivity. }
  rewrite Hrun. clear Hrun.
  destruct (sweep_outcome sizes TimingScript.fresh w eq_refl eq_refl)
    as [Hall | (done & n & rest & evs & failed & more
                & Hs & Hc & Hr & Ht & H0 & H1)].
  - rewrite Hall.
    cbn [TimingScript.data_0 TimingScript.data_1 TimingScript.fresh app].
    match goal with
    | |- context [TimingScript.plotit ?x ?y ?g ?w1] =>
        destruct (plotit_outcome x y g w1)
          as [Hp | (evs & failed & more & Hc & Hp)]; rewrite Hp
    end.
    + left. unfold result_of, state_of, world_of.
      cbn [fst snd trace TimingScript.data_0 TimingScript.data_1].
      rewrite <- app_assoc. repeat split.
    + right. right. exists evs, failed, more.
      unfold result_of, state_of, world_of.
      cbn [fst snd trace TimingScript.data_0 TimingScript.data_1].
      rewrite <- app_assoc. repeat split. exact Hc.
  - right. left. exists done, n, rest, evs, failed, more.
    destruct (for_each sizes TimingScript.sweep_step TimingScript.fresh w)
      as [[r g'] w'].
    unfold result_of, state_of, world_of in *. cbn [fst snd] in *.
    subst r. cbn [fst snd TimingScript.fresh TimingScript.data_0
                    TimingScript.data_1 app] in *.
    repeat split; auto.
Qed.

(** ** epochAnalysis *)

(** X16: [epochAnalysis] never returns.  Its loop names [TrainANN], which
    the module does not bind, so with a study size to run the first turn
    ends it: one [PowerFlowSim] is constructed and either that call raises
    or [NameError] follows it; no model is built, no result is recorded and
    nothing is printed.  With no study size the loop binds neither [pfs]
    nor [ann], and after printing the empty results the [return] raises. *)
Theorem epochAnalysis_never_returns :
  forall (env : Environment) (simulated : Z -> ndarray * ndarray)
         (last_epoch : ANNRegression.t -> Z) (w : world),
    EpochAnalysis.epochAnalysis simulated last_epoch [] EpochAnalysis.fresh w
    = (Raise (NameError "pfs"), EpochAnalysis.fresh,
       {| trace := trace w ++ [Stdout]; files := files w |})
    /\ forall (size : Z) (rest : list Z),
         let run := EpochAnalysis.epochAnalysis simulated last_epoch
                      (size :: rest) EpochAnalysis.fresh w in
         let pfs_new :=
           PowerFlowSimNew 50
             ("./data/montecarlo" ++ str_of_Z size ++ ".json")%string
             EmptyString in
         world_of run = {| trace := trace w ++ [pfs_new]; files := files w |}
         /\ EpochAnalysis.ann (state_of run) = None
         /\ EpochAnalysis.results (state_of run) = []
         /\ (result_of run = Raise (LibraryError pfs_new)
             /\ EpochAnalysis.pfs (state_of run) = None
             \/ result_of run = Raise (NameError "TrainANN")
                /\ EpochAnalysis.pfs (state_of run) = Some (simulated size)).
Proof.
  intros env simulated last_epoch w. split; [reflexivity|].
  intros size rest run pfs_new.
  unfold run, EpochAnalysis.epochAnalysis. cbn [for_each].
  unfold EpochAnalysis.study, EpochAnalysis.TrainANN.
  rewrite TrainANN_is_unbound.
  unfold bind, call, set_self, raise, result_of, state_of, world_of.
  fold pfs_new.
  destruct (raises (trace w) pfs_new);
    cbn [fst snd EpochAnalysis.ann EpochAnalysis.results EpochAnalysis.pfs
           EpochAnalysis.fresh trace files];
    repeat split; auto.
Qed.

(** ** The text of a saved network *)

Lemma replace_char_app (old : ascii) (new a b : string) :
  replace_char old new (a ++ b)
  = (replace_char old new a ++ replace_char old new b)%string.
Proof.
  induction a as [|c a IH]; [reflexivity|].
  simpl. destruct (Ascii.eqb c old); rewrite IH; [|reflexivity].
  rewrite string_app_assoc. reflexivity.
Qed.

(** A printable character other than the backslash is escaped by at most a
    backslash before it. *)
Lemma unescape_char (c : ascii) :
  Nat.leb 32 (nat_of_ascii c) && Nat.leb (nat_of_ascii c) 126 = true ->
  Ascii.eqb c backslash = false ->
  replace_char backslash "" (json_escape_char c) = String c EmptyString
  /\ lacks carriage_return (json_escape_char c) = true.
Proof.
  intros Hp Hb. unfold json_escape_char.
  destruct (Ascii.eqb c double_quote) eqn:Hq.
  - apply Ascii.eqb_eq in Hq. subst c. split; reflexivity.
  - rewrite Hb, Hp. simpl. rewrite Hb. split; [reflexivity|].
    destruct (Ascii.eqb c carriage_return) eqn:Hc; [|reflexivity].
    apply Ascii.eqb_eq in Hc. subst c. discriminate Hp.
Qed.

Lemma unescape (s : string) :
  json_plain s = true ->
  replace_char backslash "" (json_escape s) = s
  /\ lacks carriage_return (json_escape s) = true.
Proof.
  induction s as [|c s IH]; intros Hs; [split; reflexivity|].
  cbn [json_plain] in Hs.
  apply andb_true_iff in Hs. destruct Hs as [Hs Hrest].
  apply andb_true_iff in Hs. destruct Hs as [Hp Hb].
  apply negb_true_iff in Hb.
  destruct (unescape_char c Hp Hb) as [Hc Hcr].
  destruct (IH Hrest) as [IHs IHcr].
  cbn [json_escape]. rewrite replace_char_app, lacks_app, Hc, Hcr, IHs, IHcr.
  split; reflexivity.
Qed.

Lemma slice_inner {A : Type} (x y : A) (l : list A) :
  py_slice (Some 1) (Some (-1)) (x :: l ++ [y]) = l.
Proof.
  unfold py_slice, norm_index. cbn [length]. rewrite length_app. cbn [length].
  replace (1 <? 0) with false by reflexivity.
  replace (-1 <? 0) with true by reflexivity.
  replace (Z.to_nat (Z.min 1 (Z.of_nat (S (length l + 1))))) with 1%nat by lia.
  replace (Z.to_nat (Z.max 0 (-1 + Z.of_nat (S (length l + 1)))
                     - Z.min 1 (Z.of_nat (S (length l + 1)))))
    with (length l + 0)%nat by lia.
  cbn [skipn]. rewrite firstn_app_2. cbn [firstn]. apply app_nil_r.
Qed.

Lemma str_slice_inner (x y : ascii) (s : string) :
  str_slice (Some 1) (Some (-1)) (String x (s ++ String y EmptyString)) = s.
Proof.
  unfold str_slice. cbn [list_ascii_of_string].
  rewrite list_ascii_of_string_app. cbn [list_ascii_of_string].
  rewrite slice_inner. apply string_of_list_ascii_of_string.
Qed.

(** What [loadModel] makes of what [json.dump] wrote, for a text that is
    escaped with nothing but a backslash before each quote. *)
Lemma decode_json_string (s : string) :
  json_plain s = true ->
  decode_model_json (universal_newlines (json_string s)) = s.
Proof.
  intros Hs. destruct (unescape s Hs) as [Hun Hcr].
  rewrite universal_newlines_id.
  - unfold decode_model_json, json_string.
    cbn [replace_char]. replace (Ascii.eqb double_quote backslash) with false
      by reflexivity.
    rewrite replace_char_app, Hun. cbn [replace_char].
    replace (Ascii.eqb double_quote backslash) with false by reflexivity.
    apply str_slice_inner.
  - unfold json_string. cbn [lacks]. rewrite lacks_app, Hcr. reflexivity.
Qed.

Lemma string_app_inv_head (a x y : string) :
  (a ++ x)%string = (a ++ y)%string -> x = y.
Proof.
  induction a as [|c a IH]; simpl; intros H; [exact H|].
  inversion H. auto.
Qed.

Lemma json_is_not_h5 (prefix name : string) :
  String.eqb (prefix ++ name ++ ".json") (prefix ++ name ++ ".h5") = false.
Proof.
  apply String.eqb_neq. intros H.
  apply string_app_inv_head, string_app_inv_head in H. discriminate H.
Qed.

(** X17: a network saved by [saveModel] is loaded back by [loadModel] under
    the same name, when the libraries return and the JSON text of the model
    is printable ASCII without backslash: [json.dump] then escapes only its
    quotes, and removing every backslash and the first and last character
    gives Keras the text that [to_json] produced. *)
Theorem ANNRegression_saveModel_then_loadModel :
  forall (env : Environment) (name : string) (s : ANNRegression.t) (w : world)
         (m m' : kmodel),
    (forall h e, raises h e = false) ->
    (forall text, json_dumps text = json_string text) ->
    ANNRegression.model s = Some m ->
    json_plain (model_json m) = true ->
    model_from_json (model_json m) = Some m' ->
    let saved := ANNRegression.saveModel (PStr name) s w in
    let loaded :=
      ANNRegression.loadModel (PStr name) (state_of saved) (world_of saved) in
    result_of saved = Ok tt
    /\ result_of loaded = Ok (Some m')
    /\ In (ModelFromJson (model_json m)) (trace (world_of loaded)).
Proof.
  intros env name s w m m' Hr Hdumps Hm Hplain Hfrom saved loaded.
  assert (Hsaved : saved
    = (Ok tt, s,
       {| trace := trace w
                   ++ [ModelToJson;
                       FileOpen (lookup_tables ++ name ++ ".json") "w";
                       JsonDump (lookup_tables ++ name ++ ".json");
                       ModelSaveWeights (lookup_tables ++ name ++ ".h5")];
          files :=
            fs_write (lookup_tables ++ name ++ ".h5") (WeightsFile m)
              (fs_write (lookup_tables ++ name ++ ".json")
                 (TextFile (json_string (model_json m)))
                 (fs_write (lookup_tables ++ name ++ ".json") (TextFile "")
                    (files w))) |})).
  { unfold saved, ANNRegression.saveModel, bind, attr, call, concat_name, ret,
      set_files.
    rewrite Hm. simpl. rewrite !Hr. simpl. rewrite Hm. simpl.
    rewrite !Hr, Hdumps. simpl.
    repeat rewrite <- app_assoc. reflexivity. }
  unfold loaded. rewrite Hsaved. unfold result_of, state_of, world_of.
  cbn [fst snd].
  set (fs := fs_write (lookup_tables ++ name ++ ".h5") _ _).
  assert (Hjson : fs (lookup_tables ++ name ++ ".json")%string
                  = Some (TextFile (json_string (model_json m)))).
  { unfold fs, fs_write. rewrite json_is_not_h5, String.eqb_refl. reflexivity. }
  assert (Hh5 : fs (lookup_tables ++ name ++ ".h5")%string = Some (WeightsFile m)).
  { unfold fs, fs_write. rewrite String.eqb_refl. reflexivity. }
  clearbody fs.
  pose proof (decode_json_string _ Hplain) as Hdecode.
  unfold decode_model_json in Hdecode.
  set (text := json_string (model_json m)) in *. clearbody text.
  unfold ANNRegression.loadModel, ANNRegression.loadModel_try, try_except,
    read_text, bind, call, concat_name, ret, get_world, lift, print, raise.
  simpl. rewrite !Hr. simpl. rewrite Hjson. simpl. rewrite !Hr. simpl.
  rewrite Hdecode, Hfrom.
  simpl. rewrite !Hr. simpl. rewrite Hh5. simpl.
  split; [reflexivity|]. split; [reflexivity|].
  repeat rewrite in_app_iff. cbn [In]. tauto.
Qed.

Lemma ANNRegression_saveModel_then_loadModel_witness :
  result_of
    (ANNRegression.loadModel (env := quoting) (PStr "net")
       (state_of (ANNRegression.saveModel (env := quoting) (PStr "net")
                    (ANNRegression.set_model
                       {| k_layers := []; k_learning_rate := None |}
                       ANNRegression.fresh) empty_world))
       (world_of (ANNRegression.saveModel (env := quoting) (PStr "net")
                    (ANNRegression.set_model
                       {| k_layers := []; k_learning_rate := None |}
                       ANNRegression.fresh) empty_world)))
  = Ok (Some {| k_layers := []; k_learning_rate := None |}).
Proof.
  exact (proj1 (proj2
    (ANNRegression_saveModel_then_loadModel quoting "net"
       (ANNRegression.set_model {| k_layers := []; k_learning_rate := None |}
          ANNRegression.fresh)
       empty_world
       {| k_layers := []; k_learning_rate := None |}
       {| k_layers := []; k_learning_rate := None |}
       (fun _ _ => eq_refl) (fun _ => eq_refl) eq_refl eq_refl eq_refl))).
Defined.

Lemma lacks_replaced (c : ascii) (s : string) :
  lacks c (replace_char c "" s) = true.
Proof.
  induction s as [|x s IH]; [reflexivity|].
  simpl. destruct (Ascii.eqb x c) eqn:Hx; simpl; [exact IH|].
  rewrite Hx, IH. reflexivity.
Qed.

Lemma lacks_forallb (c : ascii) (s : string) :
  lacks c s = forallb (fun x => negb (Ascii.eqb x c)) (list_ascii_of_string s).
Proof. induction s as [|x s IH]; simpl; [reflexivity | rewrite IH; reflexivity]. Qed.

Lemma forallb_firstn {A : Type} (f : A -> bool) (n : nat) (l : list A) :
  forallb f l = true -> forallb f (firstn n l) = true.
Proof.
  revert l. induction n as [|n IH]; intros [|x l]; simpl; auto.
  intros H. apply andb_true_iff in H. destruct H as [Hx Hl].
  rewrite Hx, (IH l Hl). reflexivity.
Qed.

Lemma forallb_skipn {A : Type} (f : A -> bool) (n : nat) (l : list A) :
  forallb f l = true -> forallb f (skipn n l) = true.
Proof.
  revert l. induction n as [|n IH]; intros [|x l]; simpl; auto.
  intros H. apply andb_true_iff in H. destruct H as [_ Hl]. exact (IH l Hl).
Qed.

(** A slice holds no character that the string does not hold. *)
Lemma lacks_slice (c : ascii) (lo hi : option Z) (s : string) :
  lacks c s = true -> lacks c (str_slice lo hi s) = true.
Proof.
  rewrite !lacks_forallb. unfold str_slice, py_slice.
  rewrite list_ascii_of_string_of_list_ascii. intros H.
  apply forallb_firstn, forallb_skipn, H.
Qed.

(** X18: whatever the [.json] file holds, the text [loadModel] hands to
    [model_from_json] has no backslash in it: every one is removed, those
    of an escaped newline or of an escaped backslash as well as those before
    quotes.  So a saved
    text in which [json.dump] had to escape more than quotes is not the
    text Keras gets back. *)
Theorem loadModel_strips_every_backslash :
  forall (env : Environment) (model_name : pyarg) (s : ANNRegression.t)
         (w : world),
    exists evs,
      trace (world_of (ANNRegression.loadModel model_name s w)) = trace w ++ evs
      /\ Forall no_backslash_to_keras evs.
Proof.
  intros env model_name s w.
  assert (H : emits no_backslash_to_keras (ANNRegression.loadModel model_name));
    [|exact (H s w)].
  assert (Hcall : forall e, no_backslash_to_keras e ->
                            emits no_backslash_to_keras
                              (@call env ANNRegression.t e))
    by (intros e He; apply emits_some_emits, emits_some_call, He).
  assert (Hprint : emits no_backslash_to_keras (@print ANNRegression.t))
    by (apply emits_some_emits, emits_some_print; exact I).
  assert (Hreport : forall ex, emits no_backslash_to_keras
                                 (@print_exn env ANNRegression.t ex)).
  { intros ex s0 w0. unfold print_exn, world_of.
    destruct (printable ex); simpl.
    - exists [Stdout]. split; [reflexivity | repeat constructor].
    - exists []. rewrite app_nil_r. split; [reflexivity | constructor]. }
  unfold ANNRegression.loadModel, ANNRegression.loadModel_try.
  apply emits_try_except;
    [|intros e; apply emits_bind; [apply Hreport | auto with emits]].
  apply emits_bind; [|auto with emits].
  apply emits_bind; [apply emits_concat_name | intros path].
  apply emits_bind.
  { unfold read_text.
    apply emits_bind; [apply Hcall; exact I | intros _].
    apply emits_bind; [apply emits_get_world | intros w0].
    destruct (files w0 path) as [[text|d|k]|]; [| | |apply emits_raise];
      (apply emits_bind; [apply Hcall; exact I | auto with emits]). }
  intros text.
  apply emits_bind;
    [apply Hcall; simpl; apply lacks_slice, lacks_replaced | intros _].
  apply emits_bind; [apply emits_lift | intros m].
  apply emits_bind; [apply emits_concat_name | intros weights].
  apply emits_bind; [apply Hcall; exact I | intros _].
  apply emits_bind; [apply emits_get_world | intros w1].
  apply emits_bind;
    [destruct (files w1 weights) as [[c|d|k]|]; auto with emits | intros _].
  apply emits_bind; [exact Hprint | auto with emits].
Qed.

(** ** The files of an object built with [save_model=True] *)

Lemma lacks_replace_char (c old : ascii) (new s : string) :
  lacks c new = true ->
  (Ascii.eqb old c = true \/ lacks c s = true) ->
  lacks c (replace_char old new s) = true.
Proof.
  intros Hnew. induction s as [|x s IH]; intros Hs; [reflexivity|].
  cbn [replace_char]. destruct (Ascii.eqb x old) eqn:Hx.
  - rewrite lacks_app, Hnew. apply IH.
    destruct Hs as [Hs|Hs]; [left; exact Hs | right].
    cbn [lacks] in Hs. apply andb_true_iff in Hs. tauto.
  - cbn [lacks]. destruct Hs as [Hs|Hs].
    + apply Ascii.eqb_eq in Hs. subst old. rewrite Hx. apply IH. left.
      apply Ascii.eqb_refl.
    + cbn [lacks] in Hs. apply andb_true_iff in Hs. destruct Hs as [Hc Hs].
      rewrite Hc. apply IH. right. exact Hs.
Qed.

(** The name built from the time of day holds neither colon nor space. *)
Lemma timestamp_is_a_file_name (now : string) :
  lacks ":" (timestamp now) = true /\ lacks " " (timestamp now) = true.
Proof.
  unfold timestamp. split.
  - apply lacks_replace_char; [reflexivity | right].
    apply lacks_replace_char; [reflexivity | left; reflexivity].
  - apply lacks_replace_char; [reflexivity | left; reflexivity].
Qed.

(** What a [saveModel] of [ANNRegression] that returned has left. *)
Lemma ann_saveModel_writes (env : Environment) (n : string)
  (s s1 : ANNRegression.t) (w w1 : world) :
  ANNRegression.saveModel (PStr n) s w = (Ok tt, s1, w1) ->
  s1 = s
  /\ exists m,
       ANNRegression.model s = Some m
       /\ files w1 (lookup_tables ++ n ++ ".json")%string
          = Some (TextFile (json_dumps (model_json m)))
       /\ files w1 (lookup_tables ++ n ++ ".h5")%string = Some (WeightsFile m).
Proof.
  unfold ANNRegression.saveModel, concat_name, bind, call, set_files, ret,
    raise, attr.
  destruct (ANNRegression.model s) as [m|] eqn:Hm; simpl; [|discriminate].
  case_raises. case_raises. case_raises. rewrite Hm. simpl. case_raises.
  intros H. inversion H. subst. split; [reflexivity|].
  exists m. simpl. split; [reflexivity|]. unfold fs_write.
  rewrite json_is_not_h5, !String.eqb_refl. repeat split.
Qed.

(** What a [saveModel] of [ParametricRegression] that returned has left. *)
Lemma pr_saveModel_returns (env : Environment) (n : string)
  (s s1 : ParametricRegression.t) (w w1 : world) :
  ParametricRegression.saveModel (PStr n) s w = (Ok tt, s1, w1) ->
  s1 = s
  /\ exists th,
       ParametricRegression.theta s = Some th
       /\ files w1 (lookup_tables ++ n ++ ".h5")%string
          = Some (H5File [("data", th)]).
Proof.
  unfold ParametricRegression.saveModel, concat_name, bind, call, set_files,
    ret, raise, attr.
  simpl. case_raises.
  destruct (ParametricRegression.theta s) as [th|]; simpl; [|discriminate].
  case_raises.
  intros H. inversion H. subst. split; [reflexivity|].
  exists th. simpl. unfold fs_write. rewrite String.eqb_refl. repeat split.
Qed.

(** X20: an object whose constructor returned with [save_model=True] names
    its own files.  [model_name] is the prefix of the class followed by the
    time of day with every colon and space replaced, so it holds neither;
    under that name the lookup directory holds, for [ANNRegression], the
    JSON text of [self.model] and its weights, and for
    [ParametricRegression] a file whose dataset ['data'] is [self.theta]. *)
Theorem saved_model_is_found_by_its_name :
  forall (env : Environment) (lp vp : ndarray) (tp lr : float) (nhl ld : Z)
         (dropout : option float) (epochs : Z) (es plot : bool)
         (sa sa1 : ANNRegression.t) (sp sp1 : ParametricRegression.t)
         (w w1 : world),
    (ANNRegression.init (Some lp) (Some vp) tp lr nhl ld dropout epochs es true
       plot sa w = (Ok tt, sa1, w1) ->
     exists now m,
       ANNRegression.model_name sa1 = Some ("ann_model_" ++ timestamp now)%string
       /\ lacks ":" (timestamp now) = true
       /\ lacks " " (timestamp now) = true
       /\ ANNRegression.model sa1 = Some m
       /\ files w1 (lookup_tables ++ ("ann_model_" ++ timestamp now) ++ ".json")%string
          = Some (TextFile (json_dumps (model_json m)))
       /\ files w1 (lookup_tables ++ ("ann_model_" ++ timestamp now) ++ ".h5")%string
          = Some (WeightsFile m))
    /\ (ParametricRegression.init (Some lp) (Some vp) tp true sp w = (Ok tt, sp1, w1) ->
        exists now th,
          ParametricRegression.model_name sp1
          = Some ("ne_model_" ++ timestamp now)%string
          /\ lacks ":" (timestamp now) = true
          /\ lacks " " (timestamp now) = true
          /\ ParametricRegression.theta sp1 = Some th
          /\ files w1 (lookup_tables ++ ("ne_model_" ++ timestamp now) ++ ".h5")%string
             = Some (H5File [("data", th)])).
Proof.
  intros env lp vp tp lr nhl ld dropout epochs es plot sa sa1 sp sp1 w w1.
  split.
  - unfold ANNRegression.init. intros H.
    do 6 (apply bind_returns in H; destruct H as (? & ? & ? & _ & H)).
    apply bind_returns in H. destruct H as (now & s6 & w6 & _ & H).
    apply bind_returns in H. destruct H as ([] & s7 & w7 & Hset & H).
    unfold set_self in Hset. inversion Hset. subst s7 w7. clear Hset.
    apply ann_saveModel_writes in H. destruct H as (-> & m & Hm & Hjson & Hh5).
    destruct (timestamp_is_a_file_name now) as [Hcolon Hspace].
    exists now, m. repeat split; assumption.
  - unfold ParametricRegression.init. intros H.
    do 12 (apply bind_returns in H; destruct H as (? & ? & ? & _ & H)).
    apply bind_returns in H. destruct H as (now & s6 & w6 & _ & H).
    apply bind_returns in H. destruct H as ([] & s7 & w7 & Hset & H).
    unfold set_self in Hset. inversion Hset. subst s7 w7. clear Hset.
    apply pr_saveModel_returns in H. destruct H as (-> & th & Hth & Hh5).
    destruct (timestamp_is_a_file_name now) as [Hcolon Hspace].
    exists now, th. repeat split; assumption.
Qed.

Lemma saved_model_is_found_by_its_name_witness :
  saved_ann = (Ok tt, state_of saved_ann, world_of saved_ann)
  /\ exists now m,
       ANNRegression.model_name (state_of saved_ann)
       = Some ("ann_model_" ++ timestamp now)%string
       /\ lacks ":" (timestamp now) = true
       /\ lacks " " (timestamp now) = true
       /\ ANNRegression.model (state_of saved_ann) = Some m
       /\ files (world_of saved_ann)
            (lookup_tables ++ ("ann_model_" ++ timestamp now) ++ ".json")%string
          = Some (TextFile (json_dumps (Environment := quiet)
                              (model_json (Environment := quiet) m)))
       /\ files (world_of saved_ann)
            (lookup_tables ++ ("ann_model_" ++ timestamp now) ++ ".h5")%string
          = Some (WeightsFile m).
Proof.
  assert (H : saved_ann = (Ok tt, state_of saved_ann, world_of saved_ann))
    by (vm_compute; reflexivity).
  split; [exact H|].
  exact (proj1 (saved_model_is_found_by_its_name quiet (ramp 10) (ramp 10) 0.7
                  0.001 1 64 None 1000 false false ANNRegression.fresh
                  (state_of saved_ann) ParametricRegression.fresh
                  ParametricRegression.fresh empty_world (world_of saved_ann)) H).
Defined.

(** ** A recurrent network that was only constructed *)

Lemma TrainRNN_init_keeps_model (lp vp : ndarray) (tp : float) (name : string)
  (s0 : TrainRNN.t) (w : world) :
  TrainRNN.model (state_of (TrainRNN.init lp vp tp name s0 w)) = TrainRNN.model s0.
Proof.
  unfold TrainRNN.init, py_int.
  destruct (float_trunc (split_product tp (nd_len lp))) as [idx|];
    [reflexivity|].
  destruct (PrimFloat.eqb (split_product tp (nd_len lp))
              (split_product tp (nd_len lp))); reflexivity.
Qed.

(** X21: unlike [ANNRegression], the constructor of [TrainRNN] builds no
    model, whatever its arguments.  On the object it leaves, [trainModel]
    and [evaluateModel] raise [AttributeError] for [model] before Keras is
    called: nothing is fitted or evaluated and the object is unchanged. *)
Theorem TrainRNN_is_not_built_by_its_constructor :
  forall (env : Environment) (lp vp : ndarray) (tp : float) (name : string)
         (no_epochs : Z) (w w' : world),
    let s := state_of (TrainRNN.init lp vp tp name TrainRNN.fresh w) in
    TrainRNN.trainModel no_epochs s w' = (Raise (AttributeError "model"), s, w')
    /\ TrainRNN.evaluateModel s w' = (Raise (AttributeError "model"), s, w').
Proof.
  intros env lp vp tp name no_epochs w w' s.
  assert (H : TrainRNN.model s = None)
    by (unfold s; rewrite TrainRNN_init_keeps_model; reflexivity).
  unfold TrainRNN.trainModel, TrainRNN.evaluateModel, bind, attr.
  rewrite H. split; reflexivity.
Qed.

